(** * Paisa-Vasool backend: the bounty lifecycle of [server.js]

    A shallow embedding of the bounty store, the SQL statements and triggers
    issued against it, the two webhook command handlers, the REST handlers
    that approve, amend, complete and delete a bounty, and the webhook
    dispatcher, followed by the properties of the lifecycle.

    Conventions.
    - A JavaScript string is the list of its UTF-16 code units.
    - A JavaScript number that a command or the body of a request holds
      is the double nearest to the integer written; the driver sends it
      to the server as its [toString()].  The numbers of a webhook payload
      are safe integers (below 2^53 in magnitude) and are sent digit for
      digit, as is the id in the path of a request.
    - A table is the list of its rows, in insertion order; SELECT is a
      filter, UPDATE a map, DELETE a filter.  The server reads a parameter
      as the type of the column it is compared with or stored in, and
      fails the statement, before it runs, on a parameter that is not of
      that type.  SELECT, UPDATE and DELETE are atomic; an INSERT runs its
      row trigger on the rows committed so far and stores its row later,
      and other connections commit in between.
    - An [async] function is a function of the world (database, comments
      posted through the GitHub client, console) that returns or throws.
    - The GitHub client, the signature check, what other requests commit
      while a creation awaits the answer to its look-up or while an
      INSERT is between its trigger and its row, and the failures of the
      storage inside a transaction are oracles of the environment.
    - Of the console, the errors and the two "No valid ..." lines are
      kept; the progress lines are left out. *)

From Stdlib Require Import List ZArith NArith Bool String Ascii Lia Arith.
Import ListNotations.
Local Close Scope string_scope.
Local Open Scope list_scope.
Local Open Scope Z_scope.

Set Implicit Arguments.

(* ------------------------------------------------------------------ *)
(** ** JavaScript strings *)

Definition jsstring := list N.

Definition js (s : string) : jsstring :=
  map N_of_ascii (list_ascii_of_string s).

Fixpoint jseqb (a b : jsstring) : bool :=
  match a, b with
  | [], [] => true
  | x :: a', y :: b' => N.eqb x y && jseqb a' b'
  | _, _ => false
  end.

(** [String.prototype.startsWith] *)
Fixpoint startsWith (s prefix : jsstring) : bool :=
  match prefix, s with
  | [], _ => true
  | p :: prefix', c :: s' => N.eqb p c && startsWith s' prefix'
  | _ :: _, [] => false
  end.

(** [String.prototype.includes] *)
Fixpoint includes (s needle : jsstring) : bool :=
  startsWith s needle ||
  match s with
  | [] => false
  | _ :: s' => includes s' needle
  end.

(** [s.split("/")]: the pieces between the separators. *)
Fixpoint split_on (sep : N) (s : jsstring) : list jsstring :=
  match s with
  | [] => [[]]
  | c :: s' =>
      if N.eqb c sep then [] :: split_on sep s'
      else match split_on sep s' with
           | [] => [[c]]
           | piece :: pieces => (c :: piece) :: pieces
           end
  end.

Definition slash : N := 47.

(** [repository.split("/")[k]], [undefined] when there is no such piece. *)
Definition split_nth (k : nat) (repository : jsstring) : option jsstring :=
  nth_error (split_on slash repository) k.

(** JavaScript truthiness of a nullable string. *)
Definition truthy_string (s : option jsstring) : bool :=
  match s with
  | Some (_ :: _) => true
  | _ => false
  end.

(* ------------------------------------------------------------------ *)
(** ** The command patterns

    [/\/create-bounty\s+(\d+)/i] and [/\/claim-bounty\s+(\d+)/i], used with
    [String.prototype.match]: the leftmost position at which the whole
    pattern matches, and there the first capture group. *)

(** [\d] *)
Definition is_digit (c : N) : bool := (48 <=? c)%N && (c <=? 57)%N.

(** [\s]: WhiteSpace and LineTerminator of ECMAScript. *)
Definition is_space (c : N) : bool :=
  ((9 <=? c)%N && (c <=? 13)%N)
  || N.eqb c 32 || N.eqb c 160 || N.eqb c 5760
  || ((8192 <=? c)%N && (c <=? 8202)%N)
  || N.eqb c 8232 || N.eqb c 8233 || N.eqb c 8239 || N.eqb c 8287
  || N.eqb c 12288 || N.eqb c 65279.

(** Canonicalize of a non-unicode, ignore-case pattern, on the code units
    that can equal a canonicalized ASCII pattern character: a lower-case
    ASCII letter becomes its capital; a code unit outside ASCII is never
    mapped into ASCII. *)
Definition canonicalize (c : N) : N :=
  if (97 <=? c)%N && (c <=? 122)%N then (c - 32)%N else c.

Definition ci_eqb (p c : N) : bool := N.eqb (canonicalize p) (canonicalize c).

(** The literal part of the pattern at the head of [s]: what follows it. *)
Fixpoint match_literal (pat s : jsstring) : option jsstring :=
  match pat, s with
  | [], _ => Some s
  | p :: pat', c :: s' => if ci_eqb p c then match_literal pat' s' else None
  | _ :: _, [] => None
  end.

(** The longest prefix of characters of a class, and the rest. *)
Fixpoint span (cls : N -> bool) (s : jsstring) : jsstring * jsstring :=
  match s with
  | c :: s' =>
      if cls c then let (run, rest) := span cls s' in (c :: run, rest)
      else ([], s)
  | [] => ([], [])
  end.

(** [token\s+(\d+)] anchored at the head of [s]: the capture.  The two
    classes are disjoint, so the greedy runs need no backtracking. *)
Definition match_here (token s : jsstring) : option jsstring :=
  match match_literal token s with
  | None => None
  | Some after_token =>
      match span is_space after_token with
      | ([], _) => None
      | (_ :: _, after_space) =>
          match span is_digit after_space with
          | ([], _) => None
          | (digits, _) => Some digits
          end
      end
  end.

(** [s.match(/token\s+(\d+)/i)]: [match[1]] of the leftmost match. *)
Fixpoint regex_match (token s : jsstring) : option jsstring :=
  match match_here token s with
  | Some digits => Some digits
  | None =>
      match s with
      | [] => None
      | _ :: s' => regex_match token s'
      end
  end.

(* ------------------------------------------------------------------ *)
(** ** JavaScript numbers

    The numbers the program meets are integers, or an infinity: a run of
    digits read by [parseInt], or an integer in the JSON body of a
    request.  Either is the double nearest to the integer written, ties
    to the even mantissa, and an infinity from 2^1024 - 2^970 on. *)

Inductive number :=
| Finite (z : Z)
| Infinity (negative : bool).

(** The double nearest to a natural number, [None] when it is out of the
    range of the doubles. *)
Definition round_to_double (n : N) : option N :=
  if (n <? 2 ^ 53)%N then Some n
  else
    let e := (N.log2 n - 52)%N in
    let q := N.shiftr n e in
    let r := N.land n (N.ones e) in
    let half := N.shiftl 1 (e - 1) in
    let q' := if (half <? r)%N || ((r =? half)%N && N.odd q)
              then (q + 1)%N else q in
    let m := N.shiftl q' e in
    if (2 ^ 1024 <=? m)%N then None else Some m.

(** The Number value of an integer literal. *)
Definition to_number (z : Z) : number :=
  match round_to_double (Z.abs_N z) with
  | Some m => Finite (Z.sgn z * Z.of_N m)
  | None => Infinity (z <? 0)
  end.

(** The value of a run of decimal digits. *)
Definition decimal_value (digits : jsstring) : N :=
  fold_left (fun acc c => (10 * acc + (c - 48))%N) digits 0%N.

(** [parseInt] of a run of decimal digits. *)
Definition parseInt (digits : jsstring) : number :=
  to_number (Z.of_N (decimal_value digits)).

Definition create_token : jsstring := js "/create-bounty".
Definition claim_token : jsstring := js "/claim-bounty".

(** [match ? parseInt(match[1]) : null] *)
Definition command_argument (token text : jsstring) : option number :=
  match regex_match token text with
  | Some digits => Some (parseInt digits)
  | None => None
  end.

(** [!amount] on [null] or a number *)
Definition falsy (n : option number) : bool :=
  match n with
  | None => true
  | Some (Finite z) => z =? 0
  | Some (Infinity _) => false
  end.

(** [Number.prototype.toString] writes the shortest decimal that reads
    back as the same double: the digits of [shortest m], for a double [m].
    Up to 2^53 these are the digits of [m]; above, they are the fewest
    leading digits, followed by zeros, that still round to [m], and of
    those the nearest to [m]. *)
Fixpoint decimal_digits (fuel : nat) (n : N) : N :=
  match fuel with
  | O => 0%N
  | S fuel' =>
      if (n <? 10)%N then 1%N else (1 + decimal_digits fuel' (n / 10))%N
  end.

Definition rounds_to (m v : N) : bool :=
  match round_to_double v with
  | Some m' => (m' =? m)%N
  | None => false
  end.

Fixpoint shortest_from (ks : list N) (size m : N) : N :=
  match ks with
  | [] => m
  | k :: ks' =>
      let p := (10 ^ (size - k))%N in
      let lo := (m / p * p)%N in
      let hi := (lo + p)%N in
      match rounds_to m lo, rounds_to m hi with
      | true, true =>
          if (m - lo <? hi - m)%N then lo
          else if (hi - m <? m - lo)%N then hi
          else if N.even (m / p) then lo else hi
      | true, false => lo
      | false, true => hi
      | false, false => shortest_from ks' size m
      end
  end.

Definition shortest (m : N) : N :=
  if (m <=? 2 ^ 53)%N then m
  else shortest_from [1; 2; 3; 4; 5; 6; 7; 8; 9; 10; 11; 12; 13; 14; 15; 16; 17]%N
         (decimal_digits 400 m) m.

(** The text of a parameter, as the server reads it: the digits of an
    integer; a number in exponent notation, which [toString()] gives from
    10^21 on; or an infinity. *)
Inductive pg_text :=
| integer_text (z : Z)
| exponent_text (z : Z)
| infinity_text (negative : bool).

(** [x.toString()], as the driver sends a number. *)
Definition number_toString (x : number) : pg_text :=
  match x with
  | Finite z =>
      let v := Z.sgn z * Z.of_N (shortest (Z.abs_N z)) in
      if Z.abs v <? 10 ^ 21 then integer_text v else exponent_text v
  | Infinity negative => infinity_text negative
  end.

(** The pattern as a language: some substring of the text is the token in
    any letter case, then at least one white-space character, then at
    least one decimal digit. *)
Definition has_numeric_command (token text : jsstring) : Prop :=
  exists before tok spaces digits after,
    text = before ++ tok ++ spaces ++ digits ++ after
    /\ List.length tok = List.length token
    /\ match_literal token tok = Some []
    /\ spaces <> [] /\ forallb is_space spaces = true
    /\ digits <> [] /\ forallb is_digit digits = true.

(* ------------------------------------------------------------------ *)
(** ** The tables of [setupDatabase] *)

(** The three values the code ever writes to [bounties.status]. *)
Inductive bounty_status := st_open | st_payment_pending | st_completed.

Definition status_eqb (a b : bounty_status) : bool :=
  match a, b with
  | st_open, st_open => true
  | st_payment_pending, st_payment_pending => true
  | st_completed, st_completed => true
  | _, _ => false
  end.

(** A row of [users]: the columns the lifecycle reads or writes. *)
Module User.
Record t := {
  github_id : Z;
  github_installation_id : option jsstring;
  solana_address : option jsstring
}.
End User.

(** A value of a NUMERIC column, as far as the program can store one: an
    integer, or an infinity on a server that has them. *)
Inductive numeric :=
| Num (z : Z)
| NumInfinity (negative : bool).
Coercion Num : Z >-> numeric.

Module Bounty.
Record t := {
  id : Z;
  issue_id : Z;
  amount : numeric;
  status : bounty_status;
  repository : jsstring;
  issue_title : jsstring;
  issue_url : jsstring;
  creator_id : Z;
  claimed_by : option Z
}.
Definition is_open (b : t) : bool := status_eqb (status b) st_open.
Definition with_status (s : bounty_status) (b : t) : t :=
  {| id := id b; issue_id := issue_id b; amount := amount b; status := s;
     repository := repository b; issue_title := issue_title b;
     issue_url := issue_url b; creator_id := creator_id b;
     claimed_by := claimed_by b |}.
Definition with_claimed_by (u : option Z) (b : t) : t :=
  {| id := id b; issue_id := issue_id b; amount := amount b;
     status := status b; repository := repository b;
     issue_title := issue_title b; issue_url := issue_url b;
     creator_id := creator_id b; claimed_by := u |}.
Definition with_amount (a : numeric) (b : t) : t :=
  {| id := id b; issue_id := issue_id b; amount := a; status := status b;
     repository := repository b; issue_title := issue_title b;
     issue_url := issue_url b; creator_id := creator_id b;
     claimed_by := claimed_by b |}.
End Bounty.

Module Claim.
Record t := {
  id : Z;
  bounty_id : Z;
  user_id : Z;
  pull_request : Z
}.
End Claim.

(** The database: the three tables, the two SERIAL sequences, the name
    under which [bounty_claims] holds the pull-request number, and whether
    the NUMERIC type of the server has the infinities (PostgreSQL has them
    from version 14 on).  The statements of the program do not agree on
    the name of the column, and [CREATE TABLE IF NOT EXISTS] keeps
    whatever table is already there, so the name is part of the state;
    [setupDatabase] on an empty database makes it [pull_request]. *)
Record DB := {
  users : list User.t;
  bounties : list Bounty.t;
  bounty_claims : list Claim.t;
  bounties_id_seq : Z;
  bounty_claims_id_seq : Z;
  claims_pr_column : string;
  numeric_infinity : bool
}.

Definition set_users (us : list User.t) (d : DB) : DB :=
  {| users := us; bounties := bounties d; bounty_claims := bounty_claims d;
     bounties_id_seq := bounties_id_seq d;
     bounty_claims_id_seq := bounty_claims_id_seq d;
     claims_pr_column := claims_pr_column d;
     numeric_infinity := numeric_infinity d |}.

Definition set_bounties (bs : list Bounty.t) (d : DB) : DB :=
  {| users := users d; bounties := bs; bounty_claims := bounty_claims d;
     bounties_id_seq := bounties_id_seq d;
     bounty_claims_id_seq := bounty_claims_id_seq d;
     claims_pr_column := claims_pr_column d;
     numeric_infinity := numeric_infinity d |}.

Definition set_bounty_claims (cs : list Claim.t) (d : DB) : DB :=
  {| users := users d; bounties := bounties d; bounty_claims := cs;
     bounties_id_seq := bounties_id_seq d;
     bounty_claims_id_seq := bounty_claims_id_seq d;
     claims_pr_column := claims_pr_column d;
     numeric_infinity := numeric_infinity d |}.

(** A SERIAL column draws from a sequence of the type INTEGER: [next] is a
    value it can still give out. *)
Definition sequence_left (next : Z) : bool := next <=? 2147483647.

(** [nextval] of the two sequences; a sequence never goes back, also when
    the statement that drew from it fails. *)
Definition nextval_bounties (d : DB) : DB :=
  {| users := users d; bounties := bounties d;
     bounty_claims := bounty_claims d;
     bounties_id_seq := bounties_id_seq d + 1;
     bounty_claims_id_seq := bounty_claims_id_seq d;
     claims_pr_column := claims_pr_column d;
     numeric_infinity := numeric_infinity d |}.

Definition nextval_bounty_claims (d : DB) : DB :=
  {| users := users d; bounties := bounties d;
     bounty_claims := bounty_claims d;
     bounties_id_seq := bounties_id_seq d;
     bounty_claims_id_seq := bounty_claims_id_seq d + 1;
     claims_pr_column := claims_pr_column d;
     numeric_infinity := numeric_infinity d |}.

(** The database [setupDatabase] leaves when it starts from nothing, on
    a server whose NUMERIC has the infinities. *)
Definition setupDatabase : DB :=
  {| users := []; bounties := []; bounty_claims := [];
     bounties_id_seq := 1; bounty_claims_id_seq := 1;
     claims_pr_column := "pull_request"; numeric_infinity := true |}.

(* ------------------------------------------------------------------ *)
(** ** Statements

    A statement runs on the database and gives rows or an error carrying
    its SQLSTATE, the [error.code] of the driver. *)

Inductive result (A : Type) :=
| Ok (a : A)
| Err (sqlstate : string).
Arguments Err {A} sqlstate.

Definition statement (A : Type) := DB -> result A * DB.

(** [RAISE EXCEPTION] without an explicit code *)
Definition raise_exception : string := "P0001".
Definition undefined_column : string := "42703".
Definition foreign_key_violation : string := "23503".
Definition unique_violation : string := "23505".
Definition numeric_value_out_of_range : string := "22003".
Definition invalid_text_representation : string := "22P02".
Definition sequence_generator_limit_exceeded : string := "2200H".

(** The values of the type INTEGER. *)
Definition is_int4 (z : Z) : bool := (-2147483648 <=? z) && (z <=? 2147483647).

(** A parameter that is compared with an INTEGER column or stored in one
    and whose text is the digits of [z]: the statement runs when [z] is a
    value of the type and fails otherwise. *)
Definition int4_param {A} (z : Z) (q : statement A) : statement A :=
  fun d => if is_int4 z then q d else (Err numeric_value_out_of_range, d).

(** The INTEGER that the server reads a JavaScript number as, or the
    error with which it refuses the parameter: it reads the digits of an
    integer and nothing else as an INTEGER. *)
Definition as_int4 (x : number) : result Z :=
  match number_toString x with
  | integer_text z =>
      if is_int4 z then Ok z else Err numeric_value_out_of_range
  | _ => Err invalid_text_representation
  end.

(** A JavaScript number as a parameter that is compared with an INTEGER
    column or stored in one. *)
Definition number_param {A} (x : number) (q : Z -> statement A)
  : statement A :=
  fun d =>
    match as_int4 x with
    | Ok z => q z d
    | Err code => (Err code, d)
    end.

(** The NUMERIC that the server reads a JavaScript number as: the value
    of its text, in either notation, or an infinity. *)
Definition stored_as (x : number) : numeric :=
  match number_toString x with
  | integer_text z => Num z
  | exponent_text z => Num z
  | infinity_text negative => NumInfinity negative
  end.

(** Whether the server takes the number as a NUMERIC: an infinity only
    where the type has them. *)
Definition storable (d : DB) (x : number) : bool :=
  match x with
  | Finite _ => true
  | Infinity _ => numeric_infinity d
  end.

(** A JavaScript number as a parameter stored in a NUMERIC column. *)
Definition numeric_param {A} (x : number) (q : numeric -> statement A)
  : statement A :=
  fun d =>
    if storable d x then q (stored_as x) d
    else (Err invalid_text_representation, d).

Definition user_exists (uid : Z) (d : DB) : bool :=
  existsb (fun u => User.github_id u =? uid) (users d).

Definition bounty_exists (bid : Z) (d : DB) : bool :=
  existsb (fun b => Bounty.id b =? bid) (bounties d).

(** The condition under which [check_unique_open_bounty] raises. *)
Definition check_unique_open_bounty (NEW : Bounty.t) (d : DB) : bool :=
  Bounty.is_open NEW &&
  existsb (fun b => (Bounty.issue_id b =? Bounty.issue_id NEW)
                    && negb (Bounty.id b =? Bounty.id NEW)
                    && Bounty.is_open b) (bounties d).

Definition open_bounty_id (bid : Z) (d : DB) : bool :=
  existsb (fun b => (Bounty.id b =? bid) && Bounty.is_open b) (bounties d).

(** [check_unique_claim_on_open_bounty]: its condition names the column
    [pull_request_number], of the table and of [NEW]. *)
Definition check_unique_claim_on_open_bounty (NEW : Claim.t) (d : DB)
  : result unit :=
  if negb (String.eqb (claims_pr_column d) "pull_request_number")
  then Err undefined_column
  else if open_bounty_id (Claim.bounty_id NEW) d
          && existsb (fun c => (Claim.pull_request c =? Claim.pull_request NEW)
                               && open_bounty_id (Claim.bounty_id c) d
                               && negb (Claim.id c =? Claim.id NEW))
                     (bounty_claims d)
  then Err raise_exception
  else Ok tt.

(** A statement that leaves the database as it is. *)
Definition reads {A} (q : statement A) : Prop := forall d, snd (q d) = d.

(** [SELECT * FROM users WHERE github_id = $1] *)
Definition select_user (uid : Z) : statement (list User.t) :=
  int4_param uid
    (fun d => (Ok (filter (fun u => User.github_id u =? uid) (users d)), d)).

(** The rows of [bounties] with [issue_id = issueId AND status = 'open']. *)
Definition open_bounties_of_issue (issueId : Z) (d : DB) : list Bounty.t :=
  filter (fun b => (Bounty.issue_id b =? issueId) && Bounty.is_open b)
         (bounties d).

(** [SELECT * FROM bounties WHERE issue_id = $1 AND status = 'open'] *)
Definition select_open_bounty_of_issue (issueId : Z)
  : statement (list Bounty.t) :=
  fun d => (Ok (open_bounties_of_issue issueId d), d).

(** [SELECT * FROM bounties WHERE id = $1] *)
Definition select_bounty (bid : Z) : statement (list Bounty.t) :=
  int4_param bid
    (fun d => (Ok (filter (fun b => Bounty.id b =? bid) (bounties d)), d)).

(** [SELECT * FROM bounties WHERE id = $1 AND status = $2] *)
Definition select_bounty_with_status (bid : Z) (s : bounty_status)
  : statement (list Bounty.t) :=
  int4_param bid
    (fun d => (Ok (filter (fun b => (Bounty.id b =? bid)
                                    && status_eqb (Bounty.status b) s)
                          (bounties d)), d)).

(** [SELECT * FROM bounties WHERE id = $1 AND creator_id = $2] *)
Definition select_bounty_of_creator (bid creator : Z)
  : statement (list Bounty.t) :=
  int4_param bid
    (int4_param creator
       (fun d => (Ok (filter (fun b => (Bounty.id b =? bid)
                                       && (Bounty.creator_id b =? creator))
                             (bounties d)), d))).

(** [SELECT * FROM bounty_claims WHERE bounty_id = $1 AND user_id = $2] *)
Definition select_claim (bid uid : Z) : statement (list Claim.t) :=
  int4_param bid
    (int4_param uid
       (fun d => (Ok (filter (fun c => (Claim.bounty_id c =? bid)
                                       && (Claim.user_id c =? uid))
                             (bounty_claims d)), d))).

(** [SELECT <column> FROM bounty_claims WHERE bounty_id = $1]: the names
    of the statement are resolved before its parameters are read. *)
Definition select_pull_requests (column : string) (bid : Z)
  : statement (list Z) :=
  fun d =>
    if negb (String.eqb column (claims_pr_column d))
    then (Err undefined_column, d)
    else int4_param bid
           (fun d =>
              (Ok (map Claim.pull_request
                     (filter (fun c => Claim.bounty_id c =? bid)
                             (bounty_claims d))), d)) d.

Fixpoint distinct (l : list Z) : list Z :=
  match l with
  | [] => []
  | x :: l' => x :: filter (fun y => negb (y =? x)) (distinct l')
  end.

(** [SELECT DISTINCT user_id FROM bounty_claims WHERE bounty_id = $1] *)
Definition select_claimants (bid : Z) : statement (list Z) :=
  int4_param bid
    (fun d => (Ok (distinct (map Claim.user_id
                     (filter (fun c => Claim.bounty_id c =? bid)
                             (bounty_claims d)))), d)).

(** [INSERT INTO bounties (issue_id, amount, status, creator_id, repository,
    issue_title, issue_url) VALUES (...) RETURNING id]: the id comes from
    the sequence, which fails the statement once it has run out, and the
    row trigger runs, on the rows committed so far, before the row is
    stored; the primary key is checked as the row is
    stored and the foreign key on [creator_id] after.  The trigger holds
    no lock: [overlap] is what other connections commit between its look
    at the table and the storing of the row. *)
Definition insert_bounty (overlap : DB -> DB) (issueId : Z) (amount : numeric)
    (s : bounty_status) (creator : Z) (repository title url : jsstring)
  : statement Z :=
  int4_param creator
    (fun d =>
       if negb (sequence_left (bounties_id_seq d))
       then (Err sequence_generator_limit_exceeded, d)
       else
         let NEW := {| Bounty.id := bounties_id_seq d;
                       Bounty.issue_id := issueId;
                       Bounty.amount := amount; Bounty.status := s;
                       Bounty.repository := repository;
                       Bounty.issue_title := title; Bounty.issue_url := url;
                       Bounty.creator_id := creator;
                       Bounty.claimed_by := None |} in
         let d1 := nextval_bounties d in
         if check_unique_open_bounty NEW d1 then (Err raise_exception, d1)
         else
           let d2 := overlap d1 in
           if bounty_exists (Bounty.id NEW) d2 then (Err unique_violation, d2)
           else if negb (user_exists creator d2)
           then (Err foreign_key_violation, d2)
           else (Ok (Bounty.id NEW), set_bounties (bounties d2 ++ [NEW]) d2)).

(** [INSERT INTO bounty_claims (bounty_id, user_id, <column>) VALUES (...)],
    with its trigger and the commits of other connections as above. *)
Definition insert_bounty_claim (overlap : DB -> DB) (column : string)
    (bid uid pr : Z) : statement unit :=
  fun d =>
    if negb (String.eqb column (claims_pr_column d))
    then (Err undefined_column, d)
    else
      int4_param bid
        (int4_param uid
           (fun d =>
              if negb (sequence_left (bounty_claims_id_seq d))
              then (Err sequence_generator_limit_exceeded, d)
              else
                let NEW := {| Claim.id := bounty_claims_id_seq d;
                              Claim.bounty_id := bid;
                              Claim.user_id := uid;
                              Claim.pull_request := pr |} in
                let d1 := nextval_bounty_claims d in
                match check_unique_claim_on_open_bounty NEW d1 with
                | Err code => (Err code, d1)
                | Ok _ =>
                    let d2 := overlap d1 in
                    if existsb (fun c => Claim.id c =? Claim.id NEW)
                               (bounty_claims d2)
                    then (Err unique_violation, d2)
                    else if bounty_exists bid d2 && user_exists uid d2
                    then (Ok tt,
                          set_bounty_claims (bounty_claims d2 ++ [NEW]) d2)
                    else (Err foreign_key_violation, d2)
                end)) d.

Definition option_Z_eqb (a b : option Z) : bool :=
  match a, b with
  | None, None => true
  | Some x, Some y => x =? y
  | _, _ => false
  end.

(** The foreign key of [claimed_by], checked when an update changes it. *)
Definition claimed_by_ok (OLD NEW : Bounty.t) (d : DB) : bool :=
  option_Z_eqb (Bounty.claimed_by OLD) (Bounty.claimed_by NEW)
  || match Bounty.claimed_by NEW with
     | None => true
     | Some u => user_exists u d
     end.

(** [UPDATE bounties SET ... WHERE id = $n]: the row trigger runs on every
    row the statement touches; one that raises undoes the statement. *)
Definition update_bounty (bid : Z) (set : Bounty.t -> Bounty.t)
  : statement unit :=
  int4_param bid
    (fun d =>
       let touched := filter (fun b => Bounty.id b =? bid) (bounties d) in
       if existsb (fun OLD => check_unique_open_bounty (set OLD) d) touched
       then (Err raise_exception, d)
       else if negb (forallb (fun OLD => claimed_by_ok OLD (set OLD) d) touched)
       then (Err foreign_key_violation, d)
       else (Ok tt,
             set_bounties
               (map (fun b => if Bounty.id b =? bid then set b else b)
                    (bounties d))
               d)).

(** [UPDATE bounties SET status = $1, claimed_by = $2 WHERE id = $3] *)
Definition update_status_and_claimed_by (s : bounty_status) (claimant bid : Z)
  : statement unit :=
  int4_param claimant
    (update_bounty bid
       (fun b =>
          Bounty.with_claimed_by (Some claimant) (Bounty.with_status s b))).

(** [UPDATE bounties SET amount = $1 WHERE id = $2] *)
Definition update_amount (amount : numeric) (bid : Z) : statement unit :=
  update_bounty bid (Bounty.with_amount amount).

(** [UPDATE bounties SET status = $1 WHERE id = $2] *)
Definition update_status (s : bounty_status) (bid : Z) : statement unit :=
  update_bounty bid (Bounty.with_status s).

(** [DELETE FROM bounty_claims WHERE bounty_id = $1] *)
Definition delete_claims (bid : Z) : statement unit :=
  int4_param bid
    (fun d =>
       (Ok tt,
        set_bounty_claims
          (filter (fun c => negb (Claim.bounty_id c =? bid)) (bounty_claims d))
          d)).

(** [DELETE FROM bounties WHERE id = $1]; a claim row that still refers to
    the bounty makes it fail. *)
Definition delete_bounty (bid : Z) : statement unit :=
  int4_param bid
    (fun d =>
       if bounty_exists bid d
          && existsb (fun c => Claim.bounty_id c =? bid) (bounty_claims d)
       then (Err foreign_key_violation, d)
       else (Ok tt,
             set_bounties
               (filter (fun b => negb (Bounty.id b =? bid)) (bounties d)) d)).

(** [UPDATE users SET github_installation_id = NULL WHERE github_id = $1] *)
Definition clear_installation (uid : Z) : statement unit :=
  int4_param uid
    (fun d =>
       (Ok tt,
        set_users
          (map (fun u =>
                  if User.github_id u =? uid
                  then {| User.github_id := User.github_id u;
                          User.github_installation_id := None;
                          User.solana_address := User.solana_address u |}
                  else u) (users d)) d)).

(* ------------------------------------------------------------------ *)
(** ** Webhook payloads *)

Module Comment.
Record t := { body : jsstring }.
End Comment.

Module Issue.
Record t := {
  id : Z;
  number : Z;
  body : option jsstring;
  title : jsstring;
  html_url : jsstring;
  (** whether [issue.pull_request] is there: the issue is a pull request *)
  pull_request : bool
}.
End Issue.

Module PullRequest.
Record t := {
  number : Z;
  body : option jsstring;
  head_sha : jsstring;
  (** the number of files the pull request changes *)
  changed_files : N
}.
End PullRequest.

Module Repository.
Record t := {
  owner_login : jsstring;
  name : jsstring;
  full_name : jsstring
}.
End Repository.

Module Payload.
Record t := {
  action : option jsstring;
  comment : option Comment.t;
  issue : option Issue.t;
  pull_request : option PullRequest.t;
  sender_id : Z;
  repository : Repository.t;
  installation_id : Z
}.
End Payload.

(* ------------------------------------------------------------------ *)
(** ** Comments posted through the GitHub client *)

(** The texts the program posts, by what they say. *)
Inductive message :=
| OpenBountyExists
| BountyCreated (amount : number) (bountyId : Z) (repository : jsstring)
| JoinFirst
| NoOpenBounty (bountyId : number)
| OwnBounty
| ReviewPending
| AlreadyClaimed
| AmountUpdated (oldAmount : numeric) (newAmount : number)
| BountyDeleted (claimant bountyId : Z).

Inductive api_call :=
| issues_createComment (owner repo : option jsstring) (issue_number : Z)
    (body : message)
| pulls_createReviewComment (owner repo : option jsstring) (pull_number : Z)
    (body : message) (commit_id path : jsstring) (line : Z).

(* ------------------------------------------------------------------ *)
(** ** Async functions *)

Inductive error :=
| PgError (sqlstate : string)
| TypeError
| ReferenceError
| RequestError (call : api_call)
| VerifyError
| StorageFault.

(** [error.code] *)
Definition error_code (e : error) : option string :=
  match e with
  | PgError sqlstate => Some sqlstate
  | _ => None
  end.

Inductive log_entry :=
| console_log (text : string)
| console_error (text : string) (e : error).

(** What a request sees and leaves: the database, the snapshot to which
    an open transaction of its client rolls back, the calls GitHub
    accepted, the console. *)
Record world := {
  db : DB;
  tx : option DB;
  outbox : list api_call;
  console : list log_entry
}.

Definition request_world (d : DB) : world :=
  {| db := d; tx := None; outbox := []; console := [] |}.

Inductive outcome (A : Type) :=
| Return (a : A)
| Throw (e : error).
Arguments Throw {A} e.

Definition M (A : Type) := world -> outcome A * world.

Definition ret {A} (a : A) : M A := fun w => (Return a, w).

Definition throw {A} (e : error) : M A := fun w => (Throw e, w).

Definition bind {A B} (m : M A) (k : A -> M B) : M B :=
  fun w =>
    match m w with
    | (Return a, w') => k a w'
    | (Throw e, w') => (Throw e, w')
    end.

(** [try { m } catch (error) { handler }] *)
Definition try_catch {A} (m : M A) (handler : error -> M A) : M A :=
  fun w =>
    match m w with
    | (Return a, w') => (Return a, w')
    | (Throw e, w') => handler e w'
    end.

Declare Scope async_scope.
Delimit Scope async_scope with async.
Notation "x <- m ;; k" := (bind m (fun x => k))
  (at level 61, m at next level, right associativity) : async_scope.
Notation "m ;; k" := (bind m (fun _ => k))
  (at level 61, right associativity) : async_scope.
Local Open Scope async_scope.

Definition set_db (d : DB) (w : world) : world :=
  {| db := d; tx := tx w; outbox := outbox w; console := console w |}.

(** [await client.query(...)] *)
Definition query {A} (q : statement A) : M A :=
  fun w =>
    match q (db w) with
    | (Ok a, d') => (Return a, set_db d' w)
    | (Err code, d') => (Throw (PgError code), set_db d' w)
    end.

Definition log (entry : log_entry) : M unit :=
  fun w =>
    (Return tt,
     {| db := db w; tx := tx w; outbox := outbox w;
        console := console w ++ [entry] |}).

(** The collaborators of a request. *)
Record Env := {
  (** whether GitHub accepts a call *)
  post_ok : api_call -> bool;
  (** what other requests commit between the look-up for an open bounty
      and the insert of the new one *)
  between : DB -> DB;
  (** what other connections commit while an INSERT of the request is
      between its trigger and the storing of its row *)
  overlap : DB -> DB;
  (** [gitHubApp.webhooks.verify]: its boolean, or [None] when it throws *)
  verify : Payload.t -> option jsstring -> option bool;
  (** whether the storage fails at the k-th statement of a transaction *)
  storage_fault : nat -> bool
}.

(** [await appOctokit.rest....(call)] *)
Definition post (env : Env) (call : api_call) : M unit :=
  fun w =>
    if post_ok env call
    then (Return tt,
          {| db := db w; tx := tx w; outbox := outbox w ++ [call];
             console := console w |})
    else (Throw (RequestError call), w).

(** The other requests run while this one awaits. *)
Definition interleave (env : Env) : M unit :=
  fun w => (Return tt, set_db (between env (db w)) w).

(** [BEGIN], [COMMIT], [ROLLBACK] on the client of the request.  (No
    statement of the program draws from a sequence inside a transaction,
    so bringing the snapshot back is all a ROLLBACK does.) *)
Definition BEGIN : M unit :=
  fun w =>
    (Return tt,
     {| db := db w; tx := Some (db w); outbox := outbox w;
        console := console w |}).

Definition COMMIT : M unit :=
  fun w =>
    (Return tt,
     {| db := db w; tx := None; outbox := outbox w; console := console w |}).

Definition ROLLBACK : M unit :=
  fun w =>
    (Return tt,
     {| db := match tx w with Some snapshot => snapshot | None => db w end;
        tx := None; outbox := outbox w; console := console w |}).

(** The k-th awaited call of a transaction: the storage may fail on it. *)
Definition fallible {A} (env : Env) (k : nat) (m : M A) : M A :=
  if storage_fault env k then throw StorageFault else m.

(* ------------------------------------------------------------------ *)
(** ** [handleBountyCreation] *)

Definition issue_comment_on (p : Payload.t) (i : Issue.t) (body : message)
  : api_call :=
  issues_createComment (Some (Repository.owner_login (Payload.repository p)))
                (Some (Repository.name (Payload.repository p)))
                (Issue.number i) body.

(** The amount the handler reads: from the comment when the payload has
    one, else from the issue description. *)
Definition creation_amount (p : Payload.t) : M (option number) :=
  match Payload.comment p with
  | Some c => ret (command_argument create_token (Comment.body c))
  | None =>
      match Payload.issue p with
      | Some i =>
          match Issue.body i with
          | Some text => ret (command_argument create_token text)
          | None => throw TypeError
          end
      | None => ret None
      end
  end.

Definition handleBountyCreation (env : Env) (p : Payload.t) : M (option Z) :=
  amount <- creation_amount p ;;
  if falsy amount then
    log (console_log
           "No valid bounty amount found in the comment or issue description") ;;
    ret None
  else
    match Payload.issue p, amount with
    | Some i, Some amount =>
        let issueId := Issue.id i in
        let userId := Payload.sender_id p in
        try_catch
          (existingBountyResult <- query (select_open_bounty_of_issue issueId) ;;
           match existingBountyResult with
           | _ :: _ =>
               post env (issue_comment_on p i OpenBountyExists) ;;
               ret None
           | [] =>
               interleave env ;;
               bountyId <-
                 query (numeric_param amount
                          (fun amount =>
                             insert_bounty (overlap env) issueId amount st_open
                               userId
                               (Repository.full_name (Payload.repository p))
                               (Issue.title i) (Issue.html_url i))) ;;
               post env (issue_comment_on p i
                           (BountyCreated amount bountyId
                              (Repository.full_name (Payload.repository p)))) ;;
               ret (Some bountyId)
           end)
          (fun e => log (console_error "Error creating bounty:" e) ;; throw e)
    | _, _ => throw TypeError
    end.

(* ------------------------------------------------------------------ *)
(** ** [handleBountyClaim] *)

(** The [createComment] closure of the handler: on the conversation of the
    pull request for a comment event, as a review comment otherwise.  The
    path of the review comment is
    [changed_files > 0 ? changed_files[0].filename : ""], and
    [changed_files] is a number: reading [filename] of its element 0
    throws. *)
Definition createComment (env : Env) (p : Payload.t) (isPRComment : bool)
    (body : message) : M unit :=
  if isPRComment then
    match Payload.issue p with
    | Some i => post env (issue_comment_on p i body)
    | None => throw TypeError
    end
  else
    match Payload.pull_request p with
    | Some pr =>
        if (0 <? PullRequest.changed_files pr)%N then throw TypeError
        else post env
               (pulls_createReviewComment
                  (Some (Repository.owner_login (Payload.repository p)))
                  (Some (Repository.name (Payload.repository p)))
                  (PullRequest.number pr) body (PullRequest.head_sha pr) [] 1)
    | None => throw TypeError
    end.

(** The bounty id the handler reads, and whether it came from a comment. *)
Definition claim_bounty_id (p : Payload.t) : M (option number * bool) :=
  match Payload.comment p with
  | Some c => ret (command_argument claim_token (Comment.body c), true)
  | None =>
      match Payload.pull_request p with
      | Some pr =>
          match PullRequest.body pr with
          | Some text => ret (command_argument claim_token text, false)
          | None => throw TypeError
          end
      | None => ret (None, false)
      end
  end.

(** The [catch] of the handler.  [createComment] is a [const] of the
    [try] block, out of scope here: calling it throws a ReferenceError. *)
Definition claim_catch (e : error) : M unit :=
  match error_code e with
  | Some code =>
      if String.eqb code unique_violation
      then throw ReferenceError
      else log (console_error "Error claiming bounty:" e)
  | None => log (console_error "Error claiming bounty:" e)
  end.

Definition handleBountyClaim (env : Env) (p : Payload.t) : M unit :=
  parsed <- claim_bounty_id p ;;
  let (bountyId, isPRComment) := parsed in
  match bountyId with
  | Some bountyId =>
    if falsy (Some bountyId) then
      log (console_log
             "No valid bounty ID found in the PR comment or pull request body")
    else
      let userId := Payload.sender_id p in
      try_catch
        (userResult <- query (select_user userId) ;;
         match userResult with
         | [] => createComment env p isPRComment JoinFirst
         | _ :: _ =>
             bountyResult <-
               query (number_param bountyId
                        (fun bountyId =>
                           select_bounty_with_status bountyId st_open)) ;;
             match bountyResult with
             | [] => createComment env p isPRComment (NoOpenBounty bountyId)
             | bounty :: _ =>
                 if Bounty.creator_id bounty =? userId
                 then createComment env p isPRComment OwnBounty
                 else
                   match Payload.pull_request p with
                   | None => throw TypeError
                   | Some pr =>
                       query (insert_bounty_claim (overlap env)
                                "pull_request_number"
                                (Bounty.id bounty) userId
                                (PullRequest.number pr)) ;;
                       createComment env p isPRComment ReviewPending
                   end
             end
         end)
        claim_catch
  | None =>
      log (console_log
             "No valid bounty ID found in the PR comment or pull request body")
  end.

(* ------------------------------------------------------------------ *)
(** ** The REST handlers

    [authenticateUser] has put the row of the requester in [req.user]. *)

Inductive json :=
| error_body (error : string)
| message_body (message : string)
| payout_body (fromWalletAddress toWalletAddress : option jsstring)
    (amount : numeric) (bountyId : Z)
| text_body (text : string).

Record response := { status_code : Z; body : json }.

Definition respond (code : Z) (b : json) : M response :=
  ret {| status_code := code; body := b |}.

(** [app.post("/api/approve-bounty-verify")]; [bountyId] and [claimantId]
    are the integers that the body of the request holds under these
    names. *)
Definition approve_bounty_verify (req_user : User.t) (bountyId claimantId : Z)
  : M response :=
  let bounty_id := to_number bountyId in
  let claimant_id := to_number claimantId in
  try_catch
    (bountyResult <- query (number_param bounty_id select_bounty) ;;
     match bountyResult with
     | [] => respond 404 (error_body "Bounty not found")
     | bounty :: _ =>
         claimResult <-
           query (number_param bounty_id
                    (fun bountyId =>
                       number_param claimant_id (select_claim bountyId))) ;;
         match claimResult with
         | [] => respond 400 (error_body "Claimant has not claimed this bounty")
         | _ :: _ =>
             if negb (Bounty.creator_id bounty =? User.github_id req_user)
             then respond 401 (error_body "Unauthorized")
             else
               ownerResult <- query (select_user (Bounty.creator_id bounty)) ;;
               claimantResult <- query (number_param claimant_id select_user) ;;
               match ownerResult, claimantResult with
               | owner :: _, claimant :: _ =>
                   if negb (truthy_string (User.solana_address owner))
                      || negb (truthy_string (User.solana_address claimant))
                   then respond 400
                          (error_body
                             "Solana address of owner or claimant not found")
                   else
                     query (number_param claimant_id
                              (fun claimantId =>
                                 number_param bounty_id
                                   (update_status_and_claimed_by
                                      st_payment_pending claimantId))) ;;
                     respond 200
                       (payout_body (User.solana_address owner)
                          (User.solana_address claimant)
                          (Bounty.amount bounty) bountyId)
               | _, _ => respond 400 (error_body "Owner or claimant not found")
               end
         end
     end)
    (fun e =>
       log (console_error "Error approving bounty:" e) ;;
       respond 500 (error_body "Failed to approve bounty")).

(** [for (const x of xs) { await body(x) }] *)
Fixpoint for_of {A} (xs : list A) (body : A -> M unit) : M unit :=
  match xs with
  | [] => ret tt
  | x :: xs' => body x ;; for_of xs' body
  end.

Definition amendment_on_issue (bounty : Bounty.t) (oldAmount : numeric)
    (newAmount : number) : api_call :=
  issues_createComment (split_nth 0 (Bounty.repository bounty))
                (split_nth 1 (Bounty.repository bounty))
                (Bounty.issue_id bounty)
                (AmountUpdated oldAmount newAmount).

Definition amendment_on_pull_request (bounty : Bounty.t)
    (oldAmount : numeric) (newAmount : number) (prNumber : Z) : api_call :=
  pulls_createReviewComment (split_nth 0 (Bounty.repository bounty))
                      (split_nth 1 (Bounty.repository bounty))
                      prNumber (AmountUpdated oldAmount newAmount)
                      (js "latest") [] 1.

(** [app.put("/api/bounty/:id")]; [bountyId] is the integer whose digits
    the path holds and [amount] the integer in the body of the request. *)
Definition put_bounty (env : Env) (req_user : User.t) (bountyId amount : Z)
  : M response :=
  let newAmount := to_number amount in
  try_catch
    (bountyResult <-
       query (select_bounty_of_creator bountyId (User.github_id req_user)) ;;
     match bountyResult with
     | [] => respond 404 (error_body "Bounty not found or you are not the owner")
     | bounty :: _ =>
         let oldAmount := Bounty.amount bounty in
         query (numeric_param newAmount
                  (fun amount => update_amount amount bountyId)) ;;
         pullRequestNumbers <-
           query (select_pull_requests "pull_request" bountyId) ;;
         try_catch
           (post env (amendment_on_issue bounty oldAmount newAmount))
           (fun e => log (console_error "Error creating comment on issue:" e)) ;;
         for_of pullRequestNumbers
           (fun prNumber =>
              post env
                (amendment_on_pull_request bounty oldAmount newAmount prNumber)) ;;
         respond 200 (message_body "Bounty amount updated successfully")
     end)
    (fun e =>
       log (console_error "Error updating bounty:" e) ;;
       respond 500 (error_body "Failed to update bounty")).

Definition deletion_notice (bounty : Bounty.t) (claimant bountyId : Z)
  : api_call :=
  issues_createComment (split_nth 0 (Bounty.repository bounty))
                (split_nth 1 (Bounty.repository bounty))
                (Bounty.issue_id bounty)
                (BountyDeleted claimant bountyId).

(** [app.delete("/api/bounty/:id")]; [bountyId] is the integer whose
    digits the path holds. *)
Definition delete_bounty_handler (env : Env) (req_user : User.t) (bountyId : Z)
  : M response :=
  try_catch
    (fallible env 0 BEGIN ;;
     bountyResult <-
       fallible env 1
         (query (select_bounty_of_creator bountyId (User.github_id req_user))) ;;
     match bountyResult with
     | [] =>
         ROLLBACK ;;
         respond 404 (error_body "Bounty not found or you are not the owner")
     | bounty :: _ =>
         claimants <- fallible env 2 (query (select_claimants bountyId)) ;;
         fallible env 3 (query (delete_claims bountyId)) ;;
         fallible env 4 (query (delete_bounty bountyId)) ;;
         fallible env 5 COMMIT ;;
         for_of claimants
           (fun claimant =>
              try_catch
                (post env (deletion_notice bounty claimant bountyId))
                (fun e => log (console_error "Error notifying claimant" e))) ;;
         respond 200
           (message_body "Bounty deleted successfully and claimants notified")
     end)
    (fun e =>
       ROLLBACK ;;
       log (console_error "Error deleting bounty:" e) ;;
       respond 500 (error_body "Failed to delete bounty")).

(** [app.post("/api/complete-bounty")]; [bountyId] is the integer that
    the body of the request holds under this name. *)
Definition complete_bounty (bountyId : Z) : M response :=
  try_catch
    (query (number_param (to_number bountyId) (update_status st_completed)) ;;
     respond 200 (message_body "Bounty completed successfully"))
    (fun e =>
       log (console_error "Error completing bounty:" e) ;;
       respond 500 (error_body "Failed to complete bounty")).

(* ------------------------------------------------------------------ *)
(** ** The webhook dispatcher *)

Record webhook_request := {
  x_github_event : option jsstring;
  x_hub_signature_256 : option jsstring;
  req_body : Payload.t
}.

(** [value === "literal"] on a header or a payload field. *)
Definition is_literal (value : option jsstring) (literal : string) : bool :=
  match value with
  | Some v => jseqb v (js literal)
  | None => false
  end.

(** [text && text.includes(token)] *)
Definition mentions (text : option jsstring) (token : jsstring) : bool :=
  truthy_string text
  && match text with Some t => includes t token | None => false end.

(** The [try] block of [app.post("/api/github/webhooks")]. *)
Definition webhook_try (env : Env) (req : webhook_request) : M response :=
  let event := x_github_event req in
  let payload := req_body req in
  match verify env payload (x_hub_signature_256 req) with
  | None => throw VerifyError
  | Some _ =>
      (if is_literal event "installation"
          && is_literal (Payload.action payload) "deleted"
       then query (clear_installation (Payload.sender_id payload))
       else ret tt) ;;
      (if is_literal event "issue_comment"
          && is_literal (Payload.action payload) "created"
       then
         match Payload.comment payload, Payload.issue payload with
         | Some c, Some i =>
             if Issue.pull_request i then
               if startsWith (Comment.body c) claim_token
               then handleBountyClaim env payload
               else ret tt
             else
               if startsWith (Comment.body c) create_token
               then handleBountyCreation env payload ;; ret tt
               else ret tt
         | _, _ => throw TypeError
         end
       else if is_literal event "issues"
               && is_literal (Payload.action payload) "opened"
       then
         match Payload.issue payload with
         | Some i =>
             if mentions (Issue.body i) create_token
             then handleBountyCreation env payload ;; ret tt
             else ret tt
         | None => throw TypeError
         end
       else if is_literal event "pull_request"
               && is_literal (Payload.action payload) "opened"
       then
         match Payload.pull_request payload with
         | Some pr =>
             if mentions (PullRequest.body pr) claim_token
             then handleBountyClaim env payload
             else ret tt
         | None => throw TypeError
         end
       else ret tt) ;;
      respond 200 (text_body "Webhook received")
  end.

(** [app.post("/api/github/webhooks")] *)
Definition webhook (env : Env) (req : webhook_request) : M response :=
  try_catch (webhook_try env req)
    (fun e =>
       log (console_error "Error processing webhook:" e) ;;
       respond 500 (error_body "Failed to process webhook")).

(* ------------------------------------------------------------------ *)
(** ** The store as a state machine *)

(** The operations of the lifecycle, each a request served on its own
    client. *)
Inductive operation :=
| creation (p : Payload.t)
| claiming (p : Payload.t)
| approval (req_user : User.t) (bountyId claimantId : Z)
| amount_update (req_user : User.t) (bountyId newAmount : Z)
| completion (bountyId : Z)
| deletion (req_user : User.t) (bountyId : Z)
| delivery (req : webhook_request).

Definition db_after {A} (m : M A) (d : DB) : DB :=
  db (snd (m (request_world d))).

Definition run (env : Env) (op : operation) : DB -> DB :=
  match op with
  | creation p => db_after (handleBountyCreation env p)
  | claiming p => db_after (handleBountyClaim env p)
  | approval u b c => db_after (approve_bounty_verify u b c)
  | amount_update u b a => db_after (put_bounty env u b a)
  | completion b => db_after (complete_bounty b)
  | deletion u b => db_after (delete_bounty_handler env u b)
  | delivery req => db_after (webhook env req)
  end.

(** A database with empty tables; [bounty_claims] may predate the program
    and name its pull-request column otherwise, and the server may be of
    either kind. *)
Definition created (column : string) (infinity : bool) : DB :=
  {| users := []; bounties := []; bounty_claims := [];
     bounties_id_seq := 1; bounty_claims_id_seq := 1;
     claims_pr_column := column; numeric_infinity := infinity |}.

(** What requests make of a store: accounts change through the sign-in
    routes and operations run one after the other or into one another.
    What the environment of an operation commits, between the look-up and
    the insert of a creation or inside an INSERT, is itself the work of
    requests on the store they find. *)
Inductive evolves : DB -> DB -> Prop :=
| evolves_refl : forall d, evolves d d
| evolves_accounts : forall d0 d us,
    evolves d0 d -> evolves d0 (set_users us d)
| evolves_run : forall env op d0 d,
    evolves d0 d ->
    (forall x, evolves x (between env x)) ->
    (forall x, evolves x (overlap env x)) ->
    evolves d0 (run env op d).

(** The other requests of an environment do what requests do. *)
Definition fair (env : Env) : Prop :=
  (forall x, evolves x (between env x))
  /\ (forall x, evolves x (overlap env x)).

(** The states of the store: what requests make of an empty one. *)
Inductive reachable : DB -> Prop :=
| reach_created : forall column infinity, reachable (created column infinity)
| reach_accounts : forall d us, reachable d -> reachable (set_users us d)
| reach_run : forall env op d,
    reachable d -> fair env -> reachable (run env op d).

(** The highest id the sequence of [bounties] has given out is below its
    next value. *)
Definition ids_below_seq (d : DB) : Prop :=
  forall b, In b (bounties d) -> Bounty.id b < bounties_id_seq d.

(** [rows[0]] of a look-up, if it gives a row. *)
Definition first_row {A} (r : result (list A) * DB) : option A :=
  match fst r with
  | Ok rows => hd_error rows
  | Err _ => None
  end.

(** The row of a user, as the look-up by [github_id] gives it. *)
Definition user_row (uid : Z) (d : DB) : option User.t :=
  first_row (select_user uid d).

(** The row of a bounty, as the look-up by [id] gives it. *)
Definition bounty_row (bid : Z) (d : DB) : option Bounty.t :=
  first_row (select_bounty bid d).

Definition has_claim (bid uid : Z) (d : DB) : Prop :=
  exists c, In c (bounty_claims d)
            /\ Claim.bounty_id c = bid /\ Claim.user_id c = uid.

Definition message_of (call : api_call) : message :=
  match call with
  | issues_createComment _ _ _ body => body
  | pulls_createReviewComment _ _ _ body _ _ _ => body
  end.

(** An async function keeps a property of the world. *)
Definition keeps (P : world -> Prop) {A} (m : M A) : Prop :=
  forall w, P w -> P (snd (m w)).

(** No posted comment says that the bounty is already claimed. *)
Definition no_already_claimed (w : world) : Prop :=
  Forall (fun call => message_of call <> AlreadyClaimed) (outbox w).

(* ------------------------------------------------------------------ *)
(** ** A repository, two accounts and the events of one bounty *)

Definition alice : User.t :=
  {| User.github_id := 1; User.github_installation_id := Some (js "77");
     User.solana_address := Some (js "AliceWallet") |}.

Definition bob : User.t :=
  {| User.github_id := 2; User.github_installation_id := None;
     User.solana_address := Some (js "BobWallet") |}.

Definition org_repo : Repository.t :=
  {| Repository.owner_login := js "org"; Repository.name := js "repo";
     Repository.full_name := js "org/repo" |}.

Definition issue42 (body : option jsstring) : Issue.t :=
  {| Issue.id := 4200; Issue.number := 42; Issue.body := body;
     Issue.title := js "Crash on start";
     Issue.html_url := js "https://github.com/org/repo/issues/42";
     Issue.pull_request := false |}.

(** Issue 42 opened by alice with a bounty command in its description. *)
Definition issue_opened : Payload.t :=
  {| Payload.action := Some (js "opened"); Payload.comment := None;
     Payload.issue := Some (issue42 (Some (js "please fix /create-bounty 500")));
     Payload.pull_request := None; Payload.sender_id := 1;
     Payload.repository := org_repo; Payload.installation_id := 77 |}.

(** A comment of alice on issue 42. *)
Definition issue_commented (text : string) : Payload.t :=
  {| Payload.action := Some (js "created");
     Payload.comment := Some {| Comment.body := js text |};
     Payload.issue := Some (issue42 (Some (js "please fix")));
     Payload.pull_request := None; Payload.sender_id := 1;
     Payload.repository := org_repo; Payload.installation_id := 77 |}.

(** Pull request 7 opened by bob, claiming bounty 9. *)
Definition pull_request_opened (changed_files : N) : Payload.t :=
  {| Payload.action := Some (js "opened"); Payload.comment := None;
     Payload.issue := None;
     Payload.pull_request :=
       Some {| PullRequest.number := 7;
               PullRequest.body := Some (js "/claim-bounty 9");
               PullRequest.head_sha := js "c0ffee";
               PullRequest.changed_files := changed_files |};
     Payload.sender_id := 2; Payload.repository := org_repo;
     Payload.installation_id := 77 |}.

(** GitHub accepts every call, nothing runs in between, the storage holds. *)
Definition quiet : Env :=
  {| post_ok := fun _ => true; between := fun d => d; overlap := fun d => d;
     verify := fun _ _ => Some true; storage_fault := fun _ => false |}.

(** GitHub refuses every call. *)
Definition github_down : Env :=
  {| post_ok := fun _ => false; between := fun d => d; overlap := fun d => d;
     verify := fun _ _ => Some true; storage_fault := fun _ => false |}.

(** The set-up database once alice and bob have signed in. *)
Definition signed_in : DB := set_users [alice; bob] setupDatabase.

(** ... and once the opening of issue 42 has been served. *)
Definition one_bounty : DB := run quiet (creation issue_opened) signed_in.

(** Bounty 9 of alice on issue 42, in a given status. *)
Definition bounty9 (s : bounty_status) (claimed_by : option Z) : Bounty.t :=
  {| Bounty.id := 9; Bounty.issue_id := 4200; Bounty.amount := 500;
     Bounty.status := s; Bounty.repository := js "org/repo";
     Bounty.issue_title := js "Crash on start";
     Bounty.issue_url := js "https://github.com/org/repo/issues/42";
     Bounty.creator_id := 1; Bounty.claimed_by := claimed_by |}.

Definition claim_of (id user pr : Z) : Claim.t :=
  {| Claim.id := id; Claim.bounty_id := 9; Claim.user_id := user;
     Claim.pull_request := pr |}.

(** A store that holds bounty 9 and the given claims on it, with
    [bounty_claims] under the given column name. *)
Definition store9 (s : bounty_status) (claimed_by : option Z)
    (claims : list Claim.t) (column : string) : DB :=
  {| users := [alice; bob]; bounties := [bounty9 s claimed_by];
     bounty_claims := claims; bounties_id_seq := 10;
     bounty_claims_id_seq := 3; claims_pr_column := column;
     numeric_infinity := true |}.

(** The comment [/create-bounty 500] on issue 42, as GitHub delivers it. *)
Definition comment_delivery : webhook_request :=
  {| x_github_event := Some (js "issue_comment");
     x_hub_signature_256 := Some (js "sha256=5d41402a");
     req_body := issue_commented "/create-bounty 500" |}.


(** The same comment is delivered twice, and the other delivery is served
    to its end while this one awaits the answer to its look-up. *)
Definition racing : Env :=
  {| post_ok := fun _ => true;
     between := run quiet (creation (issue_commented "/create-bounty 500"));
     overlap := fun d => d;
     verify := fun _ _ => Some true; storage_fault := fun _ => false |}.

(** The same comment is delivered twice, and the other delivery is served
    to its end while the INSERT of this one is between its trigger and the
    storing of its row. *)
Definition overlapping : Env :=
  {| post_ok := fun _ => true;
     between := fun d => d;
     overlap := run quiet (creation (issue_commented "/create-bounty 500"));
     verify := fun _ _ => Some true; storage_fault := fun _ => false |}.

(** The store once the other delivery has been served. *)
Definition one_bounty_by_comment : DB :=
  run quiet (creation (issue_commented "/create-bounty 500")) signed_in.

(** The table [bounty_claims] is as [setupDatabase] creates it and holds
    the rows [claims]. *)
Definition claims_table_is (claims : list Claim.t) (w : world) : Prop :=
  claims_pr_column (db w) = "pull_request"%string
  /\ bounty_claims (db w) = claims.

(** The two answers of the webhook route. *)
Definition acknowledged : response :=
  {| status_code := 200; body := text_body "Webhook received" |}.

Definition failed : response :=
  {| status_code := 500; body := error_body "Failed to process webhook" |}.

Definition logged (entry : log_entry) (w : world) : world :=
  {| db := db w; tx := tx w; outbox := outbox w;
     console := console w ++ [entry] |}.




(** What the approval writes into a row. *)
Definition approved (claimantId : Z) (b : Bounty.t) : Bounty.t :=
  Bounty.with_claimed_by (Some claimantId)
    (Bounty.with_status st_payment_pending b).


(** The requester created a bounty of that id: the look-up by id and
    creator gives a row. *)
Definition created_by (req_user : User.t) (bountyId : Z) (d : DB) : Prop :=
  exists b, first_row (select_bounty_of_creator bountyId
                         (User.github_id req_user) d) = Some b.

(** The notices of a deletion, each in its own try. *)
Definition notify_claimants (env : Env) (bounty : Bounty.t) (bountyId : Z)
    (claimants : list Z) : M unit :=
  for_of claimants
    (fun claimant =>
       try_catch
         (post env (deletion_notice bounty claimant bountyId))
         (fun e => log (console_error "Error notifying claimant" e))).

(** GitHub refuses the review comment on pull request 7 and takes every
    other call. *)
Definition pull_request_7_refused : Env :=
  {| post_ok := fun call =>
                  match call with
                  | pulls_createReviewComment _ _ pull_number _ _ _ _ =>
                      negb (pull_number =? 7)
                  | issues_createComment _ _ _ _ => true
                  end;
     between := fun d => d; overlap := fun d => d;
     verify := fun _ _ => Some true; storage_fault := fun _ => false |}.

(** The signature check returns [false]. *)
Definition forged : Env :=
  {| post_ok := fun _ => true; between := fun d => d; overlap := fun d => d;
     verify := fun _ _ => Some false; storage_fault := fun _ => false |}.

(** The storage fails on the k-th statement of a transaction. *)
Definition failing_at (k : nat) : Env :=
  {| post_ok := fun _ => true; between := fun d => d; overlap := fun d => d;
     verify := fun _ _ => Some true; storage_fault := Nat.eqb k |}.

(* ------------------------------------------------------------------ *)
(** ** The listing and account routes *)

(** The answer of a route that lists rows. *)
Inductive listing (A : Type) :=
| listed (rows : list A)
| not_listed (code : Z) (error : string).
Arguments not_listed {A} code error.

(** [SELECT * FROM bounties WHERE creator_id = $1] *)
Definition select_bounties_of_creator (creator : Z)
  : statement (list Bounty.t) :=
  int4_param creator
    (fun d =>
       (Ok (filter (fun b => Bounty.creator_id b =? creator) (bounties d)), d)).

(** [app.get("/api/created_bounties")] *)
Definition created_bounties (req_user : User.t) : M (listing Bounty.t) :=
  try_catch
    (rows <- query (select_bounties_of_creator (User.github_id req_user)) ;;
     ret (listed rows))
    (fun e =>
       log (console_error "Error fetching bounties:" e) ;;
       ret (not_listed 500 "Failed to fetch bounties")).

(** [UPDATE users SET solana_address = $1 WHERE github_id = $2] *)
Definition update_solana_address (address : option jsstring) (uid : Z)
  : statement unit :=
  int4_param uid
    (fun d =>
       (Ok tt,
        set_users
          (map (fun u =>
                  if User.github_id u =? uid
                  then {| User.github_id := User.github_id u;
                          User.github_installation_id :=
                            User.github_installation_id u;
                          User.solana_address := address |}
                  else u) (users d)) d)).

(** [app.post("/api/user/set_solana-address")]; [solanaAddress] is what
    the body of the request holds under that name, if anything. *)
Definition set_solana_address (req_user : User.t)
    (solanaAddress : option jsstring) : M response :=
  try_catch
    (query (update_solana_address solanaAddress (User.github_id req_user)) ;;
     respond 200 (message_body "Solana address connected"))
    (fun e =>
       log (console_error "Error connecting Solana address:" e) ;;
       respond 500 (error_body "Failed to connect Solana address")).

(** The [claim_status] column of [/api/user/claimed-bounties]:
    [CASE WHEN b.claimed_by = $1 THEN 'Accepted'
          WHEN b.claimed_by IS NOT NULL AND b.claimed_by != $1 THEN 'Rejected'
          ELSE 'Pending' END]. *)
Inductive claim_status := Accepted | Rejected | Pending.

Definition claim_status_of (claimed_by : option Z) (uid : Z) : claim_status :=
  match claimed_by with
  | Some c => if c =? uid then Accepted else Rejected
  | None => Pending
  end.

(** A row of [/api/user/claimed-bounties]: the columns of the bounty that
    the query selects and the derived status.  (The timestamp
    [bc.claimed_at] is not part of the model.) *)
Module ClaimedBounty.
Record t := {
  id : Z;
  issue_id : Z;
  amount : numeric;
  status : bounty_status;
  repository : jsstring;
  issue_title : jsstring;
  issue_url : jsstring;
  claim_status : claim_status
}.
End ClaimedBounty.

Definition claimed_bounty_row (uid : Z) (b : Bounty.t) : ClaimedBounty.t :=
  {| ClaimedBounty.id := Bounty.id b;
     ClaimedBounty.issue_id := Bounty.issue_id b;
     ClaimedBounty.amount := Bounty.amount b;
     ClaimedBounty.status := Bounty.status b;
     ClaimedBounty.repository := Bounty.repository b;
     ClaimedBounty.issue_title := Bounty.issue_title b;
     ClaimedBounty.issue_url := Bounty.issue_url b;
     ClaimedBounty.claim_status := claim_status_of (Bounty.claimed_by b) uid |}.

(** [SELECT ... FROM bounty_claims bc JOIN bounties b ON bc.bounty_id = b.id
    WHERE bc.user_id = $1 ORDER BY bc.claimed_at DESC]: [claimed_at] is the
    time of the insert, so the latest claim comes first. *)
Definition select_claimed_bounties (uid : Z)
  : statement (list ClaimedBounty.t) :=
  int4_param uid
    (fun d =>
       (Ok (flat_map
              (fun bc =>
                 map (claimed_bounty_row uid)
                     (filter (fun b => Bounty.id b =? Claim.bounty_id bc)
                             (bounties d)))
              (rev (filter (fun bc => Claim.user_id bc =? uid)
                           (bounty_claims d)))),
        d)).

(** [app.get("/api/user/claimed-bounties")] *)
Definition claimed_bounties (req_user : User.t)
  : M (listing ClaimedBounty.t) :=
  try_catch
    (rows <- query (select_claimed_bounties (User.github_id req_user)) ;;
     ret (listed rows))
    (fun e =>
       log (console_error "Error fetching claimed bounties:" e) ;;
       ret (not_listed 500 "Failed to fetch claimed bounties")).

(** The text a creation reads its command from. *)
Definition creation_reads (p : Payload.t) (text : jsstring) : Prop :=
  Payload.comment p = Some {| Comment.body := text |}
  \/ (Payload.comment p = None
      /\ exists i, Payload.issue p = Some i /\ Issue.body i = Some text).

(** The row a creation stores, and the comment it posts. *)
Definition created_bounty (p : Payload.t) (i : Issue.t) (amount : numeric)
    (id : Z) : Bounty.t :=
  {| Bounty.id := id; Bounty.issue_id := Issue.id i;
     Bounty.amount := amount; Bounty.status := st_open;
     Bounty.repository := Repository.full_name (Payload.repository p);
     Bounty.issue_title := Issue.title i; Bounty.issue_url := Issue.html_url i;
     Bounty.creator_id := Payload.sender_id p; Bounty.claimed_by := None |}.

Definition congratulation (p : Payload.t) (i : Issue.t) (amount : number)
    (id : Z) : api_call :=
  issue_comment_on p i
    (BountyCreated amount id (Repository.full_name (Payload.repository p))).

(** The store once a creation has drawn an id and stored its row. *)
Definition with_created_bounty (p : Payload.t) (i : Issue.t)
    (amount : numeric) (d : DB) : DB :=
  set_bounties
    (bounties d ++ [created_bounty p i amount (bounties_id_seq d)])
    (nextval_bounties d).

(** The primary key of [bounties]. *)
Definition unique_ids (d : DB) : Prop := NoDup (map Bounty.id (bounties d)).

(** The pattern matches at the head of [rest], capturing [digits]: the
    token, white space, then [digits] as the whole run of digits there. *)
Definition command_at (token rest digits : jsstring) : Prop :=
  exists tok spaces after,
    rest = tok ++ spaces ++ digits ++ after
    /\ List.length tok = List.length token
    /\ match_literal token tok = Some []
    /\ spaces <> [] /\ forallb is_space spaces = true
    /\ digits <> [] /\ forallb is_digit digits = true
    /\ match after with
       | [] => True
       | c :: _ => is_digit c = false
       end.

(** The text a claim reads its command from. *)
Definition claim_reads (p : Payload.t) (text : jsstring) : Prop :=
  Payload.comment p = Some {| Comment.body := text |}
  \/ (Payload.comment p = None
      /\ exists pr, Payload.pull_request p = Some pr
                    /\ PullRequest.body pr = Some text).

(** The database of the world is [d]. *)
Definition db_is (d : DB) (w : world) : Prop := db w = d.

(** A comment event on a pull request or an issue: the payload has a
    comment and an issue and no [pull_request]. *)
Definition comment_event (p : Payload.t) (text : jsstring) (i : Issue.t)
  : Prop :=
  Payload.comment p = Some {| Comment.body := text |}
  /\ Payload.issue p = Some i
  /\ Payload.pull_request p = None.

(** A comment of a given sender on pull request 7. *)
Definition pull_request_commented (sender : Z) (text : string) : Payload.t :=
  {| Payload.action := Some (js "created");
     Payload.comment := Some {| Comment.body := js text |};
     Payload.issue :=
       Some {| Issue.id := 7000; Issue.number := 7; Issue.body := None;
               Issue.title := js "Fix the crash";
               Issue.html_url := js "https://github.com/org/repo/pull/7";
               Issue.pull_request := true |};
     Payload.pull_request := None; Payload.sender_id := sender;
     Payload.repository := org_repo; Payload.installation_id := 77 |}.

Definition pull_request_7 : Issue.t :=
  {| Issue.id := 7000; Issue.number := 7; Issue.body := None;
     Issue.title := js "Fix the crash";
     Issue.html_url := js "https://github.com/org/repo/pull/7";
     Issue.pull_request := true |}.

(** The app is uninstalled by the user of a given id. *)
Definition uninstalled_by (sender : Z) : webhook_request :=
  {| x_github_event := Some (js "installation");
     x_hub_signature_256 := Some (js "sha256=5d41402a");
     req_body :=
       {| Payload.action := Some (js "deleted"); Payload.comment := None;
          Payload.issue := None; Payload.pull_request := None;
          Payload.sender_id := sender; Payload.repository := org_repo;
          Payload.installation_id := 77 |} |}.

(** The app is uninstalled by alice. *)
Definition uninstalled : webhook_request := uninstalled_by 1.

(** A comment on issue 42, as GitHub delivers it. *)
Definition comment_delivered (text : string) : webhook_request :=
  {| x_github_event := Some (js "issue_comment");
     x_hub_signature_256 := Some (js "sha256=5d41402a");
     req_body := issue_commented text |}.

(** The rows of [bounties] after an update of the rows of one id. *)
Definition updated_rows (bountyId : Z) (set : Bounty.t -> Bounty.t) (d : DB)
  : list Bounty.t :=
  map (fun b => if Bounty.id b =? bountyId then set b else b) (bounties d).

Definition completed_answer : response :=
  {| status_code := 200; body := message_body "Bounty completed successfully" |}.

Definition not_owner_answer : response :=
  {| status_code := 404;
     body := error_body "Bounty not found or you are not the owner" |}.

(** The pull requests that hold a claim on a bounty, a claim a number. *)
Definition claiming_pull_requests (bountyId : Z) (d : DB) : list Z :=
  map Claim.pull_request
      (filter (fun c => Claim.bounty_id c =? bountyId) (bounty_claims d)).

Definition amount_updated_answer : response :=
  {| status_code := 200;
     body := message_body "Bounty amount updated successfully" |}.

(** GitHub refuses comments on issues and takes review comments. *)
Definition issue_comments_refused : Env :=
  {| post_ok := fun call =>
                  match call with
                  | issues_createComment _ _ _ _ => false
                  | pulls_createReviewComment _ _ _ _ _ _ _ => true
                  end;
     between := fun d => d; overlap := fun d => d;
     verify := fun _ _ => Some true; storage_fault := fun _ => false |}.

(** GitHub refuses the comments that address a given claimant. *)
Definition notice_refused_for (claimant : Z) : Env :=
  {| post_ok := fun call =>
                  match call with
                  | issues_createComment _ _ _ (BountyDeleted c _) =>
                      negb (c =? claimant)
                  | _ => true
                  end;
     between := fun d => d; overlap := fun d => d;
     verify := fun _ _ => Some true; storage_fault := fun _ => false |}.

(** A third account. *)
Definition carol : User.t :=
  {| User.github_id := 3; User.github_installation_id := None;
     User.solana_address := None |}.

Definition deleted_answer : response :=
  {| status_code := 200;
     body := message_body
               "Bounty deleted successfully and claimants notified" |}.

(** A property of the store, asked of the database of a world and of the
    snapshot a ROLLBACK would bring back. *)
Definition good_for (I : DB -> Prop) (w : world) : Prop :=
  I (db w) /\ match tx w with Some snapshot => I snapshot | None => True end.

(** The primary key of [bounties] holds, below the sequence. *)
Definition keyed (d : DB) : Prop := unique_ids d /\ ids_below_seq d.

(** What no request undoes: the sequences do not go back, and the layout
    of [bounty_claims] and the kind of the server stay. *)
Definition later (d d' : DB) : Prop :=
  bounties_id_seq d <= bounties_id_seq d'
  /\ bounty_claims_id_seq d <= bounty_claims_id_seq d'
  /\ claims_pr_column d' = claims_pr_column d
  /\ numeric_infinity d' = numeric_infinity d.

(** A property of the store that every statement of the program that
    writes keeps; an INSERT keeps it when what other connections commit
    inside it keeps it and undoes nothing. *)
Record stable (Q : DB -> Prop) : Prop := {
  stable_users : forall d us, Q d -> Q (set_users us d);
  stable_insert_bounty : forall mid i a s c r t u d,
    (forall x, Q x -> Q (mid x)) -> (forall x, later x (mid x)) ->
    Q d -> Q (snd (insert_bounty mid i a s c r t u d));
  stable_approve : forall c bid d,
    Q d -> Q (snd (update_status_and_claimed_by st_payment_pending c bid d));
  stable_amount : forall a bid d, Q d -> Q (snd (update_amount a bid d));
  stable_complete : forall bid d,
    Q d -> Q (snd (update_status st_completed bid d));
  stable_delete_claims : forall bid d, Q d -> Q (snd (delete_claims bid d));
  stable_delete_bounty : forall bid d, Q d -> Q (snd (delete_bounty bid d));
  stable_insert_claim : forall mid column bid uid pr d,
    (forall x, Q x -> Q (mid x)) -> (forall x, later x (mid x)) ->
    Q d -> Q (snd (insert_bounty_claim mid column bid uid pr d))
}.

(** [bounty_claims] is empty unless its column for the pull request is
    named as the insert and the trigger name it. *)
Definition claims_need_the_column (d : DB) : Prop :=
  claims_pr_column d <> "pull_request_number"%string -> bounty_claims d = [].

(** A pull request is opened: the payload has no comment and has the pull
    request, whose body is [text]. *)
Definition pull_request_event (p : Payload.t) (text : jsstring)
    (pr : PullRequest.t) : Prop :=
  Payload.comment p = None
  /\ Payload.pull_request p = Some pr
  /\ PullRequest.body pr = Some text.

(** Some claim row on an open bounty is on that pull request. *)
Definition pull_request_claims_open_bounty (prNumber : Z) (d : DB) : bool :=
  existsb (fun c => (Claim.pull_request c =? prNumber)
                    && open_bounty_id (Claim.bounty_id c) d)
          (bounty_claims d).

(** The row a claim stores, and the store with it. *)
Definition stored_claim (p : Payload.t) (bounty : Bounty.t)
    (pr : PullRequest.t) (id : Z) : Claim.t :=
  {| Claim.id := id; Claim.bounty_id := Bounty.id bounty;
     Claim.user_id := Payload.sender_id p;
     Claim.pull_request := PullRequest.number pr |}.

Definition with_stored_claim (p : Payload.t) (bounty : Bounty.t)
    (pr : PullRequest.t) (d : DB) : DB :=
  set_bounty_claims
    (bounty_claims d ++ [stored_claim p bounty pr (bounty_claims_id_seq d)])
    (nextval_bounty_claims d).

Definition review_comment (p : Payload.t) (pr : PullRequest.t)
    (body : message) : api_call :=
  pulls_createReviewComment
    (Some (Repository.owner_login (Payload.repository p)))
    (Some (Repository.name (Payload.repository p)))
    (PullRequest.number pr) body (PullRequest.head_sha pr) [] 1.

(** The ids of the claims are below the next value of their sequence. *)
Definition claim_ids_below_seq (d : DB) : Prop :=
  forall c, In c (bounty_claims d) -> Claim.id c < bounty_claims_id_seq d.

(** Bounty 10 of alice on another issue, open. *)
Definition bounty10 : Bounty.t :=
  {| Bounty.id := 10; Bounty.issue_id := 4300; Bounty.amount := 100;
     Bounty.status := st_open; Bounty.repository := js "org/repo";
     Bounty.issue_title := js "Typo";
     Bounty.issue_url := js "https://github.com/org/repo/issues/43";
     Bounty.creator_id := 1; Bounty.claimed_by := None |}.

(** A store with the open bounties 9 and 10, the claims on them under the
    column name of the insert. *)
Definition store_9_10 (claims : list Claim.t) : DB :=
  {| users := [alice; bob]; bounties := [bounty9 st_open None; bounty10];
     bounty_claims := claims; bounties_id_seq := 11;
     bounty_claims_id_seq := 3; claims_pr_column := "pull_request_number";
     numeric_infinity := true |}.

(** The pull request that [pull_request_opened] opens. *)
Definition pull_request_7_opened (changed_files : N) : PullRequest.t :=
  {| PullRequest.number := 7;
     PullRequest.body := Some (js "/claim-bounty 9");
     PullRequest.head_sha := js "c0ffee";
     PullRequest.changed_files := changed_files |}.

(** The primary key of [bounty_claims] holds, below the sequence, and
    every claim refers to a bounty that is there. *)
Definition claims_in_order (d : DB) : Prop :=
  NoDup (map Claim.id (bounty_claims d))
  /\ claim_ids_below_seq d
  /\ (forall c, In c (bounty_claims d) ->
        bounty_exists (Claim.bounty_id c) d = true).

(** Pull request 8 opened by bob, claiming bounty 1, with no file changed. *)
Definition pull_request_8_opened : Payload.t :=
  {| Payload.action := Some (js "opened"); Payload.comment := None;
     Payload.issue := None;
     Payload.pull_request :=
       Some {| PullRequest.number := 8;
               PullRequest.body := Some (js "fixes it /claim-bounty 1");
               PullRequest.head_sha := js "decaf";
               PullRequest.changed_files := 0 |};
     Payload.sender_id := 2; Payload.repository := org_repo;
     Payload.installation_id := 77 |}.

(** The opening of pull request 8 is delivered twice, and the other
    delivery is served to its end while the INSERT of this one is between
    its trigger and the storing of its row. *)
Definition claims_overlapping : Env :=
  {| post_ok := fun _ => true;
     between := fun d => d;
     overlap := run quiet (claiming pull_request_8_opened);
     verify := fun _ _ => Some true; storage_fault := fun _ => false |}.

(** A store whose table of claims has the column of the insert, after
    alice and bob signed in, issue 42 was opened with its command and the
    two deliveries were served so. *)
Definition twice_claimed_store : DB :=
  run claims_overlapping (claiming pull_request_8_opened)
    (run quiet (creation issue_opened)
       (set_users [alice; bob] (created "pull_request_number" true))).

(** The row of a user with another payout address. *)
Definition with_solana_address (address : option jsstring) (u : User.t)
  : User.t :=
  {| User.github_id := User.github_id u;
     User.github_installation_id := User.github_installation_id u;
     User.solana_address := address |}.

Definition address_connected_answer : response :=
  {| status_code := 200; body := message_body "Solana address connected" |}.

(* ================================================================== *)
(** * Properties *)

(** ** The command patterns on examples *)

Example ex_regex_1 :
  command_argument create_token (js "please fix /create-bounty 500")
  = Some (Finite 500).
Proof. reflexivity. Qed.

Example ex_regex_2 :
  command_argument create_token (js "/Create-Bounty   12abc /create-bounty 7")
  = Some (Finite 12).
Proof. reflexivity. Qed.

Example ex_regex_3 :
  command_argument create_token (js "/create-bounty abc") = None.
Proof. reflexivity. Qed.

Example ex_split : split_nth 1 (js "org/repo") = Some (js "repo").
Proof. reflexivity. Qed.

(** Above 2^53 a number is the nearest double, and its text the shortest
    decimal that reads back as that double. *)
Example ex_parseInt_rounds :
  parseInt (js "9007199254740993") = Finite 9007199254740992
  /\ parseInt (js "9007199254740995") = Finite 9007199254740996
  /\ number_toString (to_number (2 ^ 64)) = integer_text 18446744073709552000
  /\ number_toString (to_number (2 ^ 70))
     = exponent_text 1180591620717411300000
  /\ to_number (2 ^ 1024 - 2 ^ 970) = Infinity false
  /\ to_number (- 2 ^ 1024) = Infinity true.
Proof. vm_compute. repeat split. Qed.

(* ------------------------------------------------------------------ *)
(** ** Parameters *)

Lemma is_int4_range z :
  is_int4 z = true <-> -2147483648 <= z <= 2147483647.
Proof.
  unfold is_int4. rewrite andb_true_iff, !Z.leb_le. tauto.
Qed.

Lemma int4_param_runs {A} z (q : statement A) d :
  is_int4 z = true -> int4_param z q d = q d.
Proof. intros H. unfold int4_param. now rewrite H. Qed.

Lemma int4_param_fails {A} z (q : statement A) d :
  is_int4 z = false ->
  int4_param z q d = (Err numeric_value_out_of_range, d).
Proof. intros H. unfold int4_param. now rewrite H. Qed.

Lemma sgn_times_abs z : Z.sgn z * Z.abs z = z.
Proof. destruct z; reflexivity. Qed.

Lemma round_to_double_safe n :
  (n <= 2 ^ 53)%N -> round_to_double n = Some n.
Proof.
  intros H. unfold round_to_double.
  destruct (n <? 2 ^ 53)%N eqn:E; [reflexivity|].
  apply N.ltb_ge in E. assert (n = (2 ^ 53)%N) by lia. subst n.
  vm_compute. reflexivity.
Qed.

(** A safe integer is a double: the number is the integer written. *)
Lemma to_number_safe z : Z.abs z <= 2 ^ 53 -> to_number z = Finite z.
Proof.
  intros H. unfold to_number.
  rewrite round_to_double_safe.
  - rewrite N2Z.inj_abs_N. f_equal. apply sgn_times_abs.
  - apply N2Z.inj_le. rewrite N2Z.inj_abs_N. exact H.
Qed.

(** ... and its text is its digits. *)
Lemma number_toString_safe z :
  Z.abs z <= 2 ^ 53 -> number_toString (Finite z) = integer_text z.
Proof.
  intros H. unfold number_toString, shortest.
  assert (Hn : (Z.abs_N z <= 2 ^ 53)%N).
  { apply N2Z.inj_le. rewrite N2Z.inj_abs_N. exact H. }
  apply N.leb_le in Hn. rewrite Hn.
  rewrite N2Z.inj_abs_N, sgn_times_abs.
  assert (Hlt : (Z.abs z <? 10 ^ 21) = true).
  { apply Z.ltb_lt. assert (2 ^ 53 < 10 ^ 21) by (vm_compute; reflexivity). lia. }
  now rewrite Hlt.
Qed.

Lemma int4_is_safe z : is_int4 z = true -> Z.abs z <= 2 ^ 53.
Proof.
  intros H. apply is_int4_range in H.
  assert (2147483648 <= 2 ^ 53) by (vm_compute; discriminate). lia.
Qed.

Lemma number_param_Finite {A} z (q : Z -> statement A) d :
  is_int4 z = true -> number_param (Finite z) q d = q z d.
Proof.
  intros H. unfold number_param, as_int4.
  now rewrite (@number_toString_safe z (int4_is_safe _ H)), H.
Qed.

Lemma number_param_int4 {A} z (q : Z -> statement A) d :
  is_int4 z = true -> number_param (to_number z) q d = q z d.
Proof.
  intros H. rewrite (@to_number_safe z (int4_is_safe _ H)).
  now apply number_param_Finite.
Qed.

(** The server stores a safe integer as it is. *)
Lemma stored_as_safe z : Z.abs z <= 2 ^ 53 -> stored_as (Finite z) = Num z.
Proof.
  intros H. unfold stored_as. now rewrite (@number_toString_safe z H).
Qed.

(* ------------------------------------------------------------------ *)
(** ** Lists of rows *)

Lemma filter_none {A} (f : A -> bool) (l : list A) :
  (forall x, In x l -> f x = false) -> filter f l = [].
Proof.
  induction l as [|x l IH]; intros H; [reflexivity|].
  simpl. rewrite (H x (or_introl eq_refl)). apply IH.
  intros y Hy. apply H. now right.
Qed.

Lemma existsb_false_In {A} (f : A -> bool) (l : list A) :
  existsb f l = false -> forall x, In x l -> f x = false.
Proof.
  intros H x Hx. destruct (f x) eqn:E; [|reflexivity].
  assert (existsb f l = true) by (apply existsb_exists; eauto). congruence.
Qed.

(* ------------------------------------------------------------------ *)
(** ** Async functions and the invariant *)

Section Keeps.

Variable P : world -> Prop.

Lemma keeps_ret {A} (a : A) : keeps P (ret a).
Proof. intros w H. exact H. Qed.

Lemma keeps_throw {A} (e : error) : keeps P (@throw A e).
Proof. intros w H. exact H. Qed.

Lemma keeps_bind {A B} (m : M A) (k : A -> M B) :
  keeps P m -> (forall a, keeps P (k a)) -> keeps P (bind m k).
Proof.
  intros Hm Hk w H. unfold bind. specialize (Hm w H).
  destruct (m w) as [[a|e] w']; simpl in *; [now apply Hk|exact Hm].
Qed.

Lemma keeps_try_catch {A} (m : M A) (h : error -> M A) :
  keeps P m -> (forall e, keeps P (h e)) -> keeps P (try_catch m h).
Proof.
  intros Hm Hh w H. unfold try_catch. specialize (Hm w H).
  destruct (m w) as [[a|e] w']; simpl in *; [exact Hm|now apply Hh].
Qed.

Lemma keeps_for_of {A} (xs : list A) (body : A -> M unit) :
  (forall x, keeps P (body x)) -> keeps P (for_of xs body).
Proof.
  intros H. induction xs as [|x xs IH]; simpl.
  - apply keeps_ret.
  - apply keeps_bind; [apply H|intros _; exact IH].
Qed.

End Keeps.


(** The amount is read off the payload: the world stays as it is. *)
Lemma creation_amount_world p w : snd (creation_amount p w) = w.
Proof.
  unfold creation_amount.
  destruct (Payload.comment p); [reflexivity|].
  destruct (Payload.issue p) as [i|]; [|reflexivity].
  now destruct (Issue.body i).
Qed.

(** A creation for an issue that has an open bounty leaves the rows of
    [bounties] as they are. *)
Lemma creation_keeps_bounties_when_open env p i w :
  Payload.issue p = Some i ->
  open_bounties_of_issue (Issue.id i) (db w) <> [] ->
  bounties (db (snd (handleBountyCreation env p w))) = bounties (db w).
Proof.
  intros Hissue Hopen. unfold handleBountyCreation. unfold bind at 1.
  pose proof (creation_amount_world p w) as Hsame.
  destruct (creation_amount p w) as [[amount|e] w'];
    simpl in Hsame; subst w'; [|reflexivity].
  destruct (falsy amount); [reflexivity|].
  rewrite Hissue. destruct amount as [amount|]; [|reflexivity].
  unfold try_catch, bind at 1. unfold query at 1, select_open_bounty_of_issue.
  simpl.
  destruct (open_bounties_of_issue (Issue.id i) (db w)); [congruence|].
  unfold bind, post. simpl.
  now destruct (post_ok env _).
Qed.

(* ------------------------------------------------------------------ *)
(** ** One open bounty per issue *)

Lemma fair_alone env :
  (forall x, between env x = x) -> (forall x, overlap env x = x) -> fair env.
Proof.
  intros Hb Ho. split; intros x; [rewrite Hb|rewrite Ho]; apply evolves_refl.
Qed.

Lemma fair_quiet : fair quiet.
Proof. now apply fair_alone. Qed.

Lemma evolves_served op x : evolves x (run quiet op x).
Proof.
  apply evolves_run; [apply evolves_refl| |]; intros y; apply evolves_refl.
Qed.

Lemma fair_racing : fair racing.
Proof.
  split; intros x; [apply evolves_served|apply evolves_refl].
Qed.

Lemma fair_overlapping : fair overlapping.
Proof.
  split; intros x; [apply evolves_refl|apply evolves_served].
Qed.

Lemma signed_in_reachable : reachable signed_in.
Proof. apply reach_accounts, (reach_created "pull_request" true). Qed.

Lemma one_bounty_reachable : reachable one_bounty.
Proof. apply reach_run; [exact signed_in_reachable|exact fair_quiet]. Qed.

Example one_bounty_rows :
  bounties one_bounty
  = [ {| Bounty.id := 1; Bounty.issue_id := 4200; Bounty.amount := 500;
         Bounty.status := st_open; Bounty.repository := js "org/repo";
         Bounty.issue_title := js "Crash on start";
         Bounty.issue_url := js "https://github.com/org/repo/issues/42";
         Bounty.creator_id := 1; Bounty.claimed_by := None |} ].
Proof. reflexivity. Qed.

(** C1, on the code. The comment [/create-bounty 500] on issue 42 is
    delivered twice and the two deliveries are served at the same time.
    The look-up of this delivery finds no open bounty and the trigger of
    its INSERT sees none; before its row is stored the other delivery
    commits its own row, which the trigger did not see and which nothing
    else guards against.  Both rows are stored: the store, a state that
    requests reach, holds two open bounties for the issue, and this
    delivery is answered like any creation. *)
Theorem two_open_bounties_on_one_issue :
  handleBountyCreation overlapping (issue_commented "/create-bounty 500")
    (request_world signed_in)
  = (Return (Some 1),
     {| db := set_bounties
                [created_bounty (issue_commented "/create-bounty 500")
                   (issue42 (Some (js "please fix"))) 500 2;
                 created_bounty (issue_commented "/create-bounty 500")
                   (issue42 (Some (js "please fix"))) 500 1]
                (nextval_bounties (nextval_bounties signed_in));
        tx := None;
        outbox := [issues_createComment (Some (js "org")) (Some (js "repo")) 42
                     (BountyCreated (Finite 500) 1 (js "org/repo"))];
        console := [] |})
  /\ reachable
       (run overlapping (creation (issue_commented "/create-bounty 500"))
          signed_in)
  /\ List.length
       (open_bounties_of_issue 4200
          (run overlapping (creation (issue_commented "/create-bounty 500"))
             signed_in)) = 2%nat.
Proof.
  split; [reflexivity|]. split; [|reflexivity].
  apply reach_run; [exact signed_in_reachable|exact fair_overlapping].
Qed.

(** When the other delivery commits before the INSERT of this one starts,
    the trigger sees its row and stops the insert: one open bounty
    remains. *)
Example race_leaves_one_open_bounty :
  open_bounties_of_issue 4200
    (run racing (creation (issue_commented "/create-bounty 500")) signed_in)
  = [ {| Bounty.id := 1; Bounty.issue_id := 4200; Bounty.amount := 500;
         Bounty.status := st_open; Bounty.repository := js "org/repo";
         Bounty.issue_title := js "Crash on start";
         Bounty.issue_url := js "https://github.com/org/repo/issues/42";
         Bounty.creator_id := 1; Bounty.claimed_by := None |} ].
Proof. reflexivity. Qed.

(** The command again on the same issue: no second row, the comment that
    an open bounty exists. *)
Example second_creation_is_answered :
  handleBountyCreation quiet (issue_commented "/create-bounty 500")
    (request_world one_bounty)
  = (Return None,
     {| db := one_bounty; tx := None;
        outbox := [issues_createComment (Some (js "org")) (Some (js "repo")) 42
                     OpenBountyExists];
        console := [] |}).
Proof. reflexivity. Qed.

(* ------------------------------------------------------------------ *)
(** ** Statements that only read *)

Lemma reads_int4_param {A} z (q : statement A) :
  reads q -> reads (int4_param z q).
Proof.
  intros H d. unfold int4_param. destruct (is_int4 z); [apply H|reflexivity].
Qed.

Lemma reads_number_param {A} x (q : Z -> statement A) :
  (forall z, reads (q z)) -> reads (number_param x q).
Proof.
  intros H d. unfold number_param.
  destruct (as_int4 x); [apply H|reflexivity].
Qed.

Lemma reads_select_user uid : reads (select_user uid).
Proof. apply reads_int4_param. now intros d. Qed.

Lemma reads_select_bounty bid : reads (select_bounty bid).
Proof. apply reads_int4_param. now intros d. Qed.

Lemma reads_select_bounty_with_status bid s :
  reads (select_bounty_with_status bid s).
Proof. apply reads_int4_param. now intros d. Qed.

Lemma reads_select_bounty_of_creator bid creator :
  reads (select_bounty_of_creator bid creator).
Proof. do 2 apply reads_int4_param. now intros d. Qed.

Lemma reads_select_claim bid uid : reads (select_claim bid uid).
Proof. do 2 apply reads_int4_param. now intros d. Qed.

Lemma reads_select_claimants bid : reads (select_claimants bid).
Proof. apply reads_int4_param. now intros d. Qed.

Lemma reads_select_open_bounty_of_issue issueId :
  reads (select_open_bounty_of_issue issueId).
Proof. now intros d. Qed.

Lemma reads_select_pull_requests column bid :
  reads (select_pull_requests column bid).
Proof.
  intros d. unfold select_pull_requests.
  destruct (negb _); [reflexivity|].
  apply reads_int4_param. now intros d'.
Qed.

Lemma set_db_same w : set_db (db w) w = w.
Proof. now destruct w. Qed.

Lemma query_reads {A} (q : statement A) w :
  reads q -> snd (query q w) = w.
Proof.
  intros H. unfold query. specialize (H (db w)).
  destruct (q (db w)) as [[a|c] d']; simpl in *; subst d'; apply set_db_same.
Qed.

Lemma keeps_query_reads (P : world -> Prop) {A} (q : statement A) :
  reads q -> keeps P (query q).
Proof. intros H w Hw. now rewrite (query_reads w H). Qed.

(** The statements of the program that only read. *)
Ltac reads_leaf :=
  first
    [ apply reads_select_user | apply reads_select_bounty
    | apply reads_select_bounty_with_status
    | apply reads_select_bounty_of_creator | apply reads_select_claim
    | apply reads_select_claimants | apply reads_select_open_bounty_of_issue
    | apply reads_select_pull_requests
    | apply reads_number_param; intros ?; reads_leaf ].

(* ------------------------------------------------------------------ *)
(** ** A second claim from the same pull request *)

Lemma keeps_quiet_query {A} (q : statement A) :
  keeps no_already_claimed (query q).
Proof.
  intros w H. unfold query. now destruct (q (db w)) as [[a|c] d'].
Qed.

Lemma keeps_quiet_post env call :
  message_of call <> AlreadyClaimed ->
  keeps no_already_claimed (post env call).
Proof.
  intros Hcall w H. unfold post. destruct (post_ok env call); [|exact H].
  unfold no_already_claimed. simpl. apply Forall_app. split; [exact H|].
  now constructor.
Qed.

Lemma keeps_quiet_claim_comment env p isPRComment body :
  body <> AlreadyClaimed ->
  keeps no_already_claimed (createComment env p isPRComment body).
Proof.
  intros Hbody. unfold createComment.
  destruct isPRComment.
  - destruct (Payload.issue p); [|apply keeps_throw].
    now apply keeps_quiet_post.
  - destruct (Payload.pull_request p); [|apply keeps_throw].
    destruct (_ <? _)%N; [apply keeps_throw|]. now apply keeps_quiet_post.
Qed.

(** Whatever the payload, the database and the environment, the claim
    handler posts no comment that says the bounty is already claimed. *)
Lemma handleBountyClaim_never_says_already_claimed env p :
  keeps no_already_claimed (handleBountyClaim env p).
Proof.
  unfold handleBountyClaim, claim_bounty_id, claim_catch.
  repeat
    match goal with
    | |- keeps _ (bind _ _) => apply keeps_bind; [|intros ?]
    | |- keeps _ (try_catch _ _) => apply keeps_try_catch; [|intros ?]
    | |- keeps _ (query _) => apply keeps_quiet_query
    | |- keeps _ (createComment _ _ _ _) =>
        apply keeps_quiet_claim_comment; discriminate
    | |- keeps _ (ret _) => apply keeps_ret
    | |- keeps _ (throw _) => apply keeps_throw
    | |- keeps _ (log _) => intros ? ?; assumption
    | |- keeps _ (if ?c then _ else _) => destruct c
    | |- keeps _ (match ?x with _ => _ end) => destruct x
    | |- keeps _ (let (_, _) := ?x in _) => destruct x
    end.
Qed.

(** C2, on the code. Pull request 7 of bob holds a claim on the open
    bounty 9 and its opening is delivered again.  With [bounty_claims] as
    [setupDatabase] creates it, the insert names a column the table does
    not have; with the column named as the insert and the trigger name it,
    the trigger raises P0001.  Either error is only written to the
    console: no row is added and no comment is posted. *)
Theorem second_claim_is_only_logged :
  handleBountyClaim quiet (pull_request_opened 0)
    (request_world (store9 st_open None [claim_of 1 2 7] "pull_request"))
  = (Return tt,
     {| db := store9 st_open None [claim_of 1 2 7] "pull_request";
        tx := None; outbox := [];
        console := [console_error "Error claiming bounty:"
                      (PgError undefined_column)] |})
  /\
  handleBountyClaim quiet (pull_request_opened 0)
    (request_world (store9 st_open None [claim_of 1 2 7] "pull_request_number"))
  = (Return tt,
     {| db := nextval_bounty_claims
                (store9 st_open None [claim_of 1 2 7] "pull_request_number");
        tx := None; outbox := [];
        console := [console_error "Error claiming bounty:"
                      (PgError raise_exception)] |}).
Proof. split; reflexivity. Qed.

(* ------------------------------------------------------------------ *)
(** ** A first claim *)

(** On the table of [setupDatabase] the claim handler never stores a
    row: its insert names the column [pull_request_number]. *)
Lemma handleBountyClaim_stores_nothing env p claims :
  keeps (claims_table_is claims) (handleBountyClaim env p).
Proof.
  assert (Hpost : forall call, keeps (claims_table_is claims) (post env call)).
  { intros call w H. unfold post. now destruct (post_ok env call). }
  assert (Hcomment : forall isPR body,
             keeps (claims_table_is claims) (createComment env p isPR body)).
  { intros isPR body. unfold createComment.
    destruct isPR;
      [destruct (Payload.issue p)|destruct (Payload.pull_request p)];
      try apply keeps_throw; [apply Hpost|].
    destruct (_ <? _)%N; [apply keeps_throw|apply Hpost]. }
  unfold handleBountyClaim, claim_bounty_id, claim_catch.
  repeat
    match goal with
    | |- keeps _ (bind _ _) => apply keeps_bind; [|intros ?]
    | |- keeps _ (try_catch _ _) => apply keeps_try_catch; [|intros ?]
    | |- keeps _ (query (insert_bounty_claim _ _ _ _ _)) =>
        intros ? [Hcol ?]; unfold query, insert_bounty_claim;
        rewrite Hcol; simpl; now split
    | |- keeps _ (query _) => apply keeps_query_reads; reads_leaf
    | |- keeps _ (createComment _ _ _ _) => apply Hcomment
    | |- keeps _ (ret _) => apply keeps_ret
    | |- keeps _ (throw _) => apply keeps_throw
    | |- keeps _ (log _) => intros ? ?; assumption
    | |- keeps _ (if ?c then _ else _) => destruct c
    | |- keeps _ (match ?x with _ => _ end) => destruct x
    | |- keeps _ (let (_, _) := ?x in _) => destruct x
    end.
Qed.

(** C6, on the code. Bob, signed in and not the creator, opens pull
    request 7 with [/claim-bounty 9] in its body; bounty 9 is open and
    has no claim.  On the table of [setupDatabase] the insert fails on the
    column it names: no row, no comment, an error on the console.  Were
    the column named as the insert names it, the row would be stored and
    the comment would still not be posted: building its path reads
    [filename] of [changed_files[0]], with [changed_files] the number 1. *)
Theorem first_claim_is_not_recorded :
  handleBountyClaim quiet (pull_request_opened 1)
    (request_world (store9 st_open None [] "pull_request"))
  = (Return tt,
     {| db := store9 st_open None [] "pull_request";
        tx := None; outbox := [];
        console := [console_error "Error claiming bounty:"
                      (PgError undefined_column)] |})
  /\
  handleBountyClaim quiet (pull_request_opened 1)
    (request_world (store9 st_open None [] "pull_request_number"))
  = (Return tt,
     {| db := set_bounty_claims [claim_of 3 2 7]
                (nextval_bounty_claims
                   (store9 st_open None [] "pull_request_number"));
        tx := None; outbox := [];
        console := [console_error "Error claiming bounty:" TypeError] |}).
Proof. split; reflexivity. Qed.

(** With the column named as the insert names it and a pull request that
    changes no file, the claim is stored and the comment posted. *)
Example claim_recorded_when_names_agree :
  handleBountyClaim quiet (pull_request_opened 0)
    (request_world (store9 st_open None [] "pull_request_number"))
  = (Return tt,
     {| db := set_bounty_claims [claim_of 3 2 7]
                (nextval_bounty_claims
                   (store9 st_open None [] "pull_request_number"));
        tx := None;
        outbox := [pulls_createReviewComment (Some (js "org"))
                     (Some (js "repo")) 7 ReviewPending (js "c0ffee") [] 1];
        console := [] |}).
Proof. reflexivity. Qed.

(* ------------------------------------------------------------------ *)
(** ** A creation that loses the race *)

(** C3, on the code. The comment [/create-bounty 500] is delivered twice.
    This delivery finds no open bounty, the other one commits its bounty,
    and the insert of this one is stopped by the trigger.  The handler
    logs the error and throws it on: nothing is posted, and the dispatcher
    answers 500. *)
Theorem lost_race_is_thrown_on :
  handleBountyCreation racing (issue_commented "/create-bounty 500")
    (request_world signed_in)
  = (Throw (PgError raise_exception),
     {| db := nextval_bounties one_bounty_by_comment;
        tx := None; outbox := [];
        console := [console_error "Error creating bounty:"
                      (PgError raise_exception)] |})
  /\
  webhook racing comment_delivery (request_world signed_in)
  = (Return {| status_code := 500;
               body := error_body "Failed to process webhook" |},
     {| db := nextval_bounties one_bounty_by_comment;
        tx := None; outbox := [];
        console := [console_error "Error creating bounty:"
                      (PgError raise_exception);
                    console_error "Error processing webhook:"
                      (PgError raise_exception)] |}).
Proof. split; reflexivity. Qed.


(* ------------------------------------------------------------------ *)
(** ** The answer to a delivery *)












(** The boolean of the signature check is not looked at: a delivery whose
    check returns [false] is served like any other. *)
Example unverified_delivery_is_served :
  webhook forged comment_delivery (request_world signed_in)
  = (Return acknowledged,
     {| db := one_bounty_by_comment; tx := None;
        outbox := [issues_createComment (Some (js "org")) (Some (js "repo")) 42
                     (BountyCreated (Finite 500) 1 (js "org/repo"))];
        console := [] |}).
Proof. reflexivity. Qed.

(* ------------------------------------------------------------------ *)
(** ** Statements on parameters of the type of their columns *)

Lemma select_user_runs uid d :
  is_int4 uid = true ->
  select_user uid d
  = (Ok (filter (fun u => User.github_id u =? uid) (users d)), d).
Proof. intros H. unfold select_user. now rewrite int4_param_runs. Qed.

Lemma select_bounty_runs bid d :
  is_int4 bid = true ->
  select_bounty bid d
  = (Ok (filter (fun b => Bounty.id b =? bid) (bounties d)), d).
Proof. intros H. unfold select_bounty. now rewrite int4_param_runs. Qed.

Lemma select_bounty_with_status_runs bid s d :
  is_int4 bid = true ->
  select_bounty_with_status bid s d
  = (Ok (filter (fun b => (Bounty.id b =? bid)
                          && status_eqb (Bounty.status b) s) (bounties d)), d).
Proof.
  intros H. unfold select_bounty_with_status. now rewrite int4_param_runs.
Qed.

Lemma select_bounty_of_creator_runs bid creator d :
  is_int4 bid = true -> is_int4 creator = true ->
  select_bounty_of_creator bid creator d
  = (Ok (filter (fun b => (Bounty.id b =? bid)
                          && (Bounty.creator_id b =? creator)) (bounties d)),
     d).
Proof.
  intros H1 H2. unfold select_bounty_of_creator.
  now rewrite !int4_param_runs.
Qed.

Lemma select_claim_runs bid uid d :
  is_int4 bid = true -> is_int4 uid = true ->
  select_claim bid uid d
  = (Ok (filter (fun c => (Claim.bounty_id c =? bid)
                          && (Claim.user_id c =? uid)) (bounty_claims d)), d).
Proof.
  intros H1 H2. unfold select_claim. now rewrite !int4_param_runs.
Qed.

(** What a look-up that gives a row tells: the parameter is of the type
    of the column and the row is the first that the filter finds. *)
Lemma first_row_int4 {A} z (q : statement (list A)) d a :
  first_row (int4_param z q d) = Some a -> is_int4 z = true.
Proof.
  unfold first_row, int4_param. destruct (is_int4 z); [reflexivity|].
  discriminate.
Qed.

Lemma hd_error_rows {A} (l : list A) (x : A) :
  hd_error l = Some x -> exists rest, l = x :: rest.
Proof. destruct l as [|y rest]; simpl; intros H; inversion H. eauto. Qed.

Lemma user_row_found uid d u :
  user_row uid d = Some u ->
  is_int4 uid = true
  /\ exists rest, filter (fun u => User.github_id u =? uid) (users d) = u :: rest.
Proof.
  intros H. pose proof (@first_row_int4 _ _ _ _ _ H) as Hrange.
  split; [exact Hrange|].
  unfold user_row in H. rewrite (@select_user_runs uid d Hrange) in H.
  now apply hd_error_rows.
Qed.

Lemma bounty_row_found bid d b :
  bounty_row bid d = Some b ->
  is_int4 bid = true
  /\ exists rest, filter (fun b => Bounty.id b =? bid) (bounties d) = b :: rest.
Proof.
  intros H. pose proof (@first_row_int4 _ _ _ _ _ H) as Hrange.
  split; [exact Hrange|].
  unfold bounty_row in H. rewrite (@select_bounty_runs bid d Hrange) in H.
  now apply hd_error_rows.
Qed.

Lemma bounty_row_of_rows bid d b rest :
  is_int4 bid = true ->
  filter (fun b => Bounty.id b =? bid) (bounties d) = b :: rest ->
  bounty_row bid d = Some b.
Proof.
  intros Hrange H. unfold bounty_row.
  rewrite (@select_bounty_runs bid d Hrange). unfold first_row. simpl.
  now rewrite H.
Qed.

Lemma created_by_found req_user bid d :
  created_by req_user bid d ->
  is_int4 bid = true /\ is_int4 (User.github_id req_user) = true
  /\ exists b rest,
       filter (fun b => (Bounty.id b =? bid)
                        && (Bounty.creator_id b =? User.github_id req_user))
              (bounties d) = b :: rest.
Proof.
  intros [b H]. unfold select_bounty_of_creator in H.
  pose proof (@first_row_int4 _ _ _ _ _ H) as H1.
  rewrite (@int4_param_runs _ _ _ _ H1) in H.
  pose proof (@first_row_int4 _ _ _ _ _ H) as H2.
  rewrite (@int4_param_runs _ _ _ _ H2) in H.
  split; [exact H1|]. split; [exact H2|].
  exists b. now apply hd_error_rows.
Qed.


(* ------------------------------------------------------------------ *)
(** ** Approval *)

Lemma existsb_all_false {A} (f : A -> bool) (l : list A) :
  (forall x, f x = false) -> existsb f l = false.
Proof. intros H. induction l; simpl; [reflexivity|]. now rewrite H. Qed.

Lemma forallb_all_true {A} (f : A -> bool) (l : list A) :
  (forall x, f x = true) -> forallb f l = true.
Proof. intros H. induction l; simpl; [reflexivity|]. now rewrite H. Qed.

Lemma rows_then_exists uid d u rest :
  filter (fun u => User.github_id u =? uid) (users d) = u :: rest ->
  user_exists uid d = true.
Proof.
  intros H.
  assert (Hin : In u (filter (fun u => User.github_id u =? uid) (users d)))
    by (rewrite H; now left).
  apply filter_In in Hin. apply existsb_exists. eauto.
Qed.

Lemma user_row_exists uid d u : user_row uid d = Some u -> user_exists uid d = true.
Proof.
  intros H. apply user_row_found in H. destruct H as [_ [rest H]].
  eapply rows_then_exists; eauto.
Qed.

Lemma has_claim_rows bid uid d :
  has_claim bid uid d ->
  exists c rest,
    filter (fun c => (Claim.bounty_id c =? bid) && (Claim.user_id c =? uid))
           (bounty_claims d) = c :: rest.
Proof.
  intros [c [Hin [Hb Hu]]].
  destruct (filter _ (bounty_claims d)) as [|c' rest] eqn:E; [|eauto].
  assert (Hc : In c (filter (fun c => (Claim.bounty_id c =? bid)
                                      && (Claim.user_id c =? uid))
                            (bounty_claims d))).
  { apply filter_In. split; [exact Hin|]. subst. now rewrite !Z.eqb_refl. }
  rewrite E in Hc. destruct Hc.
Qed.

Lemma filter_id_update bid (set : Bounty.t -> Bounty.t) l :
  (forall b, Bounty.id (set b) = Bounty.id b) ->
  filter (fun b => Bounty.id b =? bid)
         (map (fun b => if Bounty.id b =? bid then set b else b) l)
  = map set (filter (fun b => Bounty.id b =? bid) l).
Proof.
  intros Hid. induction l as [|b l IH]; simpl; [reflexivity|].
  destruct (Bounty.id b =? bid) eqn:E.
  - rewrite Hid, E. simpl. now rewrite IH.
  - rewrite E. exact IH.
Qed.

Lemma query_ok {A} (q : statement A) w a d' :
  q (db w) = (Ok a, d') -> query q w = (Return a, set_db d' w).
Proof. intros H. unfold query. now rewrite H. Qed.

Lemma query_err {A} (q : statement A) w code d' :
  q (db w) = (Err code, d') -> query q w = (Throw (PgError code), set_db d' w).
Proof. intros H. unfold query. now rewrite H. Qed.

(** The UPDATE of the approval, on parameters of the type of their
    columns and a claimant who has an account. *)
Lemma approve_update_runs claimantId bountyId d :
  is_int4 bountyId = true -> is_int4 claimantId = true ->
  user_exists claimantId d = true ->
  number_param (to_number claimantId)
    (fun claimantId =>
       number_param (to_number bountyId)
         (update_status_and_claimed_by st_payment_pending claimantId)) d
  = (Ok tt,
     set_bounties
       (map (fun b => if Bounty.id b =? bountyId
                      then approved claimantId b else b) (bounties d)) d).
Proof.
  intros Hb Hc Hexists.
  rewrite (@number_param_int4 _ claimantId _ d Hc).
  rewrite (@number_param_int4 _ bountyId _ d Hb).
  unfold update_status_and_claimed_by, update_bounty.
  rewrite !int4_param_runs by assumption.
  rewrite existsb_all_false by reflexivity.
  rewrite forallb_all_true; [reflexivity|].
  intros b. unfold claimed_by_ok. simpl. rewrite Hexists. apply orb_true_r.
Qed.

(** The approval of a claimant by the creator, run to its end. *)
Lemma approve_succeeds req_user bountyId claimantId w bounty owner claimant :
  bounty_row bountyId (db w) = Some bounty ->
  Bounty.creator_id bounty = User.github_id req_user ->
  has_claim bountyId claimantId (db w) ->
  user_row (Bounty.creator_id bounty) (db w) = Some owner ->
  truthy_string (User.solana_address owner) = true ->
  user_row claimantId (db w) = Some claimant ->
  truthy_string (User.solana_address claimant) = true ->
  approve_bounty_verify req_user bountyId claimantId w
  = (Return {| status_code := 200;
               body := payout_body (User.solana_address owner)
                         (User.solana_address claimant)
                         (Bounty.amount bounty) bountyId |},
     set_db
       (set_bounties
          (map (fun b => if Bounty.id b =? bountyId
                         then approved claimantId b else b)
               (bounties (db w)))
          (db w)) w).
Proof.
  intros Hrow Hcreator Hclaim Howner Hoaddr Hclaimant Hcaddr.
  pose proof (user_row_exists _ _ Hclaimant) as Hexists.
  apply bounty_row_found in Hrow. destruct Hrow as [Hb [rest Hrow]].
  apply has_claim_rows in Hclaim. destruct Hclaim as [c [crest Hclaim]].
  apply user_row_found in Howner. destruct Howner as [Ho [orest Howner]].
  apply user_row_found in Hclaimant.
  destruct Hclaimant as [Hc [urest Hclaimant]].
  unfold approve_bounty_verify, try_catch.
  unfold bind at 1.
  rewrite (@query_ok _ _ w (bounty :: rest) (db w));
    [|rewrite (@number_param_int4 _ bountyId _ (db w) Hb),
        (@select_bounty_runs bountyId (db w) Hb), Hrow; reflexivity].
  unfold bind at 1.
  rewrite (@query_ok _ _ _ (c :: crest) (db w));
    [|simpl;
      rewrite (@number_param_int4 _ bountyId _ (db w) Hb),
        (@number_param_int4 _ claimantId _ (db w) Hc),
        (@select_claim_runs bountyId claimantId (db w) Hb Hc), Hclaim;
      reflexivity].
  rewrite Hcreator, Z.eqb_refl. cbn [negb].
  unfold bind at 1.
  rewrite (@query_ok _ _ _ (owner :: orest) (db w));
    [|simpl; rewrite <- Hcreator,
        (@select_user_runs (Bounty.creator_id bounty) (db w) Ho), Howner;
      reflexivity].
  unfold bind at 1.
  rewrite (@query_ok _ _ _ (claimant :: urest) (db w));
    [|simpl;
      rewrite (@number_param_int4 _ claimantId _ (db w) Hc),
        (@select_user_runs claimantId (db w) Hc), Hclaimant;
      reflexivity].
  rewrite Hoaddr, Hcaddr. cbn [negb orb].
  unfold bind at 1.
  rewrite (@query_ok _ _ _ tt
             (set_bounties
                (map (fun b => if Bounty.id b =? bountyId
                               then approved claimantId b else b)
                     (bounties (db w))) (db w)));
    [|simpl; now apply approve_update_runs].
  reflexivity.
Qed.

(* ------------------------------------------------------------------ *)
(** ** Numbers that are no INTEGER *)

Lemma round_to_double_large n m :
  (2 ^ 53 <= n)%N -> round_to_double n = Some m -> (2 ^ 53 <= m)%N.
Proof.
  intros Hn. unfold round_to_double.
  destruct (n <? 2 ^ 53)%N eqn:E; [apply N.ltb_lt in E; lia|].
  set (e := (N.log2 n - 52)%N).
  set (q := N.shiftr n e).
  match goal with |- context [if ?c then (q + 1)%N else q] =>
    set (q' := if c then (q + 1)%N else q) end.
  assert (Hq' : (q <= q')%N) by (unfold q'; destruct (_ || _); lia).
  destruct (2 ^ 1024 <=? N.shiftl q' e)%N; [discriminate|].
  intros H. inversion H. subst m. clear H.
  assert (Hlog : (53 <= N.log2 n)%N).
  { rewrite <- (N.log2_pow2 53) by lia. now apply N.log2_le_mono. }
  assert (Hpos : (0 < n)%N).
  { assert (0 < 2 ^ 53)%N by (vm_compute; reflexivity). lia. }
  destruct (N.log2_spec n Hpos) as [Hlow _].
  assert (Hsplit : (2 ^ N.log2 n = 2 ^ 52 * 2 ^ e)%N).
  { rewrite <- N.pow_add_r. f_equal. unfold e. lia. }
  assert (He : (2 <= 2 ^ e)%N).
  { change 2%N with (2 ^ 1)%N at 1. apply N.pow_le_mono_r; unfold e; lia. }
  assert (Hq : (2 ^ 52 <= q)%N).
  { unfold q. rewrite N.shiftr_div_pow2.
    apply N.div_le_lower_bound; [lia|].
    rewrite N.mul_comm, <- Hsplit. exact Hlow. }
  rewrite N.shiftl_mul_pow2.
  change (2 ^ 53)%N with (2 ^ 52 * 2)%N.
  apply N.mul_le_mono; lia.
Qed.

Lemma rounds_to_large m v :
  (2 ^ 53 < m)%N -> rounds_to m v = true -> (2 ^ 53 <= v)%N.
Proof.
  intros Hm. unfold rounds_to.
  destruct (N.le_gt_cases (2 ^ 53) v) as [Hv|Hv]; [intros _; exact Hv|].
  rewrite round_to_double_safe by lia.
  intros H. apply N.eqb_eq in H. lia.
Qed.

Lemma shortest_from_large ks size m :
  (2 ^ 53 < m)%N -> (2 ^ 53 <= shortest_from ks size m)%N.
Proof.
  intros Hm. induction ks as [|k ks IH]; cbn [shortest_from]; [lia|].
  set (p := (10 ^ (size - k))%N).
  destruct (rounds_to m (m / p * p)) eqn:Hlo;
    destruct (rounds_to m (m / p * p + p)) eqn:Hhi.
  - pose proof (rounds_to_large _ Hm Hlo). pose proof (rounds_to_large _ Hm Hhi).
    destruct (_ <? _)%N; [assumption|].
    destruct (_ <? _)%N; [assumption|]. now destruct (N.even _).
  - exact (rounds_to_large _ Hm Hlo).
  - exact (rounds_to_large _ Hm Hhi).
  - exact IH.
Qed.

Lemma shortest_large m : (2 ^ 53 <= m)%N -> (2 ^ 53 <= shortest m)%N.
Proof.
  intros Hm. unfold shortest.
  destruct (m <=? 2 ^ 53)%N eqn:E; [exact Hm|].
  apply N.leb_gt in E. now apply shortest_from_large.
Qed.

Lemma not_int4_large v : 2 ^ 53 <= Z.abs v -> is_int4 v = false.
Proof.
  intros H. destruct (is_int4 v) eqn:E; [|reflexivity].
  apply is_int4_range in E.
  assert (2147483648 < 2 ^ 53) by (vm_compute; reflexivity). lia.
Qed.

(** An integer that is no INTEGER makes a number that the server refuses
    as a parameter of that type: out of range when [toString()] writes
    its digits, not an integer when it writes an exponent or an infinity. *)
Lemma as_int4_out z :
  is_int4 z = false ->
  as_int4 (to_number z) = Err numeric_value_out_of_range
  \/ as_int4 (to_number z) = Err invalid_text_representation.
Proof.
  intros Hout.
  destruct (Z.le_gt_cases (Z.abs z) (2 ^ 53)) as [Hsafe|Hbig].
  - left. rewrite (@to_number_safe z Hsafe). unfold as_int4.
    rewrite (@number_toString_safe z Hsafe). now rewrite Hout.
  - unfold to_number.
    assert (Hn : (2 ^ 53 <= Z.abs_N z)%N).
    { apply N2Z.inj_le. rewrite N2Z.inj_abs_N.
      change (Z.of_N (2 ^ 53)) with (2 ^ 53). lia. }
    destruct (round_to_double (Z.abs_N z)) as [m|] eqn:E; [|now right].
    pose proof (round_to_double_large Hn E) as Hm.
    unfold as_int4, number_toString.
    set (v := Z.sgn (Z.sgn z * Z.of_N m)
              * Z.of_N (shortest (Z.abs_N (Z.sgn z * Z.of_N m)))).
    assert (Habs : Z.abs_N (Z.sgn z * Z.of_N m) = m).
    { destruct z as [|p|p]; simpl in *; try lia;
        destruct m; simpl; try reflexivity; lia. }
    assert (Hv : 2 ^ 53 <= Z.abs v).
    { unfold v. rewrite Habs, Z.abs_mul.
      pose proof (shortest_large Hm) as Hs.
      apply N2Z.inj_le in Hs. change (Z.of_N (2 ^ 53)) with (2 ^ 53) in Hs.
      assert (Hsgn : Z.abs (Z.sgn (Z.sgn z * Z.of_N m)) = 1).
      { assert (0 < Z.of_N m).
        { apply N2Z.inj_le in Hm. change (Z.of_N (2 ^ 53)) with (2 ^ 53) in Hm.
          assert (0 < 2 ^ 53) by (vm_compute; reflexivity). lia. }
        destruct z as [|p|p]; simpl in *; try lia;
          destruct (Z.of_N m); simpl; try reflexivity; lia. }
      rewrite Hsgn, Z.abs_eq by lia. lia. }
    destruct (Z.abs v <? 10 ^ 21); [|now right].
    left. now rewrite (not_int4_large _ Hv).
Qed.

(** A statement on a number that is no INTEGER does not run. *)
Lemma number_param_out {A} z (q : Z -> statement A) d :
  is_int4 z = false ->
  exists code, number_param (to_number z) q d = (Err code, d).
Proof.
  intros Hout. unfold number_param.
  destruct (as_int4_out _ Hout) as [E|E]; rewrite E; eauto.
Qed.

(** Every run of the approval: what it answers, and on what. *)
Lemma approve_cases req_user bountyId claimantId w :
  exists r w',
    approve_bounty_verify req_user bountyId claimantId w = (Return r, w')
    /\ outbox w' = outbox w /\ tx w' = tx w
    /\ ((status_code r = 404 /\ w' = set_db (db w) w
         /\ is_int4 bountyId = true
         /\ filter (fun b => Bounty.id b =? bountyId) (bounties (db w)) = [])
        \/ (status_code r = 400 /\ w' = set_db (db w) w
            /\ is_int4 bountyId = true /\ is_int4 claimantId = true)
        \/ (status_code r = 401 /\ w' = set_db (db w) w
            /\ (exists bounty rest,
                  filter (fun b => Bounty.id b =? bountyId) (bounties (db w))
                  = bounty :: rest
                  /\ Bounty.creator_id bounty <> User.github_id req_user)
            /\ has_claim bountyId claimantId (db w)
            /\ is_int4 bountyId = true /\ is_int4 claimantId = true)
        \/ (status_code r = 200
            /\ w' = set_db
                      (set_bounties
                         (map (fun b => if Bounty.id b =? bountyId
                                        then approved claimantId b else b)
                              (bounties (db w))) (db w)) w
            /\ (exists bounty rest,
                  filter (fun b => Bounty.id b =? bountyId) (bounties (db w))
                  = bounty :: rest
                  /\ Bounty.creator_id bounty = User.github_id req_user)
            /\ has_claim bountyId claimantId (db w)
            /\ is_int4 bountyId = true /\ is_int4 claimantId = true)
        \/ (status_code r = 500 /\ db w' = db w
            /\ (exists code,
                  console w'
                  = console w
                    ++ [console_error "Error approving bounty:" (PgError code)])
            /\ (is_int4 bountyId = false \/ is_int4 claimantId = false
                \/ is_int4 (User.github_id req_user) = false))).
Proof.
  unfold approve_bounty_verify, try_catch. unfold bind at 1.
  destruct (is_int4 bountyId) eqn:Hb.
  2:{ destruct (@number_param_out _ bountyId select_bounty (db w) Hb)
        as [code Hcode].
      rewrite (query_err _ _ Hcode).
      eexists. eexists. split; [reflexivity|]. simpl.
      split; [reflexivity|]. split; [reflexivity|].
      do 4 right. repeat split; eauto. }
  rewrite (@query_ok _ _ w
             (filter (fun b => Bounty.id b =? bountyId) (bounties (db w)))
             (db w));
    [|rewrite (@number_param_int4 _ bountyId _ (db w) Hb);
      now apply select_bounty_runs].
  destruct (filter (fun b => Bounty.id b =? bountyId) (bounties (db w)))
    as [|bounty rest] eqn:Hrow.
  { eexists. eexists. split; [reflexivity|]. simpl.
    split; [reflexivity|]. split; [reflexivity|]. left. auto. }
  unfold bind at 1.
  destruct (is_int4 claimantId) eqn:Hc.
  2:{ destruct (@number_param_out _ claimantId (select_claim bountyId)
                  (db w) Hc) as [code Hcode].
      rewrite (@query_err _ _ _ code (db w));
        [|simpl; rewrite (@number_param_int4 _ bountyId _ (db w) Hb);
          exact Hcode].
      eexists. eexists. split; [reflexivity|]. simpl.
      split; [reflexivity|]. split; [reflexivity|].
      do 4 right. repeat split; eauto. }
  rewrite (@query_ok _ _ _
             (filter (fun c => (Claim.bounty_id c =? bountyId)
                               && (Claim.user_id c =? claimantId))
                     (bounty_claims (db w)))
             (db w));
    [|simpl; rewrite (@number_param_int4 _ bountyId _ (db w) Hb),
        (@number_param_int4 _ claimantId _ (db w) Hc);
      now apply select_claim_runs].
  destruct (filter (fun c => (Claim.bounty_id c =? bountyId)
                             && (Claim.user_id c =? claimantId))
                   (bounty_claims (db w))) as [|c crest] eqn:Hclaim.
  { eexists. eexists. split; [reflexivity|]. simpl.
    split; [reflexivity|]. split; [reflexivity|]. right. left. auto. }
  assert (Hhas : has_claim bountyId claimantId (db w)).
  { assert (Hin : In c (filter (fun c => (Claim.bounty_id c =? bountyId)
                                         && (Claim.user_id c =? claimantId))
                               (bounty_claims (db w))))
      by (rewrite Hclaim; now left).
    apply filter_In in Hin. destruct Hin as [Hin Hcond].
    apply andb_true_iff in Hcond. destruct Hcond as [H1 H2].
    exists c. split; [exact Hin|]. split; now apply Z.eqb_eq. }
  destruct (Bounty.creator_id bounty =? User.github_id req_user) eqn:Hcreator;
    cbn [negb].
  2:{ apply Z.eqb_neq in Hcreator.
      eexists. eexists. split; [reflexivity|]. simpl.
      split; [reflexivity|]. split; [reflexivity|].
      right. right. left. repeat split; eauto. }
  apply Z.eqb_eq in Hcreator.
  unfold bind at 1.
  destruct (is_int4 (Bounty.creator_id bounty)) eqn:Ho.
  2:{ rewrite (@query_err _ _ _ numeric_value_out_of_range (db w));
        [|simpl; unfold select_user; now apply int4_param_fails].
      eexists. eexists. split; [reflexivity|]. simpl.
      split; [reflexivity|]. split; [reflexivity|].
      do 4 right. rewrite <- Hcreator. repeat split; eauto. }
  rewrite (@query_ok _ _ _
             (filter (fun u => User.github_id u =? Bounty.creator_id bounty)
                     (users (db w))) (db w));
    [|simpl; now apply select_user_runs].
  unfold bind at 1.
  rewrite (@query_ok _ _ _
             (filter (fun u => User.github_id u =? claimantId)
                     (users (db w))) (db w));
    [|simpl; rewrite (@number_param_int4 _ claimantId _ (db w) Hc);
      now apply select_user_runs].
  destruct (filter (fun u => User.github_id u =? Bounty.creator_id bounty)
                   (users (db w))) as [|owner orest].
  { eexists. eexists. split; [reflexivity|]. simpl.
    split; [reflexivity|]. split; [reflexivity|]. right. left. auto. }
  destruct (filter (fun u => User.github_id u =? claimantId) (users (db w)))
    as [|claimant urest] eqn:Hclaimant.
  { eexists. eexists. split; [reflexivity|]. simpl.
    split; [reflexivity|]. split; [reflexivity|]. right. left. auto. }
  destruct (negb (truthy_string (User.solana_address owner))
            || negb (truthy_string (User.solana_address claimant))).
  { eexists. eexists. split; [reflexivity|]. simpl.
    split; [reflexivity|]. split; [reflexivity|]. right. left. auto. }
  unfold bind at 1.
  rewrite (@query_ok _ _ _ tt
             (set_bounties
                (map (fun b => if Bounty.id b =? bountyId
                               then approved claimantId b else b)
                     (bounties (db w))) (db w)));
    [|simpl; apply approve_update_runs; try assumption;
      eapply rows_then_exists; eauto].
  eexists. eexists. split; [reflexivity|]. simpl.
  split; [reflexivity|]. split; [reflexivity|].
  do 3 right. left. repeat split; eauto.
Qed.

Lemma approved_rows claimantId bountyId l b :
  In b (map (fun b => if Bounty.id b =? bountyId
                      then approved claimantId b else b) l) ->
  Bounty.id b = bountyId ->
  Bounty.status b = st_payment_pending
  /\ Bounty.claimed_by b = Some claimantId.
Proof.
  intros Hin Hid. apply in_map_iff in Hin. destruct Hin as [b0 [Heq _]].
  destruct (Bounty.id b0 =? bountyId) eqn:E.
  - subst b. now split.
  - subst b. apply Z.eqb_neq in E. contradiction.
Qed.

Lemma row_of_filter bountyId (l : list Bounty.t) bounty rest :
  filter (fun b => Bounty.id b =? bountyId) l = bounty :: rest ->
  In bounty l /\ Bounty.id bounty = bountyId.
Proof.
  intros H.
  assert (Hin : In bounty (filter (fun b => Bounty.id b =? bountyId) l))
    by (rewrite H; now left).
  apply filter_In in Hin. destruct Hin as [Hin Hid].
  split; [exact Hin|now apply Z.eqb_eq].
Qed.

(** A requester who created no bounty of that id is turned away. *)
Lemma approve_rejects req_user bountyId claimantId w :
  (forall b, In b (bounties (db w)) -> Bounty.id b = bountyId ->
             Bounty.creator_id b <> User.github_id req_user) ->
  exists r w',
    approve_bounty_verify req_user bountyId claimantId w = (Return r, w')
    /\ status_code r <> 200
    /\ db w' = db w.
Proof.
  intros Hnot.
  destruct (approve_cases req_user bountyId claimantId w)
    as (r & w' & Hrun & _ & _ & Hcases).
  exists r, w'. split; [exact Hrun|].
  destruct Hcases as [(Hcode & Hw & _)|[(Hcode & Hw & _)|[(Hcode & Hw & _)
                     |[(Hcode & Hw & (bounty & rest & Hrow & Hcreator) & _)
                      |(Hcode & Hdb & _)]]]];
    try (subst w'; split; [lia|reflexivity]).
  - exfalso. destruct (row_of_filter _ _ Hrow) as [Hin Hid].
    exact (Hnot bounty Hin Hid Hcreator).
  - split; [lia|exact Hdb].
Qed.

(** C5. When the requester is the creator of the bounty, the claimant has
    a claim on it and both have a payout address, the approval answers
    with the creator's address, the claimant's address and the amount of
    the bounty, and leaves the bounty with status payment pending and
    [claimed_by] the claimant; a requester who is not the creator gets an
    error answer and the database stays as it was. *)
Theorem approve_by_creator req_user bountyId claimantId w :
  (forall bounty owner claimant,
     bounty_row bountyId (db w) = Some bounty ->
     Bounty.creator_id bounty = User.github_id req_user ->
     has_claim bountyId claimantId (db w) ->
     user_row (Bounty.creator_id bounty) (db w) = Some owner ->
     truthy_string (User.solana_address owner) = true ->
     user_row claimantId (db w) = Some claimant ->
     truthy_string (User.solana_address claimant) = true ->
     exists w' row,
       approve_bounty_verify req_user bountyId claimantId w
       = (Return {| status_code := 200;
                    body := payout_body (User.solana_address owner)
                              (User.solana_address claimant)
                              (Bounty.amount bounty) bountyId |}, w')
       /\ bounty_row bountyId (db w') = Some row
       /\ Bounty.status row = st_payment_pending
       /\ Bounty.claimed_by row = Some claimantId
       /\ (forall b, In b (bounties (db w')) -> Bounty.id b = bountyId ->
             Bounty.status b = st_payment_pending
             /\ Bounty.claimed_by b = Some claimantId))
  /\
  ((forall b, In b (bounties (db w)) -> Bounty.id b = bountyId ->
              Bounty.creator_id b <> User.github_id req_user) ->
   exists r w',
     approve_bounty_verify req_user bountyId claimantId w = (Return r, w')
     /\ status_code r <> 200
     /\ db w' = db w).
Proof.
  split.
  - intros bounty owner claimant Hrow Hcreator Hclaim Ho Hoa Hc Hca.
    rewrite (@approve_succeeds req_user bountyId claimantId w bounty owner claimant
               Hrow Hcreator Hclaim Ho Hoa Hc Hca).
    eexists. exists (approved claimantId bounty).
    split; [reflexivity|]. simpl.
    split; [|split; [reflexivity|split; [reflexivity|]]].
    + apply bounty_row_found in Hrow. destruct Hrow as [Hb [rest Hrow]].
      eapply bounty_row_of_rows; [exact Hb|]. simpl.
      rewrite filter_id_update by reflexivity. rewrite Hrow. reflexivity.
    + intros b. apply approved_rows.
  - apply approve_rejects.
Qed.

Lemma approve_by_creator_witness :
  (exists w' row,
     approve_bounty_verify alice 9 2
       (request_world (store9 st_open None [claim_of 1 2 7] "pull_request"))
     = (Return {| status_code := 200;
                  body := payout_body (Some (js "AliceWallet"))
                            (Some (js "BobWallet")) 500 9 |}, w')
     /\ bounty_row 9 (db w') = Some row
     /\ Bounty.status row = st_payment_pending
     /\ Bounty.claimed_by row = Some 2)
  /\
  (exists r w',
     approve_bounty_verify bob 9 2
       (request_world (store9 st_open None [claim_of 1 2 7] "pull_request"))
     = (Return r, w')
     /\ status_code r <> 200
     /\ db w' = store9 st_open None [claim_of 1 2 7] "pull_request").
Proof.
  split.
  - destruct (approve_by_creator alice 9 2
                (request_world
                   (store9 st_open None [claim_of 1 2 7] "pull_request")))
      as [Hgrant _].
    destruct (Hgrant (bounty9 st_open None) alice bob)
      as (w' & row & Hrun & Hrow & Hstatus & Hclaimed & _).
    + reflexivity.
    + reflexivity.
    + exists (claim_of 1 2 7). simpl. auto.
    + reflexivity.
    + reflexivity.
    + reflexivity.
    + reflexivity.
    + exists w', row. auto.
  - destruct (approve_by_creator bob 9 2
                (request_world
                   (store9 st_open None [claim_of 1 2 7] "pull_request")))
      as [_ Hreject].
    apply Hreject. simpl. intros b [Hb|[]] _. subst b. simpl. lia.
Defined.

(** C10. The approval does not look at the status of the bounty: whatever
    it is, open, payment pending or completed, the approval by the creator
    of a claimant with a claim, both with a payout address, answers 200
    and leaves the bounty with status payment pending. *)
Theorem approve_whatever_the_status (s : bounty_status)
    req_user bountyId claimantId w bounty owner claimant :
  bounty_row bountyId (db w) = Some bounty ->
  Bounty.status bounty = s ->
  Bounty.creator_id bounty = User.github_id req_user ->
  has_claim bountyId claimantId (db w) ->
  user_row (Bounty.creator_id bounty) (db w) = Some owner ->
  truthy_string (User.solana_address owner) = true ->
  user_row claimantId (db w) = Some claimant ->
  truthy_string (User.solana_address claimant) = true ->
  exists r w' row,
    approve_bounty_verify req_user bountyId claimantId w = (Return r, w')
    /\ status_code r = 200
    /\ bounty_row bountyId (db w') = Some row
    /\ Bounty.status row = st_payment_pending
    /\ Bounty.claimed_by row = Some claimantId.
Proof.
  intros Hrow _ Hcreator Hclaim Ho Hoa Hc Hca.
  rewrite (@approve_succeeds req_user bountyId claimantId w bounty owner claimant
               Hrow Hcreator Hclaim Ho Hoa Hc Hca).
  eexists. eexists. exists (approved claimantId bounty).
  split; [reflexivity|]. simpl.
  split; [reflexivity|split; [|split; reflexivity]].
  apply bounty_row_found in Hrow. destruct Hrow as [Hb [rest Hrow]].
  eapply bounty_row_of_rows; [exact Hb|]. simpl.
  rewrite filter_id_update by reflexivity. rewrite Hrow. reflexivity.
Qed.

Lemma approve_whatever_the_status_witness :
  exists r w' row,
    approve_bounty_verify alice 9 2
      (request_world
         (store9 st_completed (Some 2) [claim_of 1 2 7] "pull_request"))
    = (Return r, w')
    /\ status_code r = 200
    /\ bounty_row 9 (db w') = Some row
    /\ Bounty.status row = st_payment_pending
    /\ Bounty.claimed_by row = Some 2.
Proof.
  apply (@approve_whatever_the_status st_completed alice 9 2
           (request_world
              (store9 st_completed (Some 2) [claim_of 1 2 7] "pull_request"))
           (bounty9 st_completed (Some 2)) alice bob).
  - reflexivity.
  - reflexivity.
  - reflexivity.
  - exists (claim_of 1 2 7). simpl. auto.
  - reflexivity.
  - reflexivity.
  - reflexivity.
  - reflexivity.
Defined.

(* ------------------------------------------------------------------ *)
(** ** Deletion *)

Lemma guarded_post_returns env call text w :
  exists w',
    try_catch (post env call) (fun e => log (console_error text e)) w
    = (Return tt, w')
    /\ db w' = db w /\ tx w' = tx w.
Proof.
  unfold try_catch, post, log.
  destruct (post_ok env call); eexists; (split; [reflexivity|now split]).
Qed.


Lemma no_claim_left bountyId (l : list Claim.t) :
  existsb (fun c => Claim.bounty_id c =? bountyId)
          (filter (fun c => negb (Claim.bounty_id c =? bountyId)) l) = false.
Proof.
  induction l as [|c l IH]; simpl; [reflexivity|].
  destruct (Claim.bounty_id c =? bountyId) eqn:E; simpl; [exact IH|].
  now rewrite E.
Qed.






(** The storage fails on the delete of the bounty row, after the claims
    are deleted: the ROLLBACK brings the claims back. *)
Example deletion_rolls_back :
  delete_bounty_handler (failing_at 4) alice 9
    (request_world
       (store9 st_open None [claim_of 1 2 7; claim_of 2 2 8] "pull_request"))
  = (Return {| status_code := 500; body := error_body "Failed to delete bounty" |},
     {| db := store9 st_open None [claim_of 1 2 7; claim_of 2 2 8]
                "pull_request";
        tx := None; outbox := [];
        console := [console_error "Error deleting bounty:" StorageFault] |}).
Proof. reflexivity. Qed.
(* ------------------------------------------------------------------ *)
(** ** The notices of an amount update *)

(** C8, on the code. Bounty 9 has claims from pull requests 7 and 8 and
    alice raises its amount to 800.  GitHub refuses the notice on pull
    request 7: the loop stops there, pull request 8 gets no notice, and
    the answer is 500.  The amount is 800 all the same. *)
Theorem refused_notice_ends_the_loop :
  put_bounty pull_request_7_refused alice 9 800
    (request_world
       (store9 st_open None [claim_of 1 2 7; claim_of 2 2 8] "pull_request"))
  = (Return {| status_code := 500; body := error_body "Failed to update bounty" |},
     {| db := {| users := [alice; bob];
                 bounties := [Bounty.with_amount 800 (bounty9 st_open None)];
                 bounty_claims := [claim_of 1 2 7; claim_of 2 2 8];
                 bounties_id_seq := 10; bounty_claims_id_seq := 3;
                 claims_pr_column := "pull_request";
                 numeric_infinity := true |};
        tx := None;
        outbox := [issues_createComment (Some (js "org")) (Some (js "repo")) 4200
                     (AmountUpdated 500 (Finite 800))];
        console :=
          [console_error "Error updating bounty:"
             (RequestError
                (pulls_createReviewComment (Some (js "org")) (Some (js "repo")) 7
                   (AmountUpdated 500 (Finite 800)) (js "latest") [] 1))] |}).
Proof. reflexivity. Qed.

(** With GitHub taking every call, both pull requests get the notice. *)
Example both_notices_posted :
  outbox (snd (put_bounty quiet alice 9 800
                 (request_world
                    (store9 st_open None [claim_of 1 2 7; claim_of 2 2 8]
                       "pull_request"))))
  = [issues_createComment (Some (js "org")) (Some (js "repo")) 4200
       (AmountUpdated 500 (Finite 800));
     pulls_createReviewComment (Some (js "org")) (Some (js "repo")) 7
       (AmountUpdated 500 (Finite 800)) (js "latest") [] 1;
     pulls_createReviewComment (Some (js "org")) (Some (js "repo")) 8
       (AmountUpdated 500 (Finite 800)) (js "latest") [] 1].
Proof. reflexivity. Qed.

(* ------------------------------------------------------------------ *)
(** ** The pattern and its language *)

Lemma match_literal_split pat : forall s rest,
  match_literal pat s = Some rest ->
  exists tok, s = tok ++ rest
              /\ List.length tok = List.length pat
              /\ match_literal pat tok = Some [].
Proof.
  induction pat as [|p pat IH]; intros s rest H.
  - simpl in H. inversion H. exists []. auto.
  - destruct s as [|c s]; simpl in H; [discriminate|].
    destruct (ci_eqb p c) eqn:E; [|discriminate].
    destruct (IH _ _ H) as (tok & Hs & Hlen & Htok).
    exists (c :: tok). simpl. rewrite E. subst s. auto.
Qed.

Lemma match_literal_app pat : forall tok rest,
  List.length tok = List.length pat ->
  match_literal pat tok = Some [] ->
  match_literal pat (tok ++ rest) = Some rest.
Proof.
  induction pat as [|p pat IH]; intros tok rest Hlen H.
  - destruct tok; [reflexivity|discriminate].
  - destruct tok as [|c tok]; [discriminate|]. simpl in *.
    destruct (ci_eqb p c); [|discriminate].
    apply IH; [lia|exact H].
Qed.

Lemma span_split cls : forall s pre rest,
  span cls s = (pre, rest) -> s = pre ++ rest /\ forallb cls pre = true.
Proof.
  induction s as [|c s IH]; intros pre rest H; simpl in H.
  - inversion H. auto.
  - destruct (cls c) eqn:E.
    + destruct (span cls s) as [pre' rest'] eqn:Es. inversion H. subst.
      destruct (IH _ _ eq_refl) as [Hs Hpre]. subst s. simpl.
      now rewrite E, Hpre.
    + inversion H. auto.
Qed.

Lemma span_app cls : forall pre rest,
  forallb cls pre = true ->
  span cls (pre ++ rest) = (pre ++ fst (span cls rest), snd (span cls rest)).
Proof.
  induction pre as [|c pre IH]; intros rest H; simpl.
  - now destruct (span cls rest).
  - simpl in H. apply andb_true_iff in H. destruct H as [Hc Hpre].
    rewrite Hc, (IH rest Hpre). reflexivity.
Qed.

Lemma digit_is_no_space c : is_digit c = true -> is_space c = false.
Proof.
  unfold is_digit, is_space. intros H.
  apply andb_true_iff in H. destruct H as [H1 H2].
  apply N.leb_le in H1. apply N.leb_le in H2.
  repeat rewrite orb_false_iff. repeat split;
    try (apply N.eqb_neq; lia);
    apply andb_false_iff; [right|left]; apply N.leb_gt; lia.
Qed.

Lemma match_here_language token s digits :
  match_here token s = Some digits -> has_numeric_command token s.
Proof.
  unfold match_here. intros H.
  destruct (match_literal token s) as [after_token|] eqn:Hlit; [|discriminate].
  destruct (match_literal_split _ _ Hlit) as (tok & Hs & Hlen & Htok).
  destruct (span is_space after_token) as [spaces after_space] eqn:Hsp.
  destruct (span_split _ _ Hsp) as [Hs1 Hspaces].
  destruct spaces as [|sp spaces]; [discriminate|].
  destruct (span is_digit after_space) as [ds after_digits] eqn:Hd.
  destruct (span_split _ _ Hd) as [Hs2 Hds].
  destruct ds as [|d0 ds]; [discriminate|].
  exists [], tok, (sp :: spaces), (d0 :: ds), after_digits.
  subst. repeat split; auto; discriminate.
Qed.

Lemma regex_match_language token : forall s digits,
  regex_match token s = Some digits -> has_numeric_command token s.
Proof.
  induction s as [|c s IH]; intros digits H; simpl in H.
  - destruct (match_here token []) eqn:E; [|discriminate].
    eapply match_here_language; eauto.
  - destruct (match_here token (c :: s)) eqn:E.
    + eapply match_here_language; eauto.
    + destruct (IH _ H) as (before & tok & sp & ds & after & Hbody).
      destruct Hbody as [Hs Hrest].
      exists (c :: before), tok, sp, ds, after. subst s. auto.
Qed.

Lemma match_here_complete token tok spaces digits after :
  List.length tok = List.length token ->
  match_literal token tok = Some [] ->
  spaces <> [] -> forallb is_space spaces = true ->
  digits <> [] -> forallb is_digit digits = true ->
  match_here token (tok ++ spaces ++ digits ++ after) <> None.
Proof.
  intros Hlen Htok Hsp Hspaces Hd Hdigits. unfold match_here.
  rewrite (match_literal_app _ _ _ Hlen Htok).
  rewrite (span_app _ _ _ Hspaces).
  destruct digits as [|d0 ds]; [congruence|].
  simpl in Hdigits. apply andb_true_iff in Hdigits.
  destruct Hdigits as [Hd0 Hds].
  assert (Hstop : span is_space ((d0 :: ds) ++ after) = ([], (d0 :: ds) ++ after)).
  { simpl. now rewrite (digit_is_no_space _ Hd0). }
  rewrite Hstop. simpl. rewrite app_nil_r.
  destruct spaces as [|sp spaces]; [congruence|].
  rewrite Hd0. destruct (span is_digit (ds ++ after)). discriminate.
Qed.

Lemma regex_match_complete token s :
  has_numeric_command token s -> regex_match token s <> None.
Proof.
  intros (before & tok & sp & ds & after & Hbody).
  destruct Hbody as (Hs & Hlen & Htok & Hsp1 & Hsp2 & Hd1 & Hd2).
  subst s. induction before as [|c before IH].
  - pose proof (@match_here_complete token tok sp ds after
                  Hlen Htok Hsp1 Hsp2 Hd1 Hd2) as H.
    simpl app at 1.
    destruct (tok ++ sp ++ ds ++ after) as [|x xs]; simpl;
      destruct (match_here token _); congruence.
  - simpl. destruct (match_here token _); [discriminate|exact IH].
Qed.

(* ------------------------------------------------------------------ *)
(** ** A command without a number *)

(** C9. The text the creation reads, the comment or else the issue
    description, nowhere holds the command token followed by white space
    and a decimal digit: the argument of every [/create-bounty] in it is
    missing or does not start as a number.  Then the handler returns
    [undefined] without throwing, having written its "No valid bounty
    amount" line to the console and nothing else: the database is as it
    was and no comment is posted. *)
Theorem no_number_no_bounty env p w text :
  Payload.comment p = Some {| Comment.body := text |}
  \/ (Payload.comment p = None
      /\ exists i, Payload.issue p = Some i /\ Issue.body i = Some text) ->
  ~ has_numeric_command create_token text ->
  handleBountyCreation env p w
  = (Return None,
     logged
       (console_log
          "No valid bounty amount found in the comment or issue description")
       w).
Proof.
  intros Htext Hnone.
  assert (Harg : command_argument create_token text = None).
  { unfold command_argument.
    destruct (regex_match create_token text) as [digits|] eqn:E;
      [|reflexivity].
    exfalso. apply Hnone. eapply regex_match_language; eauto. }
  unfold handleBountyCreation, creation_amount, bind.
  destruct Htext as [Hc|[Hc [i [Hi Hb]]]].
  - rewrite Hc. simpl. rewrite Harg. reflexivity.
  - rewrite Hc, Hi, Hb. simpl. rewrite Harg. reflexivity.
Qed.

Lemma no_number_no_bounty_witness :
  handleBountyCreation quiet (issue_commented "/create-bounty abc")
    (request_world signed_in)
  = (Return None,
     logged
       (console_log
          "No valid bounty amount found in the comment or issue description")
       (request_world signed_in)).
Proof.
  apply (@no_number_no_bounty quiet (issue_commented "/create-bounty abc")
           (request_world signed_in) (js "/create-bounty abc")).
  - left. reflexivity.
  - intros H. apply regex_match_complete in H. apply H.
    vm_compute. reflexivity.
Defined.

(** The same comment through the dispatcher: acknowledged, the store
    untouched. *)
Example comment_without_number_delivered :
  webhook quiet
    {| x_github_event := Some (js "issue_comment");
       x_hub_signature_256 := Some (js "sha256=5d41402a");
       req_body := issue_commented "/create-bounty" |}
    (request_world signed_in)
  = (Return acknowledged,
     logged
       (console_log
          "No valid bounty amount found in the comment or issue description")
       (request_world signed_in)).
Proof. reflexivity. Qed.

(* ================================================================== *)
(** * More of the lifecycle *)

(* ------------------------------------------------------------------ *)
(** ** What the pattern captures *)

Lemma match_here_capture token s digits :
  match_here token s = Some digits ->
  digits <> [] /\ forallb is_digit digits = true.
Proof.
  unfold match_here.
  destruct (match_literal token s) as [after_token|]; [|discriminate].
  destruct (span is_space after_token) as [[|sp spaces] after_space];
    [discriminate|].
  destruct (span is_digit after_space) as [[|d0 ds] rest] eqn:Hd;
    [discriminate|].
  intros H. inversion H. subst digits.
  split; [discriminate|]. now destruct (span_split _ _ Hd).
Qed.

Lemma regex_match_capture token : forall s digits,
  regex_match token s = Some digits ->
  digits <> [] /\ forallb is_digit digits = true.
Proof.
  induction s as [|c s IH]; intros digits H; simpl in H.
  - destruct (match_here token []) eqn:E; [|discriminate].
    inversion H. subst. eapply match_here_capture; eauto.
  - destruct (match_here token (c :: s)) eqn:E.
    + inversion H. subst. eapply match_here_capture; eauto.
    + now apply IH.
Qed.

Lemma parseInt_from acc : forall digits,
  forallb is_digit digits = true ->
  (fold_left (fun a c => (10 * a + (c - 48))%N) digits acc = 0%N
   <-> acc = 0%N /\ forallb (N.eqb 48) digits = true).
Proof.
  intros digits. revert acc.
  induction digits as [|c ds IH]; intros acc Hd; cbn [fold_left forallb].
  - tauto.
  - cbn [forallb] in Hd. apply andb_true_iff in Hd. destruct Hd as [Hc Hds].
    unfold is_digit in Hc. apply andb_true_iff in Hc. destruct Hc as [H1 H2].
    apply N.leb_le in H1. apply N.leb_le in H2.
    rewrite (IH _ Hds). rewrite andb_true_iff, N.eqb_eq. split.
    + intros [H0 Hz]. repeat split; try assumption; lia.
    + intros [Hacc [Hc Hz]]. split; [lia|assumption].
Qed.

(** X1. The pattern finds a command exactly in the texts of its language:
    [text.match] gives a match if and only if the text holds the token, in
    any letter case, then white space, then a decimal digit. *)
Theorem regex_match_iff_language token text :
  (exists digits, regex_match token text = Some digits)
  <-> has_numeric_command token text.
Proof.
  split.
  - intros [digits H]. eapply regex_match_language; eauto.
  - intros H. apply regex_match_complete in H.
    destruct (regex_match token text) as [digits|]; [eauto|congruence].
Qed.

Lemma regex_match_iff_language_witness :
  has_numeric_command create_token (js "please fix /Create-Bounty 500")
  /\ exists digits,
       regex_match claim_token (js "closes #3, /claim-bounty 9.") = Some digits.
Proof.
  split.
  - apply (proj1 (regex_match_iff_language create_token
                    (js "please fix /Create-Bounty 500"))).
    eexists. vm_compute. reflexivity.
  - apply (proj2 (regex_match_iff_language claim_token
                    (js "closes #3, /claim-bounty 9."))).
    exists (js "closes #3, "), (js "/claim-bounty"), (js " "), (js "9").
    exists (js "."). repeat split; try reflexivity; discriminate.
Defined.

Lemma span_stops cls (s : jsstring) :
  match s with [] => True | c :: _ => cls c = false end ->
  span cls s = ([], s).
Proof. destruct s as [|c s]; simpl; [reflexivity|]. now intros ->. Qed.

Lemma match_here_at token rest digits :
  command_at token rest digits -> match_here token rest = Some digits.
Proof.
  intros (tok & sp & after & Hrest & Hlen & Htok & Hsp & Hspaces & Hd & Hds
          & Hafter).
  subst rest. unfold match_here.
  rewrite (match_literal_app _ _ _ Hlen Htok).
  rewrite (span_app _ _ _ Hspaces).
  assert (Hstop : span is_space (digits ++ after) = ([], digits ++ after)).
  { apply span_stops. destruct digits as [|d0 ds]; [congruence|].
    simpl in Hds. apply andb_true_iff in Hds.
    simpl. now apply digit_is_no_space. }
  rewrite Hstop. simpl. rewrite app_nil_r.
  destruct sp as [|s0 sp]; [congruence|].
  rewrite (span_app _ _ _ Hds), (span_stops _ _ Hafter). simpl.
  rewrite app_nil_r. destruct digits; [congruence|reflexivity].
Qed.

Lemma span_rest cls : forall s pre rest,
  span cls s = (pre, rest) ->
  match rest with [] => True | c :: _ => cls c = false end.
Proof.
  induction s as [|c s IH]; intros pre rest H; simpl in H.
  - inversion H. exact I.
  - destruct (cls c) eqn:E.
    + destruct (span cls s) as [pre' rest'] eqn:Es. inversion H. subst.
      now apply (IH pre').
    + inversion H. subst. exact E.
Qed.

Lemma match_here_command_at token s digits :
  match_here token s = Some digits -> command_at token s digits.
Proof.
  unfold match_here. intros H.
  destruct (match_literal token s) as [after_token|] eqn:Hlit; [|discriminate].
  destruct (match_literal_split _ _ Hlit) as (tok & Hs & Hlen & Htok).
  destruct (span is_space after_token) as [spaces after_space] eqn:Hsp.
  destruct (span_split _ _ Hsp) as [Hs1 Hspaces].
  destruct spaces as [|sp spaces]; [discriminate|].
  destruct (span is_digit after_space) as [ds after_digits] eqn:Hd.
  destruct (span_split _ _ Hd) as [Hs2 Hds].
  pose proof (span_rest _ _ Hd) as Hafter.
  destruct ds as [|d0 ds]; [discriminate|].
  inversion H. subst digits.
  exists tok, (sp :: spaces), after_digits.
  subst. repeat split; auto; discriminate.
Qed.

Lemma regex_match_head token s digits :
  match_here token s = Some digits -> regex_match token s = Some digits.
Proof. intros H. destruct s; simpl; now rewrite H. Qed.

(** X2. Only the first command of a text is honoured, with its whole
    number: when the pattern matches right after [before], capturing
    [digits] as the whole run of digits there, and matches at no earlier
    place, [text.match] captures those digits, whatever follows. *)
Theorem first_command_is_honoured token before rest digits :
  command_at token rest digits ->
  (forall earlier later ds,
     before ++ rest = earlier ++ later ->
     (List.length earlier < List.length before)%nat ->
     ~ command_at token later ds) ->
  regex_match token (before ++ rest) = Some digits.
Proof.
  intros Hhere. induction before as [|c before IH]; intros Hfirst.
  - apply regex_match_head, match_here_at, Hhere.
  - cbn [app regex_match].
    destruct (match_here token (c :: before ++ rest)) as [ds|] eqn:E.
    + exfalso. apply (Hfirst [] (c :: before ++ rest) ds).
      * reflexivity.
      * simpl. lia.
      * now apply match_here_command_at.
    + apply IH. intros earlier later ds Heq Hlen.
      apply (Hfirst (c :: earlier) later ds).
      * simpl. now rewrite Heq.
      * simpl. lia.
Qed.

Lemma first_command_is_honoured_witness :
  regex_match create_token (js "a /create-bounty 12abc /create-bounty 7")
  = Some (js "12").
Proof.
  apply (@first_command_is_honoured create_token (js "a ")
           (js "/create-bounty 12abc /create-bounty 7") (js "12")).
  - exists (js "/create-bounty"), (js " "), (js "abc /create-bounty 7").
    repeat split; try reflexivity; discriminate.
  - intros earlier later ds Heq Hlen Hat.
    apply match_here_at in Hat.
    destruct earlier as [|e1 [|e2 earlier]]; simpl in Hlen; [| |lia];
      simpl in Heq; inversion Heq; subst later;
      vm_compute in Hat; discriminate.
Defined.

Lemma creation_amount_reads p text w :
  creation_reads p text ->
  creation_amount p w = (Return (command_argument create_token text), w).
Proof.
  unfold creation_amount.
  intros [Hc|[Hc [i [Hi Hb]]]].
  - now rewrite Hc.
  - now rewrite Hc, Hi, Hb.
Qed.

Lemma claim_bounty_id_reads p text w :
  claim_reads p text ->
  exists isPRComment,
    claim_bounty_id p w
    = (Return (command_argument claim_token text, isPRComment), w).
Proof.
  unfold claim_bounty_id.
  intros [Hc|[Hc [pr [Hpr Hb]]]].
  - rewrite Hc. eexists. reflexivity.
  - rewrite Hc, Hpr, Hb. eexists. reflexivity.
Qed.

Lemma parseInt_zeros digits :
  forallb is_digit digits = true ->
  forallb (N.eqb 48) digits = true -> parseInt digits = Finite 0.
Proof.
  intros Hd Hz. unfold parseInt, decimal_value.
  rewrite (proj2 (parseInt_from 0 digits Hd)); [reflexivity|now split].
Qed.

(** X3. A command whose number is zero is no command: when the digits the
    pattern captures are all [0], the creation stores and posts nothing
    and the claim looks nothing up; each only writes its "No valid ..."
    line to the console and returns. *)
Theorem zero_is_no_command env p w text digits :
  forallb (N.eqb 48) digits = true ->
  (creation_reads p text ->
   regex_match create_token text = Some digits ->
   handleBountyCreation env p w
   = (Return None,
      logged
        (console_log
           "No valid bounty amount found in the comment or issue description")
        w))
  /\
  (claim_reads p text ->
   regex_match claim_token text = Some digits ->
   handleBountyClaim env p w
   = (Return tt,
      logged
        (console_log
           "No valid bounty ID found in the PR comment or pull request body")
        w)).
Proof.
  intros Hzero. split; intros Hreads Hmatch.
  - destruct (regex_match_capture _ _ Hmatch) as [_ Hd].
    unfold handleBountyCreation, bind.
    rewrite (creation_amount_reads w Hreads). unfold command_argument.
    rewrite Hmatch, (parseInt_zeros _ Hd Hzero). reflexivity.
  - destruct (regex_match_capture _ _ Hmatch) as [_ Hd].
    destruct (claim_bounty_id_reads w Hreads) as [isPR Hrun].
    unfold handleBountyClaim, bind. rewrite Hrun. unfold command_argument.
    rewrite Hmatch, (parseInt_zeros _ Hd Hzero). reflexivity.
Qed.

Lemma zero_is_no_command_witness :
  handleBountyCreation quiet (issue_commented "/create-bounty 000")
    (request_world signed_in)
  = (Return None,
     logged
       (console_log
          "No valid bounty amount found in the comment or issue description")
       (request_world signed_in))
  /\
  handleBountyClaim quiet (issue_commented "/claim-bounty 0")
    (request_world signed_in)
  = (Return tt,
     logged
       (console_log
          "No valid bounty ID found in the PR comment or pull request body")
       (request_world signed_in)).
Proof.
  split.
  - apply (proj1 (@zero_is_no_command quiet
                    (issue_commented "/create-bounty 000")
                    (request_world signed_in) (js "/create-bounty 000")
                    (js "000") eq_refl)).
    + left. reflexivity.
    + reflexivity.
  - apply (proj2 (@zero_is_no_command quiet
                    (issue_commented "/claim-bounty 0")
                    (request_world signed_in) (js "/claim-bounty 0")
                    (js "0") eq_refl)).
    + left. reflexivity.
    + reflexivity.
Defined.

(* ------------------------------------------------------------------ *)

(* ------------------------------------------------------------------ *)
(** ** A creation that goes through *)

Lemma no_open_bounty_no_trigger NEW d :
  open_bounties_of_issue (Bounty.issue_id NEW) d = [] ->
  check_unique_open_bounty NEW d = false.
Proof.
  intros Hnone. unfold check_unique_open_bounty.
  destruct (Bounty.is_open NEW); [simpl|reflexivity].
  destruct (existsb _ (bounties d)) eqn:E; [|reflexivity].
  apply existsb_exists in E. destruct E as [b [Hin Hb]].
  apply andb_true_iff in Hb. destruct Hb as [Hb Hopen].
  apply andb_true_iff in Hb. destruct Hb as [Hissue _].
  assert (H : In b (open_bounties_of_issue (Bounty.issue_id NEW) d)).
  { apply filter_In. split; [exact Hin|]. now rewrite Hissue, Hopen. }
  rewrite Hnone in H. destruct H.
Qed.

Lemma fresh_id_not_stored d :
  ids_below_seq d -> bounty_exists (bounties_id_seq d) d = false.
Proof.
  intros Hids. unfold bounty_exists.
  destruct (existsb _ (bounties d)) eqn:E; [|reflexivity].
  apply existsb_exists in E. destruct E as [b [Hin Hb]].
  apply Z.eqb_eq in Hb. specialize (Hids b Hin). lia.
Qed.

(** The creation up to the comment on the new bounty: the row is stored
    and the comment is tried. *)
Lemma creation_stores env p w text amount i :
  creation_reads p text ->
  command_argument create_token text = Some amount ->
  falsy (Some amount) = false ->
  storable (db w) amount = true ->
  Payload.issue p = Some i ->
  open_bounties_of_issue (Issue.id i) (db w) = [] ->
  between env (db w) = db w ->
  overlap env (nextval_bounties (db w)) = nextval_bounties (db w) ->
  ids_below_seq (db w) ->
  sequence_left (bounties_id_seq (db w)) = true ->
  is_int4 (Payload.sender_id p) = true ->
  user_exists (Payload.sender_id p) (db w) = true ->
  handleBountyCreation env p w
  = if post_ok env (congratulation p i amount (bounties_id_seq (db w)))
    then (Return (Some (bounties_id_seq (db w))),
          {| db := with_created_bounty p i (stored_as amount) (db w);
             tx := tx w;
             outbox := outbox w
                       ++ [congratulation p i amount (bounties_id_seq (db w))];
             console := console w |})
    else (Throw (RequestError
                   (congratulation p i amount (bounties_id_seq (db w)))),
          {| db := with_created_bounty p i (stored_as amount) (db w);
             tx := tx w;
             outbox := outbox w;
             console := console w
                        ++ [console_error "Error creating bounty:"
                              (RequestError
                                 (congratulation p i amount
                                    (bounties_id_seq (db w))))] |}).
Proof.
  intros Hreads Harg Hpos Hstorable Hissue Hnone Hquiet Halone Hids Hleft Hsender
    Huser.
  unfold handleBountyCreation. unfold bind at 1.
  rewrite (creation_amount_reads w Hreads), Harg.
  rewrite Hpos, Hissue.
  unfold try_catch, bind at 1. unfold query at 1, select_open_bounty_of_issue.
  simpl. rewrite Hnone.
  unfold bind at 1. unfold interleave. simpl. rewrite Hquiet.
  unfold bind at 1. unfold query, numeric_param, insert_bounty, int4_param.
  simpl. rewrite Hstorable, Hsender, Hleft. cbn [negb].
  rewrite no_open_bounty_no_trigger by exact Hnone.
  rewrite Halone.
  change (bounty_exists (bounties_id_seq (db w)) (nextval_bounties (db w)))
    with (bounty_exists (bounties_id_seq (db w)) (db w)).
  rewrite (fresh_id_not_stored Hids).
  change (user_exists (Payload.sender_id p) (nextval_bounties (db w)))
    with (user_exists (Payload.sender_id p) (db w)).
  rewrite Huser. simpl.
  unfold bind, post. simpl.
  fold (congratulation p i amount (bounties_id_seq (db w))).
  destruct (post_ok env _); reflexivity.
Qed.

(** X4. A creation goes through: the text holds a command with a number
    other than zero that the server can store, the issue has no open bounty,
    no other request commits while this one runs, the ids of the stored
    bounties are below the next value of the sequence, which has not run
    out, the sender has an account, with an id of the type INTEGER, and
    GitHub takes the comment.  Then the handler returns the next id of the
    sequence, stores one row with that id, the id of the issue, the amount
    as the server reads the number, status open and the sender as creator,
    and posts the congratulation on the issue.  The amount stored is the
    number of the command when that is a safe integer: above 2^53 it is what
    [parseInt] and [toString()] make of the digits. *)
Theorem creation_goes_through env p w text amount i :
  creation_reads p text ->
  command_argument create_token text = Some amount ->
  falsy (Some amount) = false ->
  storable (db w) amount = true ->
  Payload.issue p = Some i ->
  open_bounties_of_issue (Issue.id i) (db w) = [] ->
  between env (db w) = db w ->
  overlap env (nextval_bounties (db w)) = nextval_bounties (db w) ->
  ids_below_seq (db w) ->
  sequence_left (bounties_id_seq (db w)) = true ->
  is_int4 (Payload.sender_id p) = true ->
  user_exists (Payload.sender_id p) (db w) = true ->
  post_ok env (congratulation p i amount (bounties_id_seq (db w))) = true ->
  exists w',
    handleBountyCreation env p w = (Return (Some (bounties_id_seq (db w))), w')
    /\ bounties (db w')
       = bounties (db w)
         ++ [created_bounty p i (stored_as amount) (bounties_id_seq (db w))]
    /\ (forall n, amount = Finite n -> Z.abs n <= 2 ^ 53 ->
          stored_as amount = Num n)
    /\ bounties_id_seq (db w') = bounties_id_seq (db w) + 1
    /\ users (db w') = users (db w)
    /\ bounty_claims (db w') = bounty_claims (db w)
    /\ outbox w'
       = outbox w ++ [congratulation p i amount (bounties_id_seq (db w))]
    /\ console w' = console w.
Proof.
  intros Hreads Harg Hpos Hstorable Hissue Hnone Hquiet Halone Hids Hleft Hsender
    Huser Hpost.
  rewrite (@creation_stores env p w text amount i Hreads Harg Hpos Hstorable
             Hissue Hnone Hquiet Halone Hids Hleft Hsender Huser).
  rewrite Hpost. eexists. split; [reflexivity|]. simpl.
  repeat split; try reflexivity.
  intros n -> Hsafe. now apply stored_as_safe.
Qed.

Lemma signed_in_ids : ids_below_seq signed_in.
Proof. intros b []. Qed.

Lemma creation_goes_through_witness :
  exists w',
    handleBountyCreation quiet issue_opened (request_world signed_in)
    = (Return (Some 1), w')
    /\ bounties (db w')
       = [created_bounty issue_opened
            (issue42 (Some (js "please fix /create-bounty 500"))) 500 1]
    /\ outbox w'
       = [congratulation issue_opened
            (issue42 (Some (js "please fix /create-bounty 500")))
            (Finite 500) 1].
Proof.
  destruct (@creation_goes_through quiet issue_opened
              (request_world signed_in)
              (js "please fix /create-bounty 500") (Finite 500)
              (issue42 (Some (js "please fix /create-bounty 500"))))
    as (w' & Hrun & Hrows & Hsafe & _ & _ & _ & Hout & _).
  - right. split; [reflexivity|]. eexists. split; reflexivity.
  - reflexivity.
  - reflexivity.
  - reflexivity.
  - reflexivity.
  - reflexivity.
  - reflexivity.
  - reflexivity.
  - exact signed_in_ids.
  - reflexivity.
  - reflexivity.
  - reflexivity.
  - reflexivity.
  - exists w'. split; [exact Hrun|]. split; [|exact Hout].
    rewrite Hrows, (Hsafe 500 eq_refl); [reflexivity|].
    vm_compute. discriminate.
Defined.

(** Above 2^53 the amount stored and announced is the double nearest to
    the number written. *)
Example large_amount_is_rounded :
  handleBountyCreation quiet
    (issue_commented "/create-bounty 9007199254740993")
    (request_world signed_in)
  = (Return (Some 1),
     {| db := with_created_bounty
                (issue_commented "/create-bounty 9007199254740993")
                (issue42 (Some (js "please fix"))) 9007199254740992 signed_in;
        tx := None;
        outbox := [issues_createComment (Some (js "org")) (Some (js "repo")) 42
                     (BountyCreated (Finite 9007199254740992) 1
                        (js "org/repo"))];
        console := [] |}).
Proof. vm_compute. reflexivity. Qed.

(** X5. GitHub refuses the congratulation of a creation that has stored its
    row (the text holds a command with a number other than zero that the
    server can store, the issue has no open bounty, no other request commits
    while this one runs, the ids of the stored bounties are below the next
    value of the sequence, which has not run out, the sender has an account,
    with an id of the type INTEGER): the new row stays stored and is the
    open bounty of the issue, nothing is posted and the error is thrown on.
    The bounty exists although its creation failed. *)
Theorem refused_congratulation_keeps_the_bounty env p w text amount i :
  creation_reads p text ->
  command_argument create_token text = Some amount ->
  falsy (Some amount) = false ->
  storable (db w) amount = true ->
  Payload.issue p = Some i ->
  open_bounties_of_issue (Issue.id i) (db w) = [] ->
  between env (db w) = db w ->
  overlap env (nextval_bounties (db w)) = nextval_bounties (db w) ->
  ids_below_seq (db w) ->
  sequence_left (bounties_id_seq (db w)) = true ->
  is_int4 (Payload.sender_id p) = true ->
  user_exists (Payload.sender_id p) (db w) = true ->
  post_ok env (congratulation p i amount (bounties_id_seq (db w))) = false ->
  exists w',
    handleBountyCreation env p w
    = (Throw (RequestError
                (congratulation p i amount (bounties_id_seq (db w)))), w')
    /\ bounties (db w')
       = bounties (db w)
         ++ [created_bounty p i (stored_as amount) (bounties_id_seq (db w))]
    /\ outbox w' = outbox w
    /\ open_bounties_of_issue (Issue.id i) (db w')
       = [created_bounty p i (stored_as amount) (bounties_id_seq (db w))].
Proof.
  intros Hreads Harg Hpos Hstorable Hissue Hnone Hquiet Halone Hids Hleft Hsender
    Huser Hpost.
  rewrite (@creation_stores env p w text amount i Hreads Harg Hpos Hstorable
             Hissue Hnone Hquiet Halone Hids Hleft Hsender Huser).
  rewrite Hpost. eexists. split; [reflexivity|]. simpl. repeat split.
  unfold open_bounties_of_issue in *. simpl. rewrite filter_app, Hnone.
  simpl. now rewrite Z.eqb_refl.
Qed.

Lemma refused_congratulation_keeps_the_bounty_witness :
  exists w',
    handleBountyCreation github_down issue_opened (request_world signed_in)
    = (Throw (RequestError
                (congratulation issue_opened
                   (issue42 (Some (js "please fix /create-bounty 500")))
                   (Finite 500) 1)), w')
    /\ bounties (db w')
       = [created_bounty issue_opened
            (issue42 (Some (js "please fix /create-bounty 500")))
            (stored_as (Finite 500)) 1].
Proof.
  destruct (@refused_congratulation_keeps_the_bounty github_down issue_opened
              (request_world signed_in)
              (js "please fix /create-bounty 500") (Finite 500)
              (issue42 (Some (js "please fix /create-bounty 500"))))
    as (w' & Hrun & Hrows & _).
  - right. split; [reflexivity|]. eexists. split; reflexivity.
  - reflexivity.
  - reflexivity.
  - reflexivity.
  - reflexivity.
  - reflexivity.
  - reflexivity.
  - reflexivity.
  - exact signed_in_ids.
  - reflexivity.
  - reflexivity.
  - reflexivity.
  - reflexivity.
  - exists w'. split; [exact Hrun|exact Hrows].
Defined.

(** X6. Round trip of a creation that stores its row (the text holds a
    command with a number other than zero that the server can store, the
    issue has no open bounty, no other request commits while this one runs,
    the ids of the stored bounties are below the next value of the sequence,
    which has not run out, the sender has an account, with an id of the type
    INTEGER): whether GitHub takes the congratulation or not, the list of
    created bounties of the sender then holds the new bounty, with the
    amount as the server read it and status open, and holds only bounties of
    the sender. *)
Theorem created_bounty_is_listed env p w text amount i req_user :
  creation_reads p text ->
  command_argument create_token text = Some amount ->
  falsy (Some amount) = false ->
  storable (db w) amount = true ->
  Payload.issue p = Some i ->
  open_bounties_of_issue (Issue.id i) (db w) = [] ->
  between env (db w) = db w ->
  overlap env (nextval_bounties (db w)) = nextval_bounties (db w) ->
  ids_below_seq (db w) ->
  sequence_left (bounties_id_seq (db w)) = true ->
  is_int4 (Payload.sender_id p) = true ->
  user_exists (Payload.sender_id p) (db w) = true ->
  User.github_id req_user = Payload.sender_id p ->
  exists rows w' b,
    created_bounties req_user (snd (handleBountyCreation env p w))
    = (Return (listed rows), w')
    /\ In b rows
    /\ Bounty.id b = bounties_id_seq (db w)
    /\ Bounty.issue_id b = Issue.id i
    /\ Bounty.amount b = stored_as amount
    /\ Bounty.status b = st_open
    /\ (forall b', In b' rows ->
          Bounty.creator_id b' = User.github_id req_user).
Proof.
  intros Hreads Harg Hpos Hstorable Hissue Hnone Hquiet Halone Hids Hleft Hsender
    Huser Hreq.
  rewrite (@creation_stores env p w text amount i Hreads Harg Hpos Hstorable
             Hissue Hnone Hquiet Halone Hids Hleft Hsender Huser).
  assert (Hlisted : forall w1,
             db w1 = with_created_bounty p i (stored_as amount) (db w) ->
             exists rows w' b,
               created_bounties req_user w1 = (Return (listed rows), w')
               /\ In b rows
               /\ Bounty.id b = bounties_id_seq (db w)
               /\ Bounty.issue_id b = Issue.id i
               /\ Bounty.amount b = stored_as amount
               /\ Bounty.status b = st_open
               /\ (forall b', In b' rows ->
                     Bounty.creator_id b' = User.github_id req_user)).
  { intros w1 Hdb.
    unfold created_bounties, try_catch, bind, query,
      select_bounties_of_creator, int4_param.
    rewrite Hreq, Hsender, Hdb. simpl.
    eexists. eexists.
    exists (created_bounty p i (stored_as amount) (bounties_id_seq (db w))).
    split; [reflexivity|]. split.
    - apply filter_In. split.
      + apply in_or_app. right. now left.
      + simpl. apply Z.eqb_refl.
    - repeat split. intros b' Hb'. apply filter_In in Hb'.
      destruct Hb' as [_ Hb']. now apply Z.eqb_eq in Hb'. }
  destruct (post_ok env _); apply Hlisted; reflexivity.
Qed.

Lemma created_bounty_is_listed_witness :
  exists rows w' b,
    created_bounties alice
      (snd (handleBountyCreation github_down issue_opened
              (request_world signed_in)))
    = (Return (listed rows), w')
    /\ In b rows
    /\ Bounty.amount b = 500
    /\ Bounty.status b = st_open.
Proof.
  destruct (@created_bounty_is_listed github_down issue_opened
              (request_world signed_in)
              (js "please fix /create-bounty 500") (Finite 500)
              (issue42 (Some (js "please fix /create-bounty 500"))) alice)
    as (rows & w' & b & Hrun & Hin & _ & _ & Hamount & Hstatus & _).
  - right. split; [reflexivity|]. eexists. split; reflexivity.
  - reflexivity.
  - reflexivity.
  - reflexivity.
  - reflexivity.
  - reflexivity.
  - reflexivity.
  - reflexivity.
  - exact signed_in_ids.
  - reflexivity.
  - reflexivity.
  - reflexivity.
  - reflexivity.
  - exists rows, w', b. auto.
Defined.

(** X7. The sender of the command has no account: the insert fails on the
    foreign key of [creator_id].  No row is stored and nothing is posted;
    the error is logged and thrown on, and the sequence has moved.  (The
    text holds a command with a number other than zero, the issue has no
    open bounty, no other request commits while this one runs and the ids of
    the stored bounties are below the next value of the sequence, which has
    not run out; the server reads the parameters first: the amount is one it
    can store and the id of the sender is of the type INTEGER.) *)
Theorem creation_without_account env p w text amount i :
  creation_reads p text ->
  command_argument create_token text = Some amount ->
  falsy (Some amount) = false ->
  storable (db w) amount = true ->
  Payload.issue p = Some i ->
  open_bounties_of_issue (Issue.id i) (db w) = [] ->
  between env (db w) = db w ->
  overlap env (nextval_bounties (db w)) = nextval_bounties (db w) ->
  ids_below_seq (db w) ->
  sequence_left (bounties_id_seq (db w)) = true ->
  is_int4 (Payload.sender_id p) = true ->
  user_exists (Payload.sender_id p) (db w) = false ->
  handleBountyCreation env p w
  = (Throw (PgError foreign_key_violation),
     {| db := nextval_bounties (db w); tx := tx w; outbox := outbox w;
        console := console w
                   ++ [console_error "Error creating bounty:"
                         (PgError foreign_key_violation)] |}).
Proof.
  intros Hreads Harg Hpos Hstorable Hissue Hnone Hquiet Halone Hids Hleft Hsender
    Huser.
  unfold handleBountyCreation. unfold bind at 1.
  rewrite (creation_amount_reads w Hreads), Harg.
  rewrite Hpos, Hissue.
  unfold try_catch, bind at 1. unfold query at 1, select_open_bounty_of_issue.
  simpl. rewrite Hnone.
  unfold bind at 1. unfold interleave. simpl. rewrite Hquiet.
  unfold bind at 1. unfold query, numeric_param, insert_bounty, int4_param.
  simpl. rewrite Hstorable, Hsender, Hleft. cbn [negb].
  rewrite no_open_bounty_no_trigger by exact Hnone.
  rewrite Halone.
  change (bounty_exists (bounties_id_seq (db w)) (nextval_bounties (db w)))
    with (bounty_exists (bounties_id_seq (db w)) (db w)).
  rewrite (fresh_id_not_stored Hids).
  change (user_exists (Payload.sender_id p) (nextval_bounties (db w)))
    with (user_exists (Payload.sender_id p) (db w)).
  rewrite Huser. reflexivity.
Qed.

Lemma creation_without_account_witness :
  handleBountyCreation quiet issue_opened (request_world setupDatabase)
  = (Throw (PgError foreign_key_violation),
     {| db := nextval_bounties setupDatabase; tx := None; outbox := [];
        console := [console_error "Error creating bounty:"
                      (PgError foreign_key_violation)] |}).
Proof.
  apply (@creation_without_account quiet issue_opened
           (request_world setupDatabase)
           (js "please fix /create-bounty 500") (Finite 500)
           (issue42 (Some (js "please fix /create-bounty 500")))).
  - right. split; [reflexivity|]. eexists. split; reflexivity.
  - reflexivity.
  - reflexivity.
  - reflexivity.
  - reflexivity.
  - reflexivity.
  - reflexivity.
  - reflexivity.
  - intros b [].
  - reflexivity.
  - reflexivity.
  - reflexivity.
Defined.

(* ------------------------------------------------------------------ *)
(** ** Claims *)

(** One step through an async function for [keeps]; [leaf] closes the
    statements and calls. *)
Ltac keeps_step leaf :=
  match goal with
  | |- keeps _ (bind _ _) => apply keeps_bind; [|intros ?]
  | |- keeps _ (try_catch _ _) => apply keeps_try_catch; [|intros ?]
  | |- keeps _ (ret _) => apply keeps_ret
  | |- keeps _ (throw _) => apply keeps_throw
  | |- keeps _ (respond _ _) => apply keeps_ret
  | |- keeps _ (for_of _ _) => apply keeps_for_of; intros ?
  | |- keeps _ (if ?c then _ else _) => destruct c
  | |- keeps _ (match ?x with _ => _ end) => destruct x
  | |- keeps _ (let (_, _) := ?x in _) => destruct x
  | |- keeps _ _ => leaf
  end.

Lemma keeps_db_post d env call : keeps (db_is d) (post env call).
Proof. intros w H. unfold post. now destruct (post_ok env call). Qed.

Lemma keeps_db_log d entry : keeps (db_is d) (log entry).
Proof. intros w H. exact H. Qed.

Lemma keeps_db_createComment d env p isPRComment body :
  keeps (db_is d) (createComment env p isPRComment body).
Proof.
  unfold createComment.
  repeat keeps_step ltac:(apply keeps_db_post).
Qed.

Ltac db_leaf :=
  first [ apply keeps_db_post
        | apply keeps_db_log
        | apply keeps_db_createComment
        | apply keeps_query_reads; reads_leaf ].

(** X8. A claim made in a comment is never recorded: the payload of a
    comment event has no [pull_request], and the handler reads the number
    of the pull request from it.  Whatever the database, its column
    names and the environment, the handler leaves the database as it
    was. *)
Theorem claim_in_comment_stores_nothing env p w c :
  Payload.comment p = Some c ->
  Payload.pull_request p = None ->
  db (snd (handleBountyClaim env p w)) = db w.
Proof.
  intros Hc Hpr.
  assert (H : keeps (db_is (db w)) (handleBountyClaim env p)).
  { unfold handleBountyClaim, claim_bounty_id, claim_catch.
    rewrite Hc, Hpr.
    repeat keeps_step db_leaf. }
  exact (H w eq_refl).
Qed.

Lemma claim_in_comment_stores_nothing_witness :
  db (snd (handleBountyClaim quiet (pull_request_commented 2 "/claim-bounty 9")
             (request_world
                (store9 st_open None [] "pull_request_number"))))
  = store9 st_open None [] "pull_request_number".
Proof.
  apply (@claim_in_comment_stores_nothing quiet
           (pull_request_commented 2 "/claim-bounty 9")
           (request_world (store9 st_open None [] "pull_request_number"))
           {| Comment.body := js "/claim-bounty 9" |}).
  - reflexivity.
  - reflexivity.
Defined.

Lemma claim_bounty_id_comment p text i w :
  comment_event p text i ->
  claim_bounty_id p w = (Return (command_argument claim_token text, true), w).
Proof. intros [Hc _]. unfold claim_bounty_id. now rewrite Hc. Qed.

Lemma no_user_rows uid d :
  user_exists uid d = false ->
  filter (fun u => User.github_id u =? uid) (users d) = [].
Proof.
  intros H. apply filter_none. intros u Hu.
  exact (existsb_false_In _ _ H u Hu).
Qed.

Lemma some_user_rows uid d :
  user_exists uid d = true ->
  exists u rest, filter (fun u => User.github_id u =? uid) (users d) = u :: rest.
Proof.
  intros H. apply existsb_exists in H. destruct H as [u [Hin Hu]].
  destruct (filter _ (users d)) as [|u' rest] eqn:E; [|eauto].
  assert (Hf : In u (filter (fun u => User.github_id u =? uid) (users d)))
    by (apply filter_In; now split).
  rewrite E in Hf. destruct Hf.
Qed.

(** X9. A claim in a comment, with a number other than zero, by a sender
    without an account, whose id is of the type INTEGER: the handler
    posts the invitation to join on the conversation, GitHub taking it,
    and changes nothing. *)
Theorem claim_by_stranger env p w text i bountyId :
  comment_event p text i ->
  command_argument claim_token text = Some bountyId ->
  falsy (Some bountyId) = false ->
  is_int4 (Payload.sender_id p) = true ->
  user_exists (Payload.sender_id p) (db w) = false ->
  post_ok env (issue_comment_on p i JoinFirst) = true ->
  exists w',
    handleBountyClaim env p w = (Return tt, w')
    /\ db w' = db w
    /\ outbox w' = outbox w ++ [issue_comment_on p i JoinFirst]
    /\ console w' = console w.
Proof.
  intros Hev Harg Hpos Hsender Huser Hpost.
  unfold handleBountyClaim. unfold bind at 1.
  rewrite (claim_bounty_id_comment w Hev), Harg.
  rewrite Hpos.
  destruct Hev as (_ & Hissue & _).
  unfold try_catch, bind, query, select_user, int4_param. simpl.
  rewrite Hsender. simpl.
  rewrite (no_user_rows _ _ Huser).
  unfold createComment. rewrite Hissue. unfold post. simpl. rewrite Hpost.
  eexists. split; [reflexivity|]. simpl. auto.
Qed.

Lemma claim_by_stranger_witness :
  exists w',
    handleBountyClaim quiet (pull_request_commented 3 "/claim-bounty 9")
      (request_world (store9 st_open None [] "pull_request"))
    = (Return tt, w')
    /\ db w' = store9 st_open None [] "pull_request"
    /\ outbox w'
       = [issues_createComment (Some (js "org")) (Some (js "repo")) 7
            JoinFirst].
Proof.
  destruct (@claim_by_stranger quiet
              (pull_request_commented 3 "/claim-bounty 9")
              (request_world (store9 st_open None [] "pull_request"))
              (js "/claim-bounty 9") pull_request_7 (Finite 9))
    as (w' & Hrun & Hdb & Hout & _).
  - repeat split.
  - reflexivity.
  - reflexivity.
  - reflexivity.
  - reflexivity.
  - reflexivity.
  - exists w'. auto.
Defined.

(** The look-up of the bounty that a claim names, by a sender with an
    account: what the handler gets. *)
Lemma claim_looks_up env p w text i bountyId :
  comment_event p text i ->
  command_argument claim_token text = Some bountyId ->
  falsy (Some bountyId) = false ->
  is_int4 (Payload.sender_id p) = true ->
  user_exists (Payload.sender_id p) (db w) = true ->
  handleBountyClaim env p w
  = try_catch
      (bountyResult <-
         query (number_param bountyId
                  (fun bountyId => select_bounty_with_status bountyId st_open)) ;;
       match bountyResult with
       | [] => createComment env p true (NoOpenBounty bountyId)
       | bounty :: _ =>
           if Bounty.creator_id bounty =? Payload.sender_id p
           then createComment env p true OwnBounty
           else throw TypeError
       end)%async
      claim_catch (set_db (db w) w).
Proof.
  intros Hev Harg Hpos Hsender Huser.
  unfold handleBountyClaim. unfold bind at 1.
  rewrite (claim_bounty_id_comment w Hev), Harg.
  rewrite Hpos.
  destruct Hev as (_ & _ & Hpr).
  destruct (@some_user_rows _ _ Huser) as (u & rest & Hrows).
  unfold try_catch. unfold bind at 1.
  rewrite (@query_ok _ _ w (u :: rest) (db w));
    [|rewrite (@select_user_runs _ (db w) Hsender), Hrows; reflexivity].
  rewrite Hpr. reflexivity.
Qed.

(** X10. A claim in a comment, with a number other than zero, by a sender
    with an account, whose id is of the type INTEGER, on a bounty that is
    not open or does not exist: when the number of the command is of the
    type INTEGER, the handler answers that there is no open bounty of
    that id, GitHub taking the comment, and changes nothing; a bounty
    with payment pending or completed cannot be claimed.  When the
    number is no INTEGER the server refuses the look-up: nothing is
    posted, the error goes to the console and the handler returns. *)
Theorem claim_on_bounty_not_open env p w text i bountyId :
  comment_event p text i ->
  command_argument claim_token text = Some bountyId ->
  falsy (Some bountyId) = false ->
  is_int4 (Payload.sender_id p) = true ->
  user_exists (Payload.sender_id p) (db w) = true ->
  (forall id,
     as_int4 bountyId = Ok id ->
     (forall b, In b (bounties (db w)) -> Bounty.id b = id ->
                Bounty.status b <> st_open) ->
     post_ok env (issue_comment_on p i (NoOpenBounty bountyId)) = true ->
     exists w',
       handleBountyClaim env p w = (Return tt, w')
       /\ db w' = db w
       /\ outbox w'
          = outbox w ++ [issue_comment_on p i (NoOpenBounty bountyId)]
       /\ console w' = console w)
  /\
  (forall code,
     as_int4 bountyId = Err code ->
     exists w',
       handleBountyClaim env p w = (Return tt, w')
       /\ db w' = db w
       /\ outbox w' = outbox w
       /\ console w'
          = console w
            ++ [console_error "Error claiming bounty:" (PgError code)]
       /\ (code = numeric_value_out_of_range
           \/ code = invalid_text_representation)).
Proof.
  intros Hev Harg Hpos Hsender Huser.
  rewrite (@claim_looks_up env p w text i bountyId Hev Harg Hpos Hsender Huser).
  destruct Hev as (_ & Hissue & _).
  assert (Hparam :
            number_param bountyId
              (fun bountyId => select_bounty_with_status bountyId st_open) (db w)
            = match as_int4 bountyId with
              | Ok z => select_bounty_with_status z st_open (db w)
              | Err code => (Err code, db w)
              end).
  { reflexivity. }
  split.
  - intros id Hid Hclosed Hpost.
    unfold try_catch, bind, query. simpl. rewrite Hparam, Hid.
    assert (Hrange : is_int4 id = true).
    { unfold as_int4 in Hid. destruct (number_toString bountyId); try discriminate.
      destruct (is_int4 z) eqn:E; inversion Hid. now subst. }
    rewrite (@select_bounty_with_status_runs id st_open (db w) Hrange).
    rewrite filter_none.
    + unfold createComment. rewrite Hissue. unfold post. simpl. rewrite Hpost.
      eexists. split; [reflexivity|]. simpl. auto.
    + intros b Hb. destruct (Bounty.id b =? id) eqn:E; [|reflexivity].
      apply Z.eqb_eq in E. specialize (Hclosed b Hb E). simpl.
      destruct (Bounty.status b); simpl; congruence.
  - intros code Hcode.
    unfold try_catch, bind, query. simpl. rewrite Hparam, Hcode.
    assert (Hcodes : code = numeric_value_out_of_range
                     \/ code = invalid_text_representation).
    { unfold as_int4 in Hcode.
      destruct (number_toString bountyId);
        [destruct (is_int4 z)|..]; inversion Hcode; auto. }
    destruct Hcodes as [-> | ->];
      (eexists; split; [reflexivity|]; simpl; auto).
Qed.

Lemma claim_on_bounty_not_open_witness :
  (exists w',
     handleBountyClaim quiet (pull_request_commented 2 "/claim-bounty 9")
       (request_world (store9 st_completed (Some 2) [] "pull_request"))
     = (Return tt, w')
     /\ db w' = store9 st_completed (Some 2) [] "pull_request"
     /\ outbox w'
        = [issues_createComment (Some (js "org")) (Some (js "repo")) 7
             (NoOpenBounty (Finite 9))])
  /\
  (exists w',
     handleBountyClaim quiet
       (pull_request_commented 2 "/claim-bounty 2147483648")
       (request_world (store9 st_open None [] "pull_request"))
     = (Return tt, w')
     /\ outbox w' = []
     /\ console w'
        = [console_error "Error claiming bounty:"
             (PgError numeric_value_out_of_range)]).
Proof.
  split.
  - destruct (@claim_on_bounty_not_open quiet
                (pull_request_commented 2 "/claim-bounty 9")
                (request_world (store9 st_completed (Some 2) [] "pull_request"))
                (js "/claim-bounty 9") pull_request_7 (Finite 9))
      as [Hin _].
    + repeat split.
    + reflexivity.
    + reflexivity.
    + reflexivity.
    + reflexivity.
    + destruct (Hin 9) as (w' & Hrun & Hdb & Hout & _).
      * reflexivity.
      * intros b [Hb|[]] _. subst b. discriminate.
      * reflexivity.
      * exists w'. auto.
  - destruct (@claim_on_bounty_not_open quiet
                (pull_request_commented 2 "/claim-bounty 2147483648")
                (request_world (store9 st_open None [] "pull_request"))
                (js "/claim-bounty 2147483648") pull_request_7
                (Finite 2147483648))
      as [_ Hout].
    + repeat split.
    + reflexivity.
    + reflexivity.
    + reflexivity.
    + reflexivity.
    + destruct (Hout numeric_value_out_of_range)
        as (w' & Hrun & _ & Hbox & Hconsole & _).
      * reflexivity.
      * exists w'. auto.
Defined.

(** X11. The creator of an open bounty claims it in a comment: the handler
    answers that one cannot claim one's own bounty, GitHub taking the
    comment, and changes nothing.  (A look-up that gives a row: the
    number of the command, other than zero, and the id of the sender,
    who has an account, are of the type INTEGER.) *)
Theorem claim_of_own_bounty env p w text i bountyId bounty rest :
  comment_event p text i ->
  command_argument claim_token text = Some (Finite bountyId) ->
  bountyId <> 0 ->
  is_int4 bountyId = true ->
  is_int4 (Payload.sender_id p) = true ->
  user_exists (Payload.sender_id p) (db w) = true ->
  filter (fun b => (Bounty.id b =? bountyId) && Bounty.is_open b)
         (bounties (db w)) = bounty :: rest ->
  Bounty.creator_id bounty = Payload.sender_id p ->
  post_ok env (issue_comment_on p i OwnBounty) = true ->
  exists w',
    handleBountyClaim env p w = (Return tt, w')
    /\ db w' = db w
    /\ outbox w' = outbox w ++ [issue_comment_on p i OwnBounty]
    /\ console w' = console w.
Proof.
  intros Hev Harg Hpos Hrange Hsender Huser Hopen Hcreator Hpost.
  assert (Hfalsy : falsy (Some (Finite bountyId)) = false)
    by (simpl; now apply Z.eqb_neq).
  rewrite (@claim_looks_up env p w text i (Finite bountyId)
             Hev Harg Hfalsy Hsender Huser).
  destruct Hev as (_ & Hissue & _).
  unfold try_catch, bind, query. simpl.
  rewrite (@number_param_Finite _ bountyId _ (db w) Hrange).
  rewrite (@select_bounty_with_status_runs bountyId st_open (db w) Hrange).
  unfold Bounty.is_open in Hopen. rewrite Hopen.
  rewrite Hcreator, Z.eqb_refl.
  unfold createComment. rewrite Hissue. unfold post. simpl. rewrite Hpost.
  eexists. split; [reflexivity|]. simpl. auto.
Qed.

Lemma claim_of_own_bounty_witness :
  exists w',
    handleBountyClaim quiet (pull_request_commented 1 "/claim-bounty 9")
      (request_world (store9 st_open None [] "pull_request"))
    = (Return tt, w')
    /\ db w' = store9 st_open None [] "pull_request"
    /\ outbox w'
       = [issues_createComment (Some (js "org")) (Some (js "repo")) 7
            OwnBounty].
Proof.
  destruct (@claim_of_own_bounty quiet
              (pull_request_commented 1 "/claim-bounty 9")
              (request_world (store9 st_open None [] "pull_request"))
              (js "/claim-bounty 9") pull_request_7 9
              (bounty9 st_open None) [])
    as (w' & Hrun & Hdb & Hout & _).
  - repeat split.
  - reflexivity.
  - discriminate.
  - reflexivity.
  - reflexivity.
  - reflexivity.
  - reflexivity.
  - reflexivity.
  - reflexivity.
  - exists w'. auto.
Defined.

(* ------------------------------------------------------------------ *)
(** ** Deliveries *)

(** X12. The dispatcher asks more of a comment than the handler: a
    comment on an issue is routed to the creation only if it starts with
    [/create-bounty] in exactly this case.  A comment that does not is
    acknowledged and nothing happens, also when the pattern of the
    handler would find a command in it. *)
Theorem comment_not_starting_with_command env req w c i :
  verify env (req_body req) (x_hub_signature_256 req) <> None ->
  x_github_event req = Some (js "issue_comment") ->
  Payload.action (req_body req) = Some (js "created") ->
  Payload.comment (req_body req) = Some c ->
  Payload.issue (req_body req) = Some i ->
  Issue.pull_request i = false ->
  startsWith (Comment.body c) create_token = false ->
  webhook env req w = (Return acknowledged, w).
Proof.
  intros Hverify Hevent Haction Hc Hi Hpr Hstart.
  unfold webhook, try_catch, webhook_try.
  destruct (verify env (req_body req) (x_hub_signature_256 req));
    [|congruence].
  rewrite Hevent, Haction, Hc, Hi, Hpr, Hstart. reflexivity.
Qed.

Lemma comment_not_starting_with_command_witness :
  has_numeric_command create_token (js "/Create-Bounty 500")
  /\ webhook quiet (comment_delivered "/Create-Bounty 500")
       (request_world signed_in)
     = (Return acknowledged, request_world signed_in).
Proof.
  split.
  - apply (@regex_match_language create_token (js "/Create-Bounty 500")
             (js "500")).
    vm_compute. reflexivity.
  - apply (@comment_not_starting_with_command quiet
             (comment_delivered "/Create-Bounty 500")
             (request_world signed_in)
             {| Comment.body := js "/Create-Bounty 500" |}
             (issue42 (Some (js "please fix")))).
    + discriminate.
    + reflexivity.
    + reflexivity.
    + reflexivity.
    + reflexivity.
    + reflexivity.
    + reflexivity.
Defined.

Lemma clear_installation_runs uid d :
  is_int4 uid = true ->
  clear_installation uid d
  = (Ok tt,
     set_users
       (map (fun u =>
               if User.github_id u =? uid
               then {| User.github_id := User.github_id u;
                       User.github_installation_id := None;
                       User.solana_address := User.solana_address u |}
               else u) (users d)) d).
Proof. intros H. unfold clear_installation, int4_param. now rewrite H. Qed.

Lemma clear_installation_twice uid d :
  snd (clear_installation uid (snd (clear_installation uid d)))
  = snd (clear_installation uid d).
Proof.
  destruct (is_int4 uid) eqn:Hrange.
  - rewrite !(@clear_installation_runs uid _ Hrange).
    unfold set_users. simpl. f_equal.
    rewrite map_map. apply map_ext. intros u.
    destruct (User.github_id u =? uid) eqn:E; simpl; now rewrite E.
  - unfold clear_installation.
    now rewrite !(@int4_param_fails _ uid _ _ Hrange).
Qed.

Lemma clear_installation_clears uid d u :
  is_int4 uid = true ->
  In u (users (snd (clear_installation uid d))) ->
  User.github_id u = uid -> User.github_installation_id u = None.
Proof.
  intros Hrange. rewrite (@clear_installation_runs uid d Hrange).
  simpl. intros Hin Hid. apply in_map_iff in Hin.
  destruct Hin as [u0 [Heq _]].
  destruct (User.github_id u0 =? uid) eqn:E.
  - now subst u.
  - subst u. apply Z.eqb_neq in E. contradiction.
Qed.

Lemma uninstall_delivery env req w :
  verify env (req_body req) (x_hub_signature_256 req) <> None ->
  x_github_event req = Some (js "installation") ->
  Payload.action (req_body req) = Some (js "deleted") ->
  is_int4 (Payload.sender_id (req_body req)) = true ->
  webhook env req w
  = (Return acknowledged,
     set_db (snd (clear_installation (Payload.sender_id (req_body req))
                    (db w))) w).
Proof.
  intros Hverify Hevent Haction Hrange.
  unfold webhook, try_catch, webhook_try.
  destruct (verify env (req_body req) (x_hub_signature_256 req));
    [|congruence].
  rewrite Hevent, Haction. simpl.
  unfold bind, query.
  now rewrite (@clear_installation_runs _ (db w) Hrange).
Qed.

(** X13. The delivery that the app was uninstalled, from a sender whose
    id is of the type INTEGER, clears the installation of the sender and
    of nobody else's bounties or claims, and delivering it again is
    acknowledged again and changes nothing more.  From a sender whose id
    is no INTEGER the UPDATE is refused: the delivery is answered 500 and
    the store stays as it is. *)
Theorem uninstall_is_idempotent env req w :
  verify env (req_body req) (x_hub_signature_256 req) <> None ->
  x_github_event req = Some (js "installation") ->
  Payload.action (req_body req) = Some (js "deleted") ->
  (is_int4 (Payload.sender_id (req_body req)) = true ->
   exists w1 w2,
     webhook env req w = (Return acknowledged, w1)
     /\ webhook env req w1 = (Return acknowledged, w2)
     /\ db w2 = db w1
     /\ (forall u, In u (users (db w1)) ->
           User.github_id u = Payload.sender_id (req_body req) ->
           User.github_installation_id u = None)
     /\ (forall u, In u (users (db w)) ->
           User.github_id u <> Payload.sender_id (req_body req) ->
           In u (users (db w1)))
     /\ bounties (db w1) = bounties (db w)
     /\ bounty_claims (db w1) = bounty_claims (db w))
  /\
  (is_int4 (Payload.sender_id (req_body req)) = false ->
   exists w1,
     webhook env req w = (Return failed, w1)
     /\ db w1 = db w
     /\ outbox w1 = outbox w
     /\ console w1
        = console w
          ++ [console_error "Error processing webhook:"
                (PgError numeric_value_out_of_range)]).
Proof.
  intros Hverify Hevent Haction. split; intros Hrange.
  - eexists. eexists.
    split; [apply (@uninstall_delivery env req w Hverify Hevent Haction Hrange)|].
    split; [apply (@uninstall_delivery env req _ Hverify Hevent Haction Hrange)|].
    cbn [db set_db].
    split; [apply clear_installation_twice|].
    split; [intros u; now apply (@clear_installation_clears _ (db w) u)|].
    rewrite (@clear_installation_runs _ (db w) Hrange).
    split; [|split; reflexivity].
    intros u Hin Hother. simpl. apply in_map_iff. exists u.
    apply Z.eqb_neq in Hother. now rewrite Hother.
  - unfold webhook, try_catch, webhook_try.
    destruct (verify env (req_body req) (x_hub_signature_256 req));
      [|congruence].
    rewrite Hevent, Haction. simpl.
    unfold bind, query, clear_installation.
    rewrite (@int4_param_fails _ _ _ (db w) Hrange).
    eexists. split; [reflexivity|]. simpl. auto.
Qed.

Lemma uninstall_is_idempotent_witness :
  (exists w1 w2,
     webhook quiet uninstalled (request_world signed_in)
     = (Return acknowledged, w1)
     /\ webhook quiet uninstalled w1 = (Return acknowledged, w2)
     /\ db w2 = db w1
     /\ user_row 1 (db w1)
        = Some {| User.github_id := 1; User.github_installation_id := None;
                  User.solana_address := Some (js "AliceWallet") |})
  /\
  (exists w1,
     webhook quiet (uninstalled_by 2147483648) (request_world signed_in)
     = (Return failed, w1)
     /\ db w1 = signed_in).
Proof.
  split.
  - destruct (@uninstall_is_idempotent quiet uninstalled
                (request_world signed_in))
      as [Hin _].
    + discriminate.
    + reflexivity.
    + reflexivity.
    + destruct Hin as (w1 & w2 & H1 & H2 & Hsame & _).
      * reflexivity.
      * exists w1, w2. split; [exact H1|]. split; [exact H2|].
        split; [exact Hsame|].
        vm_compute in H1. inversion H1. reflexivity.
  - destruct (@uninstall_is_idempotent quiet (uninstalled_by 2147483648)
                (request_world signed_in))
      as [_ Hout].
    + discriminate.
    + reflexivity.
    + reflexivity.
    + destruct Hout as (w1 & H1 & Hdb & _).
      * reflexivity.
      * exists w1. split; [exact H1|exact Hdb].
Defined.

(* ------------------------------------------------------------------ *)
(** ** Completion *)

Lemma option_Z_eqb_refl o : option_Z_eqb o o = true.
Proof. destruct o; simpl; [apply Z.eqb_refl|reflexivity]. Qed.

Lemma update_status_completed_runs bountyId d :
  is_int4 bountyId = true ->
  update_status st_completed bountyId d
  = (Ok tt,
     set_bounties (updated_rows bountyId (Bounty.with_status st_completed) d) d).
Proof.
  intros Hrange. unfold update_status, update_bounty.
  rewrite (@int4_param_runs _ bountyId _ d Hrange).
  rewrite existsb_all_false by reflexivity.
  rewrite forallb_all_true; [reflexivity|].
  intros b. unfold claimed_by_ok. simpl. now rewrite option_Z_eqb_refl.
Qed.

Lemma complete_bounty_runs bountyId w :
  is_int4 bountyId = true ->
  complete_bounty bountyId w
  = (Return completed_answer,
     set_db (set_bounties
               (updated_rows bountyId (Bounty.with_status st_completed) (db w))
               (db w)) w).
Proof.
  intros Hrange.
  unfold complete_bounty, try_catch, bind, query.
  rewrite (@number_param_int4 _ bountyId _ (db w) Hrange).
  now rewrite (@update_status_completed_runs bountyId (db w) Hrange).
Qed.

Lemma updated_rows_twice bountyId set d :
  (forall b, Bounty.id (set b) = Bounty.id b) ->
  (forall b, set (set b) = set b) ->
  updated_rows bountyId set (set_bounties (updated_rows bountyId set d) d)
  = updated_rows bountyId set d.
Proof.
  intros Hid Hidem. unfold updated_rows. simpl. rewrite map_map.
  apply map_ext. intros b.
  destruct (Bounty.id b =? bountyId) eqn:E.
  - now rewrite Hid, E, Hidem.
  - now rewrite E.
Qed.

Lemma updated_rows_none bountyId set d :
  (forall b, In b (bounties d) -> Bounty.id b <> bountyId) ->
  updated_rows bountyId set d = bounties d.
Proof.
  intros Hnone. unfold updated_rows.
  rewrite <- (map_id (bounties d)) at 2. apply map_ext_in.
  intros b Hb. apply Hnone in Hb. apply Z.eqb_neq in Hb. now rewrite Hb.
Qed.

(** X14. The completion asks nothing of the bounty or of the requester:
    not that the bounty exists, not who asks, not what status the bounty
    has.  For a [bountyId] of the type INTEGER it answers 200; every row
    of that id ends with status completed, its amount and [claimed_by]
    as they were, and the other rows stay; with no row of that id the
    table stays as it is; and completing again changes nothing more.
    For a [bountyId] that is no INTEGER the server refuses the UPDATE:
    the answer is 500, the error goes to the console and the store stays
    as it is. *)
Theorem completion_asks_nothing bountyId w :
  (is_int4 bountyId = true ->
   exists w',
     complete_bounty bountyId w = (Return completed_answer, w')
     /\ (forall b, In b (bounties (db w')) -> Bounty.id b = bountyId ->
           Bounty.status b = st_completed)
     /\ (forall b, In b (bounties (db w)) ->
           In (if Bounty.id b =? bountyId
               then Bounty.with_status st_completed b else b)
              (bounties (db w')))
     /\ ((forall b, In b (bounties (db w)) -> Bounty.id b <> bountyId) ->
         bounties (db w') = bounties (db w))
     /\ db (snd (complete_bounty bountyId w')) = db w'
     /\ users (db w') = users (db w)
     /\ bounty_claims (db w') = bounty_claims (db w))
  /\
  (is_int4 bountyId = false ->
   exists code w',
     complete_bounty bountyId w
     = (Return {| status_code := 500;
                  body := error_body "Failed to complete bounty" |}, w')
     /\ db w' = db w
     /\ outbox w' = outbox w
     /\ console w'
        = console w
          ++ [console_error "Error completing bounty:" (PgError code)]
     /\ (code = numeric_value_out_of_range
         \/ code = invalid_text_representation)).
Proof.
  split; intros Hrange.
  - rewrite (@complete_bounty_runs bountyId w Hrange).
    eexists. split; [reflexivity|].
    cbn [db set_db bounties set_bounties].
    split; [|split; [|split; [|split; [|split; reflexivity]]]].
    + intros b Hb Hid. apply in_map_iff in Hb. destruct Hb as [b0 [Heq _]].
      destruct (Bounty.id b0 =? bountyId) eqn:E.
      * now subst b.
      * subst b. apply Z.eqb_neq in E. contradiction.
    + intros b Hb.
      apply (in_map (fun b => if Bounty.id b =? bountyId
                              then Bounty.with_status st_completed b else b)).
      exact Hb.
    + apply updated_rows_none.
    + rewrite (@complete_bounty_runs bountyId _ Hrange). cbn [snd db set_db].
      unfold set_bounties at 1. cbn [users bounty_claims bounties_id_seq
        bounty_claims_id_seq claims_pr_column numeric_infinity set_bounties].
      rewrite updated_rows_twice by reflexivity. reflexivity.
  - unfold complete_bounty, try_catch, bind, query.
    unfold number_param.
    destruct (@as_int4_out bountyId Hrange) as [E|E]; rewrite E;
      eexists; eexists; (split; [reflexivity|]); simpl; auto.
Qed.

Lemma completion_asks_nothing_witness :
  (exists w',
     complete_bounty 9
       (request_world (store9 st_open None [] "pull_request"))
     = (Return completed_answer, w')
     /\ bounties (db w') = [bounty9 st_completed None]
     /\ exists w'',
          complete_bounty 10 w' = (Return completed_answer, w'')
          /\ bounties (db w'') = bounties (db w'))
  /\
  (exists w',
     complete_bounty 2147483648
       (request_world (store9 st_open None [] "pull_request"))
     = (Return {| status_code := 500;
                  body := error_body "Failed to complete bounty" |}, w')
     /\ db w' = store9 st_open None [] "pull_request").
Proof.
  split.
  - destruct (completion_asks_nothing 9
                (request_world (store9 st_open None [] "pull_request")))
      as [Hin _].
    destruct Hin as (w' & Hrun & _); [reflexivity|].
    exists w'. split; [exact Hrun|].
    assert (Hrows : bounties (db w') = [bounty9 st_completed None])
      by (vm_compute in Hrun; inversion Hrun; reflexivity).
    split; [exact Hrows|].
    destruct (completion_asks_nothing 10 w') as [Hin _].
    destruct Hin as (w'' & Hrun2 & _ & _ & Hnone & _); [reflexivity|].
    exists w''. split; [exact Hrun2|]. apply Hnone.
    rewrite Hrows. intros b [Hb|[]]. subst b. discriminate.
  - destruct (completion_asks_nothing 2147483648
                (request_world (store9 st_open None [] "pull_request")))
      as [_ Hout].
    destruct Hout as (code & w' & Hrun & Hdb & _); [reflexivity|].
    exists w'. split; [exact Hrun|exact Hdb].
Defined.

(* ------------------------------------------------------------------ *)
(** ** Amount updates *)

Lemma try_catch_bind_return {A B} (m : M A) (k : A -> M B) h w a w1 :
  m w = (Return a, w1) ->
  try_catch (bind m k) h w = try_catch (k a) h w1.
Proof. intros H. unfold try_catch, bind. now rewrite H. Qed.

Lemma try_catch_bind_throw {A B} (m : M A) (k : A -> M B) h w e w1 :
  m w = (Throw e, w1) ->
  try_catch (bind m k) h w = h e w1.
Proof. intros H. unfold try_catch, bind. now rewrite H. Qed.

Lemma no_row_of_creator req_user bountyId d :
  (forall b, In b (bounties d) -> Bounty.id b = bountyId ->
             Bounty.creator_id b <> User.github_id req_user) ->
  filter (fun b => (Bounty.id b =? bountyId)
                   && (Bounty.creator_id b =? User.github_id req_user))
         (bounties d) = [].
Proof.
  intros Hnot. apply filter_none. intros b Hb.
  destruct (Bounty.id b =? bountyId) eqn:E; [|reflexivity].
  apply Z.eqb_eq in E. specialize (Hnot b Hb E).
  apply Z.eqb_neq in Hnot. now rewrite Hnot.
Qed.

Lemma select_bounty_of_creator_fails bid creator d :
  is_int4 bid = false \/ is_int4 creator = false ->
  select_bounty_of_creator bid creator d = (Err numeric_value_out_of_range, d).
Proof.
  intros H. unfold select_bounty_of_creator, int4_param.
  destruct (is_int4 bid); [|reflexivity].
  destruct H as [H|H]; [discriminate|]. now rewrite H.
Qed.

(** X15. An amount update by someone who did not create a bounty of that
    id, or for an id that does not exist: when the id of the path and the
    id of the requester are of the type INTEGER the answer is 404; when
    one of them is not, the server refuses the look-up and the answer is
    500, with the error on the console.  Either way no amount changes
    and no notice is posted. *)
Theorem amount_update_by_non_owner env req_user bountyId newAmount w :
  (forall b, In b (bounties (db w)) -> Bounty.id b = bountyId ->
             Bounty.creator_id b <> User.github_id req_user) ->
  (is_int4 bountyId = true -> is_int4 (User.github_id req_user) = true ->
   exists w',
     put_bounty env req_user bountyId newAmount w = (Return not_owner_answer, w')
     /\ db w' = db w /\ outbox w' = outbox w /\ console w' = console w)
  /\
  (is_int4 bountyId = false \/ is_int4 (User.github_id req_user) = false ->
   exists w',
     put_bounty env req_user bountyId newAmount w
     = (Return {| status_code := 500;
                  body := error_body "Failed to update bounty" |}, w')
     /\ db w' = db w /\ outbox w' = outbox w
     /\ console w'
        = console w
          ++ [console_error "Error updating bounty:"
                (PgError numeric_value_out_of_range)]).
Proof.
  intros Hnot. split.
  - intros Hb Hu.
    unfold put_bounty, try_catch, bind, query.
    rewrite (@select_bounty_of_creator_runs bountyId _ (db w) Hb Hu).
    simpl. rewrite (@no_row_of_creator req_user bountyId (db w) Hnot). simpl.
    eexists. split; [reflexivity|]. simpl. auto.
  - intros Hout.
    unfold put_bounty, try_catch, bind, query.
    rewrite (@select_bounty_of_creator_fails bountyId _ (db w) Hout).
    eexists. split; [reflexivity|]. simpl. auto.
Qed.

Lemma amount_update_by_non_owner_witness :
  (exists w',
     put_bounty quiet bob 9 1
       (request_world (store9 st_open None [] "pull_request"))
     = (Return not_owner_answer, w')
     /\ db w' = store9 st_open None [] "pull_request" /\ outbox w' = [])
  /\
  (exists w',
     put_bounty quiet bob 2147483648 1
       (request_world (store9 st_open None [] "pull_request"))
     = (Return {| status_code := 500;
                  body := error_body "Failed to update bounty" |}, w')
     /\ db w' = store9 st_open None [] "pull_request" /\ outbox w' = []).
Proof.
  split.
  - destruct (@amount_update_by_non_owner quiet bob 9 1
                (request_world (store9 st_open None [] "pull_request")))
      as [Hin _].
    + simpl. intros b [Hb|[]] _. subst b. simpl. lia.
    + destruct Hin as (w' & Hrun & Hdb & Hout & _);
        [reflexivity|reflexivity|].
      exists w'. auto.
  - destruct (@amount_update_by_non_owner quiet bob 2147483648 1
                (request_world (store9 st_open None [] "pull_request")))
      as [_ Hout].
    + simpl. intros b [Hb|[]] Hid. subst b. discriminate.
    + destruct Hout as (w' & Hrun & Hdb & Hbox & _);
        [left; reflexivity|].
      exists w'. auto.
Defined.

(** The UPDATE of the amount when the trigger lets every row of that id
    pass. *)
Lemma update_amount_runs amount bountyId d :
  is_int4 bountyId = true ->
  (forall b, In b (bounties d) -> Bounty.id b = bountyId ->
             check_unique_open_bounty b d = false) ->
  update_amount amount bountyId d
  = (Ok tt,
     set_bounties (updated_rows bountyId (Bounty.with_amount amount) d) d).
Proof.
  intros Hrange Hpass. unfold update_amount, update_bounty, int4_param.
  rewrite Hrange.
  assert (Htrigger :
            existsb (fun OLD =>
                       check_unique_open_bounty (Bounty.with_amount amount OLD) d)
                    (filter (fun b => Bounty.id b =? bountyId) (bounties d))
            = false).
  { destruct (existsb _ _) eqn:E; [|reflexivity]. exfalso.
    apply existsb_exists in E. destruct E as [OLD [HOLD Hraise]].
    apply filter_In in HOLD. destruct HOLD as [HOLD Hid].
    apply Z.eqb_eq in Hid.
    change (check_unique_open_bounty OLD d = true) in Hraise.
    rewrite (Hpass OLD HOLD Hid) in Hraise. discriminate. }
  rewrite Htrigger.
  rewrite forallb_all_true; [reflexivity|].
  intros b. unfold claimed_by_ok. simpl. now rewrite option_Z_eqb_refl.
Qed.

(** The same UPDATE when the trigger refuses a row of that id. *)
Lemma update_amount_refused amount bountyId d b :
  is_int4 bountyId = true ->
  In b (bounties d) -> Bounty.id b = bountyId ->
  check_unique_open_bounty b d = true ->
  update_amount amount bountyId d = (Err raise_exception, d).
Proof.
  intros Hrange Hb Hid Hraise. unfold update_amount, update_bounty, int4_param.
  rewrite Hrange.
  assert (Htrigger :
            existsb (fun OLD =>
                       check_unique_open_bounty (Bounty.with_amount amount OLD) d)
                    (filter (fun b => Bounty.id b =? bountyId) (bounties d))
            = true).
  { apply existsb_exists. exists b. split.
    - apply filter_In. split; [exact Hb|]. now apply Z.eqb_eq.
    - exact Hraise. }
  now rewrite Htrigger.
Qed.

Lemma numeric_param_runs {A} x (q : numeric -> statement A) d :
  storable d x = true -> numeric_param x q d = q (stored_as x) d.
Proof. intros H. unfold numeric_param. now rewrite H. Qed.

Lemma for_of_keeps_db {A} d (xs : list A) env (call : A -> api_call) :
  keeps (db_is d) (for_of xs (fun x => post env (call x))).
Proof. apply keeps_for_of. intros x. apply keeps_db_post. Qed.

Lemma amount_update_runs env req_user bountyId newAmount w bounty rest :
  is_int4 bountyId = true ->
  is_int4 (User.github_id req_user) = true ->
  storable (db w) (to_number newAmount) = true ->
  (forall b, In b (bounties (db w)) -> Bounty.id b = bountyId ->
             check_unique_open_bounty b (db w) = false) ->
  filter (fun b => (Bounty.id b =? bountyId)
                   && (Bounty.creator_id b =? User.github_id req_user))
         (bounties (db w)) = bounty :: rest ->
  exists r w',
    put_bounty env req_user bountyId newAmount w = (Return r, w')
    /\ db w' = set_bounties
                 (updated_rows bountyId
                    (Bounty.with_amount (stored_as (to_number newAmount)))
                    (db w))
                 (db w)
    /\ (status_code r = 200 \/ status_code r = 500).
Proof.
  intros Hb Hu Hstorable Hpass Hrows.
  unfold put_bounty.
  erewrite try_catch_bind_return
    by (apply query_ok;
        rewrite (@select_bounty_of_creator_runs bountyId _ (db w) Hb Hu);
        reflexivity).
  rewrite Hrows.
  erewrite try_catch_bind_return.
  2:{ apply query_ok. cbn [db set_db].
      rewrite (@numeric_param_runs _ _ _ (db w) Hstorable).
      apply (@update_amount_runs _ bountyId (db w) Hb Hpass). }
  set (d' := set_bounties
               (updated_rows bountyId
                  (Bounty.with_amount (stored_as (to_number newAmount))) (db w))
               (db w)).
  unfold try_catch at 1. unfold bind at 1.
  unfold query at 1, select_pull_requests. cbn [db set_db].
  change (claims_pr_column d') with (claims_pr_column (db w)).
  destruct (negb _).
  { eexists. eexists. split; [reflexivity|]. split; [reflexivity|].
    right. reflexivity. }
  unfold int4_param. rewrite Hb.
  cbn [fst snd]. unfold bind at 1.
  match goal with |- context [try_catch (post env ?call) ?h ?w0] =>
    destruct (guarded_post_returns env call
                "Error creating comment on issue:" w0)
      as (w1 & Hrun1 & Hdb1 & _)
  end.
  rewrite Hrun1. unfold bind at 1.
  match goal with |- context [for_of ?xs ?body w1] =>
    pose proof (@for_of_keeps_db Z (db w1) xs env
                  (amendment_on_pull_request bounty (Bounty.amount bounty)
                     (to_number newAmount)) w1 eq_refl) as Hkeep;
    destruct (for_of xs body w1) as [[[]|e] w2]
  end; unfold db_is in Hkeep; cbn [snd] in Hkeep.
  - eexists. eexists. split; [reflexivity|].
    split; [rewrite Hkeep, Hdb1; reflexivity|left; reflexivity].
  - eexists. eexists. split; [reflexivity|].
    split; [cbn [db]; rewrite Hkeep, Hdb1; reflexivity|right; reflexivity].
Qed.

(** X16. An amount update by the creator, with an amount the server can
    store.  When the trigger of the table lets every row of that id pass
    (the row is not open, or no other open bounty is stored for its
    issue), the update is committed before any notice is tried and stays
    whatever becomes of the notices: whether the route answers 200 or
    500, every row of that id holds the new amount as the server stores
    it, no status has changed, and the other rows, the accounts and the
    claims are as they were.  When the trigger refuses a row of that id
    (it is open and another open bounty is stored for its issue), the
    answer is 500, nothing is stored and no notice is posted. *)
Theorem amount_is_committed env req_user bountyId newAmount w :
  created_by req_user bountyId (db w) ->
  storable (db w) (to_number newAmount) = true ->
  exists r w',
    put_bounty env req_user bountyId newAmount w = (Return r, w')
    /\ ((forall b, In b (bounties (db w)) -> Bounty.id b = bountyId ->
                   check_unique_open_bounty b (db w) = false) ->
        (status_code r = 200 \/ status_code r = 500)
        /\ (forall b, In b (bounties (db w')) -> Bounty.id b = bountyId ->
              Bounty.amount b = stored_as (to_number newAmount))
        /\ map Bounty.status (bounties (db w'))
           = map Bounty.status (bounties (db w))
        /\ (forall b, In b (bounties (db w)) -> Bounty.id b <> bountyId ->
              In b (bounties (db w')))
        /\ users (db w') = users (db w)
        /\ bounty_claims (db w') = bounty_claims (db w))
    /\ ((exists b, In b (bounties (db w)) /\ Bounty.id b = bountyId
                   /\ check_unique_open_bounty b (db w) = true) ->
        status_code r = 500
        /\ db w' = db w
        /\ outbox w' = outbox w
        /\ console w'
           = console w
             ++ [console_error "Error updating bounty:"
                   (PgError raise_exception)]).
Proof.
  intros Hcreated Hstorable.
  destruct (created_by_found Hcreated) as (Hb & Hu & bounty & rest & Hrows).
  destruct (existsb (fun b => (Bounty.id b =? bountyId)
                              && check_unique_open_bounty b (db w))
                    (bounties (db w))) eqn:Htrigger.
  - apply existsb_exists in Htrigger.
    destruct Htrigger as (b & Hin & Hcond).
    apply andb_true_iff in Hcond. destruct Hcond as [Hid Hraise].
    apply Z.eqb_eq in Hid.
    unfold put_bounty.
    erewrite try_catch_bind_return
      by (apply query_ok;
          rewrite (@select_bounty_of_creator_runs bountyId _ (db w) Hb Hu);
          reflexivity).
    rewrite Hrows.
    erewrite try_catch_bind_throw.
    2:{ apply query_err. cbn [db set_db].
        rewrite (@numeric_param_runs _ _ _ (db w) Hstorable).
        apply (@update_amount_refused _ bountyId (db w) b Hb Hin Hid Hraise). }
    eexists. eexists. split; [reflexivity|]. split.
    + intros Hpass. rewrite (Hpass b Hin Hid) in Hraise. discriminate.
    + intros _. simpl. auto.
  - assert (Hpass : forall b, In b (bounties (db w)) -> Bounty.id b = bountyId ->
                              check_unique_open_bounty b (db w) = false).
    { intros b Hin Hid.
      pose proof (existsb_false_In _ _ Htrigger b Hin) as H.
      cbv beta in H. apply Z.eqb_eq in Hid. rewrite Hid in H. exact H. }
    destruct (@amount_update_runs env req_user bountyId newAmount w bounty rest
                Hb Hu Hstorable Hpass Hrows) as (r & w' & Hrun & Hdb & Hcode).
    exists r, w'. split; [exact Hrun|]. split.
    + intros _. split; [exact Hcode|].
      rewrite Hdb. cbn [bounties users bounty_claims set_bounties].
      unfold updated_rows.
      split; [|split; [|split; [|split; reflexivity]]].
      * intros b Hin Hid. apply in_map_iff in Hin. destruct Hin as [b0 [Heq _]].
        destruct (Bounty.id b0 =? bountyId) eqn:E.
        -- now subst b.
        -- subst b. apply Z.eqb_neq in E. contradiction.
      * rewrite map_map. apply map_ext. intros b.
        now destruct (Bounty.id b =? bountyId).
      * intros b Hin Hid. apply in_map_iff. exists b.
        apply Z.eqb_neq in Hid. now rewrite Hid.
    + intros (b & Hin & Hid & Hraise).
      rewrite (Hpass b Hin Hid) in Hraise. discriminate.
Qed.

Lemma amount_is_committed_witness :
  (exists r w',
     put_bounty pull_request_7_refused alice 9 800
       (request_world
          (store9 st_open None [claim_of 1 2 7; claim_of 2 2 8] "pull_request"))
     = (Return r, w')
     /\ (status_code r = 500
         /\ bounty_row 9 (db w')
            = Some (Bounty.with_amount 800 (bounty9 st_open None)))
     /\ (forall b, In b (bounties (db w')) -> Bounty.id b = 9 ->
           Bounty.amount b = stored_as (to_number 800)))
  /\
  (exists r w',
     put_bounty quiet alice 1 800
       (request_world
          (run overlapping (creation (issue_commented "/create-bounty 500"))
             signed_in))
     = (Return r, w')
     /\ status_code r = 500
     /\ db w'
        = run overlapping (creation (issue_commented "/create-bounty 500"))
            signed_in).
Proof.
  split.
  - destruct (@amount_is_committed pull_request_7_refused alice 9 800
                (request_world
                   (store9 st_open None [claim_of 1 2 7; claim_of 2 2 8]
                      "pull_request")))
      as (r & w' & Hrun & Hcommitted & _).
    + exists (bounty9 st_open None). reflexivity.
    + reflexivity.
    + exists r, w'. split; [exact Hrun|].
      destruct Hcommitted as (_ & Hamount & _).
      * intros b [Hb|[]] _. subst b. reflexivity.
      * split; [|exact Hamount].
        vm_compute in Hrun. inversion Hrun. split; reflexivity.
  - destruct (@amount_is_committed quiet alice 1 800
                (request_world
                   (run overlapping
                      (creation (issue_commented "/create-bounty 500"))
                      signed_in)))
      as (r & w' & Hrun & _ & Hrefused).
    + eexists. reflexivity.
    + reflexivity.
    + exists r, w'. split; [exact Hrun|].
      destruct Hrefused as (Hcode & Hdb & _).
      * eexists. split; [right; left; reflexivity|]. split; reflexivity.
      * split; [exact Hcode|exact Hdb].
Defined.

Lemma for_of_posts env (call : Z -> api_call) : forall prs w,
  (forall pr, In pr prs -> post_ok env (call pr) = true) ->
  exists w',
    for_of prs (fun pr => post env (call pr)) w = (Return tt, w')
    /\ db w' = db w
    /\ outbox w' = outbox w ++ map call prs
    /\ console w' = console w.
Proof.
  induction prs as [|pr prs IH]; intros w Hok.
  - exists w. simpl. rewrite app_nil_r. auto.
  - cbn [for_of]. unfold bind at 1. unfold post at 1.
    rewrite (Hok pr (or_introl eq_refl)).
    match goal with |- context [for_of prs _ ?w1] =>
      destruct (IH w1) as (w' & Hrun & Hdb & Hout & Hcon) end.
    { intros pr' Hpr'. apply Hok. now right. }
    exists w'. rewrite Hrun. split; [reflexivity|].
    simpl in *. rewrite Hout, <- app_assoc. auto.
Qed.

(** X17. An amount update by the creator, with an amount the server can
    store, on a bounty whose rows the trigger of the table lets pass (the
    row is not open, or no other open bounty is stored for its issue), on
    a table of claims with the column [pull_request]: when GitHub takes
    the notices on the pull requests, the update answers 200 and posts,
    in this order, the notice on the issue, if GitHub takes it, and one
    notice for every claim row of the bounty on the pull request of that
    row; a refused notice on the issue does not stop the others.  The
    notices name the amount the row held and the number of the body as
    JavaScript holds it. *)
Theorem amendment_reaches_every_claim env req_user bountyId newAmount w
    bounty :
  first_row (select_bounty_of_creator bountyId (User.github_id req_user) (db w))
  = Some bounty ->
  storable (db w) (to_number newAmount) = true ->
  (forall b, In b (bounties (db w)) -> Bounty.id b = bountyId ->
             check_unique_open_bounty b (db w) = false) ->
  claims_pr_column (db w) = "pull_request"%string ->
  (forall pr, In pr (claiming_pull_requests bountyId (db w)) ->
     post_ok env (amendment_on_pull_request bounty (Bounty.amount bounty)
                    (to_number newAmount) pr) = true) ->
  exists w',
    put_bounty env req_user bountyId newAmount w
    = (Return amount_updated_answer, w')
    /\ outbox w'
       = outbox w
         ++ (if post_ok env (amendment_on_issue bounty (Bounty.amount bounty)
                               (to_number newAmount))
             then [amendment_on_issue bounty (Bounty.amount bounty)
                     (to_number newAmount)]
             else [])
         ++ map (amendment_on_pull_request bounty (Bounty.amount bounty)
                   (to_number newAmount))
                (claiming_pull_requests bountyId (db w)).
Proof.
  intros Hfirst Hstorable Hpass Hcolumn Hok.
  destruct (@created_by_found req_user bountyId (db w)
              (ex_intro _ bounty Hfirst))
    as (Hb & Hu & _).
  rewrite (@select_bounty_of_creator_runs bountyId _ (db w) Hb Hu) in Hfirst.
  apply hd_error_rows in Hfirst. destruct Hfirst as [rest Hrows].
  unfold put_bounty.
  erewrite try_catch_bind_return
    by (apply query_ok;
        rewrite (@select_bounty_of_creator_runs bountyId _ (db w) Hb Hu);
        reflexivity).
  rewrite Hrows.
  erewrite try_catch_bind_return.
  2:{ apply query_ok. cbn [db set_db].
      rewrite (@numeric_param_runs _ _ _ (db w) Hstorable).
      apply (@update_amount_runs _ bountyId (db w) Hb Hpass). }
  erewrite try_catch_bind_return.
  2:{ unfold query, select_pull_requests, int4_param. cbn [db set_db].
      cbn [claims_pr_column set_bounties]. rewrite Hcolumn, Hb. reflexivity. }
  cbn [bounty_claims set_bounties].
  fold (claiming_pull_requests bountyId (db w)).
  unfold try_catch at 1. unfold bind at 1.
  unfold try_catch at 1, post at 1.
  destruct (post_ok env (amendment_on_issue bounty (Bounty.amount bounty)
                           (to_number newAmount))).
  - unfold bind at 1.
    match goal with |- context [for_of _ _ ?w1] =>
      destruct (@for_of_posts env
                  (amendment_on_pull_request bounty (Bounty.amount bounty)
                     (to_number newAmount))
                  (claiming_pull_requests bountyId (db w)) w1 Hok)
        as (w' & Hrun & _ & Hout & _) end.
    rewrite Hrun. eexists. split; [reflexivity|].
    rewrite Hout. simpl. now rewrite <- app_assoc.
  - unfold log at 1. unfold bind at 1.
    match goal with |- context [for_of _ _ ?w1] =>
      destruct (@for_of_posts env
                  (amendment_on_pull_request bounty (Bounty.amount bounty)
                     (to_number newAmount))
                  (claiming_pull_requests bountyId (db w)) w1 Hok)
        as (w' & Hrun & _ & Hout & _) end.
    rewrite Hrun. eexists. split; [reflexivity|].
    rewrite Hout. reflexivity.
Qed.

Lemma amendment_reaches_every_claim_witness :
  exists w',
    put_bounty issue_comments_refused alice 9 800
      (request_world
         (store9 st_open None [claim_of 1 2 7; claim_of 2 2 8] "pull_request"))
    = (Return amount_updated_answer, w')
    /\ outbox w'
       = [amendment_on_pull_request (bounty9 st_open None) 500 (Finite 800) 7;
          amendment_on_pull_request (bounty9 st_open None) 500 (Finite 800) 8].
Proof.
  destruct (@amendment_reaches_every_claim issue_comments_refused alice 9 800
              (request_world
                 (store9 st_open None [claim_of 1 2 7; claim_of 2 2 8]
                    "pull_request"))
              (bounty9 st_open None))
    as (w' & Hrun & Hout).
  - reflexivity.
  - reflexivity.
  - intros b [Hb|[]] _. subst b. reflexivity.
  - reflexivity.
  - intros pr _. reflexivity.
  - exists w'. split; [exact Hrun|exact Hout].
Defined.

(* ------------------------------------------------------------------ *)
(** ** The notices of a deletion *)

Lemma In_distinct x : forall l, In x (distinct l) <-> In x l.
Proof.
  induction l as [|y l IH]; simpl; [tauto|].
  rewrite filter_In, IH. split.
  - intros [H|[H _]]; auto.
  - intros [H|H]; [now left|].
    destruct (Z.eq_dec y x) as [E|E]; [now left|right].
    split; [exact H|]. apply negb_true_iff, Z.eqb_neq. congruence.
Qed.

Lemma notify_claimants_outbox env bounty bountyId : forall claimants w,
  exists w',
    notify_claimants env bounty bountyId claimants w = (Return tt, w')
    /\ db w' = db w
    /\ outbox w'
       = outbox w
         ++ filter (post_ok env)
              (map (fun c => deletion_notice bounty c bountyId) claimants).
Proof.
  unfold notify_claimants.
  induction claimants as [|c cs IH]; intros w.
  - exists w. simpl. rewrite app_nil_r. auto.
  - cbn [for_of]. unfold bind at 1. unfold try_catch at 1, post at 1.
    cbn [map filter].
    destruct (post_ok env (deletion_notice bounty c bountyId)).
    + match goal with |- context [for_of cs _ ?w1] =>
        destruct (IH w1) as (w' & Hrun & Hdb & Hout) end.
      exists w'. rewrite Hrun. split; [reflexivity|]. split; [exact Hdb|].
      rewrite Hout. simpl. now rewrite <- app_assoc.
    + unfold log at 1.
      match goal with |- context [for_of cs _ ?w1] =>
        destruct (IH w1) as (w' & Hrun & Hdb & Hout) end.
      exists w'. rewrite Hrun. split; [reflexivity|]. split; [exact Hdb|].
      exact Hout.
Qed.

(** X18. The notices of a deletion are isolated from one another: when
    the creator deletes a bounty (the look-up of the route gives the row
    [bounty]) and the storage holds, the answer is 200 and every claimant
    of the bounty whose notice GitHub takes is addressed by a notice,
    whichever notices for other claimants GitHub refuses; and nobody is
    addressed who held no claim. *)
Theorem deletion_notifies_each_claimant env req_user bountyId d bounty :
  first_row (select_bounty_of_creator bountyId (User.github_id req_user) d)
  = Some bounty ->
  (forall k, storage_fault env k = false) ->
  exists w',
    delete_bounty_handler env req_user bountyId (request_world d)
    = (Return deleted_answer, w')
    /\ (forall claimant,
          has_claim bountyId claimant d ->
          post_ok env (deletion_notice bounty claimant bountyId) = true ->
          In (deletion_notice bounty claimant bountyId) (outbox w'))
    /\ (forall call, In call (outbox w') ->
          exists claimant,
            has_claim bountyId claimant d
            /\ call = deletion_notice bounty claimant bountyId).
Proof.
  intros Hfirst Hsound.
  destruct (@created_by_found req_user bountyId d (ex_intro _ bounty Hfirst))
    as (Hb & Hu & _).
  rewrite (@select_bounty_of_creator_runs bountyId _ d Hb Hu) in Hfirst.
  apply hd_error_rows in Hfirst. destruct Hfirst as [rest Hrows].
  unfold delete_bounty_handler, fallible. rewrite !Hsound.
  unfold select_bounty_of_creator, select_claimants, delete_claims,
    delete_bounty, int4_param.
  rewrite Hb, Hu.
  unfold try_catch, bind at 1. simpl. unfold bind at 1.
  unfold query at 1. simpl. rewrite Hrows.
  unfold bind at 1. simpl. unfold bind at 1. simpl.
  unfold bind at 1. unfold query at 1. simpl.
  rewrite no_claim_left, andb_false_r.
  unfold bind at 1. simpl. unfold bind at 1.
  match goal with |- context [for_of ?cs ?body ?w1] =>
    destruct (@notify_claimants_outbox env bounty bountyId cs w1)
      as (w' & Hrun & _ & Hout);
    change (for_of cs body w1)
      with (notify_claimants env bounty bountyId cs w1)
  end.
  rewrite Hrun. simpl. exists w'. split; [reflexivity|].
  simpl in Hout. rewrite Hout. split.
  - intros claimant [c [Hin [Hbc Huc]]] Hok.
    apply filter_In. split; [|exact Hok].
    apply in_map_iff. exists claimant. split; [reflexivity|].
    apply (proj2 (In_distinct _ _)). apply in_map_iff. exists c.
    split; [exact Huc|].
    apply filter_In. split; [exact Hin|]. now apply Z.eqb_eq.
  - intros call Hcall. apply filter_In in Hcall. destruct Hcall as [Hcall _].
    apply in_map_iff in Hcall. destruct Hcall as [claimant [Heq Hc]].
    exists claimant. split; [|now symmetry].
    apply (proj1 (In_distinct _ _)) in Hc. apply in_map_iff in Hc.
    destruct Hc as [c [Huc Hc]]. apply filter_In in Hc.
    destruct Hc as [Hin Hbc]. apply Z.eqb_eq in Hbc.
    exists c. auto.
Qed.

Lemma deletion_notifies_each_claimant_witness :
  exists w',
    delete_bounty_handler (notice_refused_for 2) alice 9
      (request_world
         (store9 st_open None [claim_of 1 2 7; claim_of 2 3 8] "pull_request"))
    = (Return deleted_answer, w')
    /\ In (deletion_notice (bounty9 st_open None) 3 9) (outbox w').
Proof.
  destruct (@deletion_notifies_each_claimant (notice_refused_for 2) alice 9
              (store9 st_open None [claim_of 1 2 7; claim_of 2 3 8]
                 "pull_request")
              (bounty9 st_open None))
    as (w' & Hrun & Hall & _).
  - reflexivity.
  - reflexivity.
  - exists w'. split; [exact Hrun|]. apply Hall.
    + exists (claim_of 2 3 8). simpl. auto.
    + reflexivity.
Defined.

(* ------------------------------------------------------------------ *)
(** ** What an approval leaves alone *)

(** X19. Whatever is asked, the approval posts nothing, leaves the
    accounts, the claims, the amounts and the bounties of other ids as
    they are, and when the answer is not 200 it leaves the whole
    database as it is.  It answers 200, 400, 401, 404 or 500: when the
    two ids of the request and the id of the requester are of the type
    INTEGER it never answers 500 and prints nothing; a [bountyId] that is
    no INTEGER is answered 500, and every answer 500 comes from an id
    that is no INTEGER and puts the error of the server on the
    console. *)
Theorem approval_touches_one_bounty req_user bountyId claimantId w :
  exists r w',
    approve_bounty_verify req_user bountyId claimantId w = (Return r, w')
    /\ (status_code r = 200 \/ status_code r = 400
        \/ status_code r = 401 \/ status_code r = 404
        \/ status_code r = 500)
    /\ (is_int4 bountyId = true -> is_int4 claimantId = true ->
        is_int4 (User.github_id req_user) = true ->
        status_code r <> 500 /\ console w' = console w)
    /\ (is_int4 bountyId = false -> status_code r = 500)
    /\ (status_code r = 500 ->
        (is_int4 bountyId = false \/ is_int4 claimantId = false
         \/ is_int4 (User.github_id req_user) = false)
        /\ exists code,
             console w'
             = console w
               ++ [console_error "Error approving bounty:" (PgError code)])
    /\ (status_code r <> 200 -> db w' = db w)
    /\ users (db w') = users (db w)
    /\ bounty_claims (db w') = bounty_claims (db w)
    /\ map Bounty.amount (bounties (db w'))
       = map Bounty.amount (bounties (db w))
    /\ (forall b, In b (bounties (db w)) -> Bounty.id b <> bountyId ->
          In b (bounties (db w')))
    /\ outbox w' = outbox w.
Proof.
  destruct (approve_cases req_user bountyId claimantId w)
    as (r & w' & Hrun & Hout & _ & Hcases).
  exists r, w'. split; [exact Hrun|].
  destruct Hcases
    as [(Hcode & Hw & Hb & _)
       |[(Hcode & Hw & Hb & Hc)
        |[(Hcode & Hw & _ & _ & Hb & Hc)
         |[(Hcode & Hw & _ & _ & Hb & Hc)
          |(Hcode & Hdb & Hconsole & Hrange)]]]].
  1-3: subst w'; rewrite Hcode; cbn [db set_db console];
    repeat split; auto; try lia; try congruence.
  - subst w'. rewrite Hcode.
    cbn [db set_db console users bounty_claims bounties set_bounties].
    repeat split; auto; try lia; try congruence.
    + rewrite map_map. apply map_ext. intros b.
      now destruct (Bounty.id b =? bountyId).
    + intros b Hin Hid. apply in_map_iff. exists b.
      apply Z.eqb_neq in Hid. now rewrite Hid.
  - rewrite Hcode, Hdb. repeat split; auto; try lia.
    + exfalso. destruct Hrange as [E|[E|E]]; congruence.
    + exfalso. destruct Hrange as [E|[E|E]]; congruence.
Qed.

Lemma approval_touches_one_bounty_witness :
  (exists r w',
     approve_bounty_verify alice 9 3
       (request_world
          (set_users [alice; bob; carol]
             (store9 st_open None [claim_of 1 3 7] "pull_request")))
     = (Return r, w')
     /\ status_code r = 400
     /\ db w' = set_users [alice; bob; carol]
                  (store9 st_open None [claim_of 1 3 7] "pull_request"))
  /\
  (exists r w',
     approve_bounty_verify alice 2147483648 3
       (request_world
          (set_users [alice; bob; carol]
             (store9 st_open None [claim_of 1 3 7] "pull_request")))
     = (Return r, w')
     /\ status_code r = 500).
Proof.
  split.
  - destruct (approval_touches_one_bounty alice 9 3
                (request_world
                   (set_users [alice; bob; carol]
                      (store9 st_open None [claim_of 1 3 7] "pull_request"))))
      as (r & w' & Hrun & _ & _ & _ & _ & Hsame & _).
    exists r, w'. split; [exact Hrun|].
    assert (Hcode : status_code r = 400)
      by (vm_compute in Hrun; inversion Hrun; reflexivity).
    split; [exact Hcode|]. apply Hsame. rewrite Hcode. discriminate.
  - destruct (approval_touches_one_bounty alice 2147483648 3
                (request_world
                   (set_users [alice; bob; carol]
                      (store9 st_open None [claim_of 1 3 7] "pull_request"))))
      as (r & w' & Hrun & _ & _ & Hout & _).
    exists r, w'. split; [exact Hrun|]. apply Hout. reflexivity.
Defined.

(* ------------------------------------------------------------------ *)
(** ** Invariants of the store, in general *)

Lemma later_refl d : later d d.
Proof. unfold later. repeat split; lia. Qed.

Lemma later_trans d1 d2 d3 : later d1 d2 -> later d2 d3 -> later d1 d3.
Proof.
  unfold later. intros (A1 & A2 & A3 & A4) (B1 & B2 & B3 & B4).
  repeat split; try lia; congruence.
Qed.

Section StoreInvariant.

Variable Q : DB -> Prop.
Hypothesis Q_stable : stable Q.

Lemma I_users d us : Q d -> Q (set_users us d).
Proof. apply (stable_users Q_stable). Qed.

Lemma I_insert_bounty mid i a s c r t u d :
  (forall x, Q x -> Q (mid x)) -> (forall x, later x (mid x)) ->
  Q d -> Q (snd (insert_bounty mid i a s c r t u d)).
Proof. apply (stable_insert_bounty Q_stable). Qed.

Lemma I_approve c bid d :
  Q d -> Q (snd (update_status_and_claimed_by st_payment_pending c bid d)).
Proof. apply (stable_approve Q_stable). Qed.

Lemma I_amount a bid d : Q d -> Q (snd (update_amount a bid d)).
Proof. apply (stable_amount Q_stable). Qed.

Lemma I_complete bid d : Q d -> Q (snd (update_status st_completed bid d)).
Proof. apply (stable_complete Q_stable). Qed.

Lemma I_delete_claims bid d : Q d -> Q (snd (delete_claims bid d)).
Proof. apply (stable_delete_claims Q_stable). Qed.

Lemma I_delete_bounty bid d : Q d -> Q (snd (delete_bounty bid d)).
Proof. apply (stable_delete_bounty Q_stable). Qed.

Lemma I_insert_claim mid column bid uid pr d :
  (forall x, Q x -> Q (mid x)) -> (forall x, later x (mid x)) ->
  Q d -> Q (snd (insert_bounty_claim mid column bid uid pr d)).
Proof. apply (stable_insert_claim Q_stable). Qed.

Lemma keeps_I_query {A} (q : statement A) :
  (forall d, Q d -> Q (snd (q d))) -> keeps (good_for Q) (query q).
Proof.
  intros Hq w [H1 H2]. unfold query. specialize (Hq (db w) H1).
  destruct (q (db w)) as [[a|c] d']; simpl in *; now split.
Qed.

Lemma I_reads {A} (q : statement A) d : reads q -> Q d -> Q (snd (q d)).
Proof. intros H Hd. now rewrite (H d). Qed.

Lemma I_int4_param {A} z (q : statement A) d :
  (forall d, Q d -> Q (snd (q d))) -> Q d -> Q (snd (int4_param z q d)).
Proof.
  intros Hq Hd. unfold int4_param. destruct (is_int4 z); [now apply Hq|exact Hd].
Qed.

Lemma I_number_param {A} x (q : Z -> statement A) d :
  (forall z d, Q d -> Q (snd (q z d))) -> Q d -> Q (snd (number_param x q d)).
Proof.
  intros Hq Hd. unfold number_param.
  destruct (as_int4 x); [now apply Hq|exact Hd].
Qed.

Lemma I_numeric_param {A} x (q : numeric -> statement A) d :
  (forall a d, Q d -> Q (snd (q a d))) -> Q d -> Q (snd (numeric_param x q d)).
Proof.
  intros Hq Hd. unfold numeric_param.
  destruct (storable d x); [now apply Hq|exact Hd].
Qed.

Lemma keeps_I_post env call : keeps (good_for Q) (post env call).
Proof. intros w H. unfold post. now destruct (post_ok env call). Qed.

Lemma keeps_I_log entry : keeps (good_for Q) (log entry).
Proof. intros w H. exact H. Qed.

Lemma keeps_I_BEGIN : keeps (good_for Q) BEGIN.
Proof. intros w [H _]. now split. Qed.

Lemma keeps_I_COMMIT : keeps (good_for Q) COMMIT.
Proof. intros w [H _]. now split. Qed.

Lemma keeps_I_ROLLBACK : keeps (good_for Q) ROLLBACK.
Proof.
  intros w [H1 H2]. unfold ROLLBACK, good_for. simpl.
  split; [|exact I]. now destruct (tx w).
Qed.

Lemma keeps_I_fallible {A} env k (m : M A) :
  keeps (good_for Q) m -> keeps (good_for Q) (fallible env k m).
Proof.
  intros H. unfold fallible.
  destruct (storage_fault env k); [apply keeps_throw|exact H].
Qed.

Lemma I_clear_installation uid d : Q d -> Q (snd (clear_installation uid d)).
Proof.
  intros H. unfold clear_installation. apply I_int4_param; [|exact H].
  intros d0 H0. apply I_users, H0.
Qed.

(** The statements of the routes, with the parameters as the driver
    sends them. *)
Ltac I_statement :=
  first
    [ apply I_number_param; [intros ? ? ?; I_statement|assumption]
    | apply I_reads; [reads_leaf|assumption]
    | now apply I_approve | now apply I_amount | now apply I_complete
    | now apply I_delete_claims | now apply I_delete_bounty
    | now apply I_clear_installation | assumption ].

Ltac I_leaf :=
  first
    [ apply keeps_I_post | apply keeps_I_log | apply keeps_I_BEGIN
    | apply keeps_I_COMMIT | apply keeps_I_ROLLBACK
    | apply keeps_I_fallible
    | apply keeps_I_query; intros ? ?; I_statement ].

Lemma keeps_I_createComment env p isPRComment body :
  keeps (good_for Q) (createComment env p isPRComment body).
Proof. unfold createComment. repeat keeps_step I_leaf. Qed.

Lemma keeps_I_approve u b c : keeps (good_for Q) (approve_bounty_verify u b c).
Proof. unfold approve_bounty_verify. repeat keeps_step I_leaf. Qed.

Lemma keeps_I_put_bounty env u b a : keeps (good_for Q) (put_bounty env u b a).
Proof.
  unfold put_bounty.
  repeat keeps_step
    ltac:(first [ apply keeps_I_query; intros ? ?;
                  apply I_numeric_param; [intros ? ? ?; now apply I_amount
                                         |assumption]
                | I_leaf ]).
Qed.

Lemma keeps_I_complete_bounty b : keeps (good_for Q) (complete_bounty b).
Proof. unfold complete_bounty. repeat keeps_step I_leaf. Qed.

Lemma keeps_I_delete_bounty_handler env u b :
  keeps (good_for Q) (delete_bounty_handler env u b).
Proof. unfold delete_bounty_handler. repeat keeps_step I_leaf. Qed.

(** What the other requests of an environment commit keeps the property
    and undoes nothing. *)
Variable env : Env.
Hypothesis between_keeps : forall x, Q x -> Q (between env x).
Hypothesis overlap_keeps : forall x, Q x -> Q (overlap env x).
Hypothesis overlap_later : forall x, later x (overlap env x).

Lemma keeps_I_handleBountyClaim p :
  keeps (good_for Q) (handleBountyClaim env p).
Proof.
  unfold handleBountyClaim, claim_bounty_id, claim_catch.
  repeat keeps_step
    ltac:(first [ apply keeps_I_createComment
                | apply keeps_I_query; intros ? ?;
                  now apply I_insert_claim
                | I_leaf ]).
Qed.

Lemma keeps_I_interleave : keeps (good_for Q) (interleave env).
Proof.
  intros w [H1 H2]. unfold interleave. simpl. split; [|exact H2].
  now apply between_keeps.
Qed.

Lemma keeps_I_handleBountyCreation p :
  keeps (good_for Q) (handleBountyCreation env p).
Proof.
  unfold handleBountyCreation, creation_amount.
  repeat keeps_step
    ltac:(first [ apply keeps_I_interleave
                | apply keeps_I_query; intros ? ?;
                  apply I_numeric_param;
                  [intros ? ? ?; now apply I_insert_bounty|assumption]
                | I_leaf ]).
Qed.

Lemma keeps_I_webhook req : keeps (good_for Q) (webhook env req).
Proof.
  unfold webhook, webhook_try.
  repeat keeps_step
    ltac:(first [ apply keeps_I_handleBountyClaim
                | apply keeps_I_handleBountyCreation
                | I_leaf ]).
Qed.

(** A request keeps what every statement of the program keeps. *)
Lemma run_keeps op d : Q d -> Q (run env op d).
Proof.
  intros H.
  assert (Hw : good_for Q (request_world d)) by (split; [exact H|exact I]).
  destruct op; simpl; unfold db_after.
  - now apply keeps_I_handleBountyCreation.
  - now apply keeps_I_handleBountyClaim.
  - now apply keeps_I_approve.
  - now apply keeps_I_put_bounty.
  - now apply keeps_I_complete_bounty.
  - now apply keeps_I_delete_bounty_handler.
  - now apply keeps_I_webhook.
Qed.

End StoreInvariant.

(** Every statement of the program leaves a later store. *)
Lemma later_update_bounty bid set d : later d (snd (update_bounty bid set d)).
Proof.
  unfold update_bounty, int4_param.
  repeat match goal with
         | |- context [if ?c then _ else _] => destruct c
         end; unfold later; simpl; repeat split; lia.
Qed.

Lemma later_nextval_bounties d : later d (nextval_bounties d).
Proof. unfold later. simpl. repeat split; lia. Qed.

Lemma later_nextval_bounty_claims d : later d (nextval_bounty_claims d).
Proof. unfold later. simpl. repeat split; lia. Qed.

Lemma later_insert_bounty mid i a s c r t u d :
  (forall x, later x (mid x)) ->
  later d (snd (insert_bounty mid i a s c r t u d)).
Proof.
  intros Hmid. unfold insert_bounty, int4_param.
  destruct (is_int4 c); [|apply later_refl].
  destruct (negb (sequence_left _)); [apply later_refl|].
  pose proof (later_nextval_bounties d) as H1.
  pose proof (later_trans H1 (Hmid (nextval_bounties d))) as H2.
  repeat match goal with
         | |- context [if ?c then _ else _] => destruct c
         end; assumption.
Qed.

Lemma later_insert_bounty_claim mid column bid uid pr d :
  (forall x, later x (mid x)) ->
  later d (snd (insert_bounty_claim mid column bid uid pr d)).
Proof.
  intros Hmid. unfold insert_bounty_claim, int4_param.
  destruct (negb _); [apply later_refl|].
  destruct (is_int4 bid); [|apply later_refl].
  destruct (is_int4 uid); [|apply later_refl].
  destruct (negb (sequence_left _)); [apply later_refl|].
  pose proof (later_nextval_bounty_claims d) as H1.
  pose proof (later_trans H1 (Hmid (nextval_bounty_claims d))) as H2.
  destruct (check_unique_claim_on_open_bounty _ _); [|exact H1].
  repeat match goal with
         | |- context [if ?c then _ else _] => destruct c
         end; assumption.
Qed.

Lemma later_stable d0 : stable (later d0).
Proof.
  constructor.
  - intros d us H. exact H.
  - intros mid i a s c r t u d _ Hmid H.
    exact (later_trans H (@later_insert_bounty mid i a s c r t u d Hmid)).
  - intros c bid d H. unfold update_status_and_claimed_by, int4_param.
    destruct (is_int4 c); [|exact H].
    exact (later_trans H (later_update_bounty _ _ d)).
  - intros a bid d H. exact (later_trans H (later_update_bounty _ _ d)).
  - intros bid d H. exact (later_trans H (later_update_bounty _ _ d)).
  - intros bid d H. unfold delete_claims, int4_param.
    destruct (is_int4 bid); exact H.
  - intros bid d H. unfold delete_bounty, int4_param.
    repeat match goal with
           | |- context [if ?c then _ else _] => destruct c
           end; exact H.
  - intros mid column bid uid pr d _ Hmid H.
    exact (later_trans H
             (@later_insert_bounty_claim mid column bid uid pr d Hmid)).
Qed.

(** What requests make of a store is a later store. *)
Lemma evolves_later d0 d : evolves d0 d -> later d0 d.
Proof.
  induction 1 as [d|d0 d us _ IH|env op d0 d _ IH _ IHbetween _ IHoverlap].
  - apply later_refl.
  - exact IH.
  - apply (@run_keeps (later d0) (later_stable d0) env); try assumption.
    + intros x Hx. exact (later_trans Hx (IHbetween x)).
    + intros x Hx. exact (later_trans Hx (IHoverlap x)).
Qed.

(** What every statement of the program keeps, requests keep. *)
Lemma evolves_invariant Q d0 d : stable Q -> evolves d0 d -> Q d0 -> Q d.
Proof.
  intros HQ Hev. 
  induction Hev
    as [d|d0 d us _ IH|env op d0 d _ IH Hbetween IHbetween Hoverlap IHoverlap];
    intros H0.
  - exact H0.
  - apply (stable_users HQ). now apply IH.
  - apply (@run_keeps Q HQ env).
    + exact IHbetween.
    + exact IHoverlap.
    + intros x. apply evolves_later, Hoverlap.
    + now apply IH.
Qed.

(** A property that the empty store has and that every statement of the
    program keeps holds in every state of the store. *)
Lemma reachable_invariant Q d :
  stable Q -> (forall column infinity, Q (created column infinity)) ->
  reachable d -> Q d.
Proof.
  intros HQ Hcreated.
  induction 1 as [column infinity|d us _ IH|env op d _ IH [Hbetween Hoverlap]].
  - apply Hcreated.
  - now apply (stable_users HQ).
  - apply (@run_keeps Q HQ env).
    + intros x. apply (evolves_invariant HQ), Hbetween.
    + intros x. apply (evolves_invariant HQ), Hoverlap.
    + intros x. apply evolves_later, Hoverlap.
    + exact IH.
Qed.

(* ------------------------------------------------------------------ *)
(** ** The primary key of [bounties] *)

Lemma NoDup_map_filter {A B} (f : A -> B) (g : A -> bool) (l : list A) :
  NoDup (map f l) -> NoDup (map f (filter g l)).
Proof.
  induction l as [|x l IH]; simpl; intros H; [constructor|].
  inversion H as [|y ys Hnot Hrest]. subst.
  destruct (g x); simpl; [|now apply IH].
  constructor; [|now apply IH].
  intros Hin. apply Hnot. apply in_map_iff in Hin.
  destruct Hin as [z [Hz Hin]]. apply filter_In in Hin.
  apply in_map_iff. exists z. tauto.
Qed.

Lemma ids_of_updated_rows bountyId set d :
  (forall b, Bounty.id (set b) = Bounty.id b) ->
  map Bounty.id (updated_rows bountyId set d) = map Bounty.id (bounties d).
Proof.
  intros Hid. unfold updated_rows. rewrite map_map. apply map_ext.
  intros b. destruct (Bounty.id b =? bountyId); [apply Hid|reflexivity].
Qed.

Lemma keyed_update_bounty bid set d :
  (forall b, Bounty.id (set b) = Bounty.id b) ->
  keyed d -> keyed (snd (update_bounty bid set d)).
Proof.
  intros Hid [Hu Hb]. unfold update_bounty, int4_param.
  destruct (is_int4 bid); [|now split].
  destruct (existsb _ _); [now split|].
  destruct (negb _); [now split|]. simpl. split.
  - unfold unique_ids. simpl.
    fold (updated_rows bid set d).
    now rewrite (@ids_of_updated_rows bid set d Hid).
  - intros b Hin. simpl in *. apply in_map_iff in Hin.
    destruct Hin as [b0 [Heq Hb0]]. specialize (Hb b0 Hb0).
    destruct (Bounty.id b0 =? bid); subst b; [rewrite Hid|]; exact Hb.
Qed.

(** The INSERT keeps the key whatever is committed inside it: the primary
    key is checked as the row is stored, and the sequence has moved on. *)
Lemma keyed_insert_bounty mid i a s c r t u d :
  (forall x, keyed x -> keyed (mid x)) -> (forall x, later x (mid x)) ->
  keyed d -> keyed (snd (insert_bounty mid i a s c r t u d)).
Proof.
  intros Hmid Hlater [Hu Hb]. unfold insert_bounty, int4_param.
  destruct (is_int4 c); [|now split].
  destruct (negb (sequence_left _)); [now split|].
  assert (Hnext : keyed (nextval_bounties d)).
  { split; [exact Hu|]. intros b Hin. simpl. specialize (Hb b Hin). lia. }
  destruct (check_unique_open_bounty _ _); [exact Hnext|].
  pose proof (Hmid _ Hnext) as [Hu2 Hb2].
  destruct (Hlater (nextval_bounties d)) as [Hseq _]. simpl in Hseq.
  cbn [Bounty.id].
  destruct (bounty_exists _ _) eqn:Hfresh; [now split|].
  destruct (negb _); [now split|]. simpl. split.
  - unfold unique_ids. simpl. rewrite map_app. simpl.
    apply NoDup_app; [exact Hu2|repeat constructor; intros []|].
    intros x Hx [Hx'|[]]. subst x. apply in_map_iff in Hx.
    destruct Hx as [b [Hid Hin]].
    pose proof (existsb_false_In _ _ Hfresh b Hin) as Hne.
    simpl in Hne. apply Z.eqb_neq in Hne. contradiction.
  - intros b Hin. simpl in *. apply in_app_or in Hin.
    destruct Hin as [Hin|[Hin|[]]].
    + exact (Hb2 b Hin).
    + subst b. simpl. lia.
Qed.

Lemma keyed_same d d' :
  bounties d' = bounties d -> bounties_id_seq d' = bounties_id_seq d ->
  keyed d -> keyed d'.
Proof.
  intros Hrows Hseq [Hu Hb]. split.
  - unfold unique_ids. now rewrite Hrows.
  - intros b. rewrite Hrows, Hseq. apply Hb.
Qed.

Lemma keyed_insert_claim mid column bid uid pr d :
  (forall x, keyed x -> keyed (mid x)) ->
  keyed d -> keyed (snd (insert_bounty_claim mid column bid uid pr d)).
Proof.
  intros Hmid H. unfold insert_bounty_claim, int4_param.
  destruct (negb _); [exact H|].
  destruct (is_int4 bid); [|exact H].
  destruct (is_int4 uid); [|exact H].
  destruct (negb (sequence_left _)); [exact H|].
  assert (Hnext : keyed (nextval_bounty_claims d))
    by (eapply keyed_same; [| |exact H]; reflexivity).
  destruct (check_unique_claim_on_open_bounty _ _); [|exact Hnext].
  pose proof (Hmid _ Hnext) as H2.
  destruct (existsb _ _); [exact H2|].
  destruct (_ && _); [|exact H2].
  eapply keyed_same; [| |exact H2]; reflexivity.
Qed.

Lemma keyed_delete_bounty bid d : keyed d -> keyed (snd (delete_bounty bid d)).
Proof.
  intros [Hu Hb]. unfold delete_bounty, int4_param.
  destruct (is_int4 bid); [|now split].
  destruct (_ && _); [now split|]. simpl. split.
  - unfold unique_ids. simpl. now apply NoDup_map_filter.
  - intros b Hin. simpl in *. apply filter_In in Hin. now apply Hb.
Qed.

Lemma keyed_stable : stable keyed.
Proof.
  constructor.
  - intros d us H. eapply keyed_same; [| |exact H]; reflexivity.
  - intros. now apply keyed_insert_bounty.
  - intros c bid d H. unfold update_status_and_claimed_by, int4_param.
    destruct (is_int4 c); [|exact H]. now apply keyed_update_bounty.
  - intros. now apply keyed_update_bounty.
  - intros. now apply keyed_update_bounty.
  - intros bid d H. unfold delete_claims, int4_param.
    destruct (is_int4 bid); [|exact H].
    eapply keyed_same; [| |exact H]; reflexivity.
  - intros. now apply keyed_delete_bounty.
  - intros. now apply keyed_insert_claim.
Qed.

Lemma reachable_keyed d : reachable d -> keyed d.
Proof.
  apply (reachable_invariant keyed_stable).
  intros column infinity. split; [constructor|intros b []].
Qed.

Lemma NoDup_filter_le_1 (l : list Bounty.t) bid :
  NoDup (map Bounty.id l) ->
  (List.length (filter (fun b => (Bounty.id b =? bid)%Z) l) <= 1)%nat.
Proof.
  induction l as [|b l IH]; simpl; intros H; [lia|].
  inversion H as [|x xs Hnot Hrest]. subst.
  destruct (Bounty.id b =? bid) eqn:E; [|now apply IH].
  simpl. rewrite filter_none; [simpl; lia|].
  intros b' Hb'. destruct (Bounty.id b' =? bid) eqn:E'; [|reflexivity].
  exfalso. apply Hnot. apply Z.eqb_eq in E. apply Z.eqb_eq in E'.
  apply in_map_iff. exists b'. split; [congruence|exact Hb'].
Qed.

(** X20. The ids of the bounties are a key in every state of the store:
    no two rows have the same id, every id is below the next value of the
    sequence, and a look-up by id finds at most one row, so the
    [rows[0]] the routes work on is the only row of that id. *)
Theorem bounty_ids_are_a_key d :
  reachable d ->
  NoDup (map Bounty.id (bounties d))
  /\ (forall b, In b (bounties d) -> Bounty.id b < bounties_id_seq d)
  /\ (forall bountyId,
        (List.length
           (filter (fun b => (Bounty.id b =? bountyId)%Z) (bounties d))
         <= 1)%nat).
Proof.
  intros H. destruct (reachable_keyed H) as [Hu Hb].
  split; [exact Hu|]. split; [exact Hb|].
  intros bid. now apply NoDup_filter_le_1.
Qed.

Lemma bounty_ids_are_a_key_witness :
  map Bounty.id
    (bounties
       (run overlapping (creation (issue_commented "/create-bounty 500"))
          signed_in)) = [2; 1]
  /\ NoDup
       (map Bounty.id
          (bounties
             (run overlapping (creation (issue_commented "/create-bounty 500"))
                signed_in)))
  /\ (List.length
        (filter (fun b => (Bounty.id b =? 1)%Z)
           (bounties
              (run overlapping
                 (creation (issue_commented "/create-bounty 500"))
                 signed_in)))
      <= 1)%nat.
Proof.
  destruct (@bounty_ids_are_a_key
              (run overlapping (creation (issue_commented "/create-bounty 500"))
                 signed_in))
    as (Hu & _ & Hone).
  - apply reach_run; [exact signed_in_reachable|exact fair_overlapping].
  - split; [reflexivity|]. split; [exact Hu|apply Hone].
Defined.

(* ------------------------------------------------------------------ *)
(** ** The table of claims on the database that [setupDatabase] creates *)

Lemma column_of_update_bounty bid set d :
  claims_pr_column (snd (update_bounty bid set d)) = claims_pr_column d
  /\ bounty_claims (snd (update_bounty bid set d)) = bounty_claims d.
Proof.
  unfold update_bounty, int4_param. destruct (is_int4 bid); [|now split].
  destruct (existsb _ _); [now split|].
  destruct (negb _); now split.
Qed.

Lemma claims_need_update_bounty bid set d :
  claims_need_the_column d ->
  claims_need_the_column (snd (update_bounty bid set d)).
Proof.
  intros H. unfold claims_need_the_column.
  destruct (column_of_update_bounty bid set d) as [Hc Hr].
  now rewrite Hc, Hr.
Qed.

(** The INSERT of a claim stores a row only when its trigger has found
    the column it names, and the layout of the table does not change
    while the statement runs. *)
Lemma claims_need_insert_claim mid column bid uid pr d :
  (forall x, claims_need_the_column x -> claims_need_the_column (mid x)) ->
  (forall x, later x (mid x)) ->
  claims_need_the_column d ->
  claims_need_the_column (snd (insert_bounty_claim mid column bid uid pr d)).
Proof.
  intros Hmid Hlater H. unfold insert_bounty_claim, int4_param.
  destruct (negb (String.eqb column (claims_pr_column d))); [exact H|].
  destruct (is_int4 bid); [|exact H].
  destruct (is_int4 uid); [|exact H].
  destruct (negb (sequence_left _)); [exact H|].
  assert (Hnext : claims_need_the_column (nextval_bounty_claims d)) by exact H.
  pose proof (Hmid _ Hnext) as H2.
  destruct (Hlater (nextval_bounty_claims d)) as (_ & _ & Hcolumn & _).
  unfold check_unique_claim_on_open_bounty.
  destruct (String.eqb (claims_pr_column (nextval_bounty_claims d))
                       "pull_request_number") eqn:E; cbn [negb].
  - apply String.eqb_eq in E.
    repeat match goal with
           | |- context [if ?c then _ else _] => destruct c
           end; try exact Hnext; try exact H2.
    intros Hne. simpl in Hne. congruence.
  - exact Hnext.
Qed.

Lemma claims_need_the_column_stable : stable claims_need_the_column.
Proof.
  constructor.
  - intros d us H. exact H.
  - intros mid i a s c r t u d Hmid _ H. unfold insert_bounty, int4_param.
    destruct (is_int4 c); [|exact H].
    destruct (negb (sequence_left _)); [exact H|].
    assert (Hnext : claims_need_the_column (nextval_bounties d)) by exact H.
    pose proof (Hmid _ Hnext) as H2.
    repeat match goal with
           | |- context [if ?c then _ else _] => destruct c
           end; try exact Hnext; exact H2.
  - intros c bid d H. unfold update_status_and_claimed_by, int4_param.
    destruct (is_int4 c); [|exact H]. now apply claims_need_update_bounty.
  - intros. now apply claims_need_update_bounty.
  - intros. now apply claims_need_update_bounty.
  - intros bid d H. unfold delete_claims, int4_param.
    destruct (is_int4 bid); [|exact H].
    intros Hne. simpl in *. now rewrite (H Hne).
  - intros bid d H. unfold delete_bounty, int4_param.
    destruct (is_int4 bid); [|exact H].
    destruct (_ && _); exact H.
  - intros. now apply claims_need_insert_claim.
Qed.

Lemma reachable_claims_need_the_column d :
  reachable d -> claims_need_the_column d.
Proof.
  apply (reachable_invariant claims_need_the_column_stable).
  intros column infinity _. reflexivity.
Qed.

(** X21. No claim is ever stored unless the table of claims names its
    column for the pull request [pull_request_number]: in every state of
    a store whose table has another name for it, as the table that
    [setupDatabase] creates has, [bounty_claims] is empty. *)
Theorem no_claim_without_the_column d :
  reachable d ->
  claims_pr_column d <> "pull_request_number"%string ->
  bounty_claims d = [].
Proof. intros H. exact (reachable_claims_need_the_column H). Qed.

Lemma no_claim_without_the_column_witness :
  bounty_claims
    (run quiet (claiming (pull_request_opened 0))
       (run quiet (creation issue_opened) signed_in)) = [].
Proof.
  apply no_claim_without_the_column.
  - apply reach_run; [exact one_bounty_reachable|exact fair_quiet].
  - vm_compute. discriminate.
Defined.

(** X22. Hence, in every such state, no approval goes through: whoever
    asks and for whichever bounty and claimant, the answer is not 200 and
    the database stays as it is.  When the two ids of the request and
    the id of the requester are of the type INTEGER the answer is 404 or
    400; otherwise it may also be 500. *)
Theorem no_approval_without_the_column req_user bountyId claimantId w :
  reachable (db w) ->
  claims_pr_column (db w) <> "pull_request_number"%string ->
  exists r w',
    approve_bounty_verify req_user bountyId claimantId w = (Return r, w')
    /\ (status_code r = 404 \/ status_code r = 400 \/ status_code r = 500)
    /\ (is_int4 bountyId = true -> is_int4 claimantId = true ->
        is_int4 (User.github_id req_user) = true ->
        status_code r = 404 \/ status_code r = 400)
    /\ db w' = db w.
Proof.
  intros Hreach Hcolumn.
  pose proof (@reachable_claims_need_the_column (db w) Hreach Hcolumn)
    as Hempty.
  destruct (approve_cases req_user bountyId claimantId w)
    as (r & w' & Hrun & _ & _ & Hcases).
  exists r, w'. split; [exact Hrun|].
  destruct Hcases
    as [(Hcode & Hw & _)
       |[(Hcode & Hw & _)
        |[(_ & _ & _ & (c & Hc & _) & _)
         |[(_ & _ & _ & (c & Hc & _) & _)
          |(Hcode & Hdb & _ & Hrange)]]]].
  - subst w'. auto.
  - subst w'. auto.
  - rewrite Hempty in Hc. destruct Hc.
  - rewrite Hempty in Hc. destruct Hc.
  - split; [auto|]. split; [|exact Hdb].
    intros Hb Hc Hu. exfalso. destruct Hrange as [E|[E|E]]; congruence.
Qed.

Lemma no_approval_without_the_column_witness :
  exists r w',
    approve_bounty_verify alice 1 2 (request_world one_bounty) = (Return r, w')
    /\ (status_code r = 404 \/ status_code r = 400)
    /\ db w' = one_bounty.
Proof.
  destruct (@no_approval_without_the_column alice 1 2
              (request_world one_bounty))
    as (r & w' & Hrun & _ & Hcode & Hdb).
  - exact one_bounty_reachable.
  - vm_compute. discriminate.
  - exists r, w'. split; [exact Hrun|]. split; [|exact Hdb].
    apply Hcode; reflexivity.
Defined.

(* ------------------------------------------------------------------ *)
(** ** Claims on a table that has the column of the insert *)

Lemma claim_bounty_id_pull_request p text pr w :
  pull_request_event p text pr ->
  claim_bounty_id p w = (Return (command_argument claim_token text, false), w).
Proof.
  intros (Hc & Hpr & Hb). unfold claim_bounty_id. now rewrite Hc, Hpr, Hb.
Qed.

Lemma open_row_exists bountyId d bounty rest :
  filter (fun b => (Bounty.id b =? bountyId) && Bounty.is_open b) (bounties d)
  = bounty :: rest ->
  In bounty (bounties d) /\ Bounty.id bounty = bountyId
  /\ Bounty.is_open bounty = true.
Proof.
  intros H.
  assert (Hin : In bounty (filter (fun b => (Bounty.id b =? bountyId)
                                            && Bounty.is_open b) (bounties d)))
    by (rewrite H; now left).
  apply filter_In in Hin. destruct Hin as [Hin Hb].
  apply andb_true_iff in Hb. destruct Hb as [Hid Hopen].
  apply Z.eqb_eq in Hid. auto.
Qed.

Lemma fresh_claim_id d :
  claim_ids_below_seq d ->
  existsb (fun c => Claim.id c =? bounty_claims_id_seq d) (bounty_claims d)
  = false.
Proof.
  intros Hids. destruct (existsb _ _) eqn:E; [|reflexivity].
  apply existsb_exists in E. destruct E as [c [Hin Hc]].
  apply Z.eqb_eq in Hc. specialize (Hids c Hin). lia.
Qed.

Lemma existsb_but_self (f : Claim.t -> bool) n (l : list Claim.t) :
  (forall c, In c l -> Claim.id c <> n) ->
  existsb (fun c => f c && negb (Claim.id c =? n)) l = existsb f l.
Proof.
  induction l as [|c l IH]; intros Hne; simpl; [reflexivity|].
  rewrite IH by (intros c' Hc'; apply Hne; now right).
  assert (Hc : (Claim.id c =? n) = false)
    by (apply Z.eqb_neq, Hne; now left).
  rewrite Hc. simpl. now rewrite andb_true_r.
Qed.

Lemma trigger_condition_fresh NEW d :
  claim_ids_below_seq d ->
  Claim.id NEW = bounty_claims_id_seq d ->
  existsb (fun c => (Claim.pull_request c =? Claim.pull_request NEW)
                    && open_bounty_id (Claim.bounty_id c) d
                    && negb (Claim.id c =? Claim.id NEW)) (bounty_claims d)
  = pull_request_claims_open_bounty (Claim.pull_request NEW) d.
Proof.
  intros Hids Hnew. unfold pull_request_claims_open_bounty.
  apply (existsb_but_self
           (fun c => (Claim.pull_request c =? Claim.pull_request NEW)
                     && open_bounty_id (Claim.bounty_id c) d)).
  intros c Hc. specialize (Hids c Hc). lia.
Qed.

Lemma open_bounty_id_of_row bountyId d bounty rest :
  filter (fun b => (Bounty.id b =? bountyId) && Bounty.is_open b) (bounties d)
  = bounty :: rest ->
  open_bounty_id (Bounty.id bounty) d = true
  /\ bounty_exists (Bounty.id bounty) d = true.
Proof.
  intros H. destruct (open_row_exists _ _ H) as (Hin & Hid & Hopen).
  split; apply existsb_exists; exists bounty; (split; [exact Hin|]).
  - now rewrite Z.eqb_refl, Hopen.
  - apply Z.eqb_refl.
Qed.

(** The INSERT of a claim on a table that has its column, with ids of the
    type INTEGER, when no other connection commits inside it. *)
Lemma insert_bounty_claim_runs mid bid uid pr d :
  claims_pr_column d = "pull_request_number"%string ->
  is_int4 bid = true -> is_int4 uid = true ->
  claim_ids_below_seq d ->
  sequence_left (bounty_claims_id_seq d) = true ->
  open_bounty_id bid d = true ->
  bounty_exists bid d = true ->
  user_exists uid d = true ->
  (pull_request_claims_open_bounty pr d = false ->
   mid (nextval_bounty_claims d) = nextval_bounty_claims d) ->
  insert_bounty_claim mid "pull_request_number" bid uid pr d
  = if pull_request_claims_open_bounty pr d
    then (Err raise_exception, nextval_bounty_claims d)
    else (Ok tt,
          set_bounty_claims
            (bounty_claims d
             ++ [{| Claim.id := bounty_claims_id_seq d; Claim.bounty_id := bid;
                    Claim.user_id := uid; Claim.pull_request := pr |}])
            (nextval_bounty_claims d)).
Proof.
  intros Hcolumn Hb Hu Hids Hleft Hopen Hexists Huser Hmid.
  unfold insert_bounty_claim, int4_param. rewrite Hcolumn, Hb, Hu, Hleft.
  simpl.
  unfold check_unique_claim_on_open_bounty.
  cbn [claims_pr_column nextval_bounty_claims]. rewrite Hcolumn. simpl.
  change (open_bounty_id bid (nextval_bounty_claims d))
    with (open_bounty_id bid d).
  rewrite Hopen. simpl.
  set (NEW := {| Claim.id := bounty_claims_id_seq d; Claim.bounty_id := bid;
                 Claim.user_id := uid; Claim.pull_request := pr |}).
  pose proof (@trigger_condition_fresh NEW d Hids eq_refl) as Htrig.
  change (existsb
            (fun c => (Claim.pull_request c =? pr)
                      && open_bounty_id (Claim.bounty_id c)
                           (nextval_bounty_claims d)
                      && negb (Claim.id c =? bounty_claims_id_seq d))
            (bounty_claims d))
    with (existsb
            (fun c => (Claim.pull_request c =? Claim.pull_request NEW)
                      && open_bounty_id (Claim.bounty_id c) d
                      && negb (Claim.id c =? Claim.id NEW))
            (bounty_claims d)).
  rewrite Htrig. simpl.
  destruct (pull_request_claims_open_bounty pr d); [reflexivity|].
  rewrite (Hmid eq_refl). simpl. rewrite (fresh_claim_id Hids).
  change (bounty_exists bid (nextval_bounty_claims d))
    with (bounty_exists bid d).
  change (user_exists uid (nextval_bounty_claims d))
    with (user_exists uid d).
  now rewrite Hexists, Huser.
Qed.

(** A claim from the body of a pull request, on a table that has the
    column of the insert, run to its end. *)
Lemma claim_runs env p w text pr bountyId bounty rest :
  pull_request_event p text pr ->
  command_argument claim_token text = Some (Finite bountyId) ->
  bountyId <> 0 ->
  is_int4 bountyId = true ->
  is_int4 (Payload.sender_id p) = true ->
  user_exists (Payload.sender_id p) (db w) = true ->
  filter (fun b => (Bounty.id b =? bountyId) && Bounty.is_open b)
         (bounties (db w)) = bounty :: rest ->
  Bounty.creator_id bounty <> Payload.sender_id p ->
  claims_pr_column (db w) = "pull_request_number"%string ->
  claim_ids_below_seq (db w) ->
  sequence_left (bounty_claims_id_seq (db w)) = true ->
  (pull_request_claims_open_bounty (PullRequest.number pr) (db w) = false ->
   overlap env (nextval_bounty_claims (db w)) = nextval_bounty_claims (db w)) ->
  handleBountyClaim env p w
  = if pull_request_claims_open_bounty (PullRequest.number pr) (db w)
    then (Return tt,
          {| db := nextval_bounty_claims (db w); tx := tx w;
             outbox := outbox w;
             console := console w
                        ++ [console_error "Error claiming bounty:"
                              (PgError raise_exception)] |})
    else if (0 <? PullRequest.changed_files pr)%N
    then (Return tt,
          {| db := with_stored_claim p bounty pr (db w); tx := tx w;
             outbox := outbox w;
             console := console w
                        ++ [console_error "Error claiming bounty:" TypeError] |})
    else if post_ok env (review_comment p pr ReviewPending)
    then (Return tt,
          {| db := with_stored_claim p bounty pr (db w); tx := tx w;
             outbox := outbox w ++ [review_comment p pr ReviewPending];
             console := console w |})
    else (Return tt,
          {| db := with_stored_claim p bounty pr (db w); tx := tx w;
             outbox := outbox w;
             console := console w
                        ++ [console_error "Error claiming bounty:"
                              (RequestError
                                 (review_comment p pr ReviewPending))] |}).
Proof.
  intros Hev Harg Hpos Hrange Hsender Huser Hopen Hcreator Hcolumn Hids Hleft Hmid.
  destruct (open_bounty_id_of_row _ _ Hopen) as [Hisopen Hexists].
  destruct (open_row_exists _ _ Hopen) as (_ & Hid & _).
  unfold handleBountyClaim. unfold bind at 1.
  rewrite (@claim_bounty_id_pull_request p text pr w Hev), Harg.
  assert (Hfalsy : falsy (Some (Finite bountyId)) = false)
    by (simpl; now apply Z.eqb_neq).
  rewrite Hfalsy.
  destruct Hev as (_ & Hpr & _).
  destruct (some_user_rows _ _ Huser) as (u & urest & Hrows).
  unfold try_catch, bind at 1.
  rewrite (@query_ok _ _ w (u :: urest) (db w));
    [|rewrite (@select_user_runs _ (db w) Hsender), Hrows; reflexivity].
  unfold bind at 1.
  rewrite (@query_ok _ _ _ (bounty :: rest) (db w)).
  2:{ cbn [db set_db].
      rewrite (@number_param_Finite _ bountyId _ (db w) Hrange).
      rewrite (@select_bounty_with_status_runs bountyId st_open (db w) Hrange).
      unfold Bounty.is_open in Hopen. now rewrite Hopen. }
  apply Z.eqb_neq in Hcreator. rewrite Hcreator, Hpr.
  unfold bind at 1. unfold query at 1. cbn [db set_db].
  rewrite (@insert_bounty_claim_runs (overlap env) (Bounty.id bounty)
             (Payload.sender_id p) (PullRequest.number pr) (db w));
    try assumption; [|now rewrite Hid].
  destruct (pull_request_claims_open_bounty (PullRequest.number pr) (db w));
    [reflexivity|].
  unfold createComment. simpl. rewrite Hpr.
  destruct (0 <? PullRequest.changed_files pr)%N; [reflexivity|].
  unfold post. simpl. fold (review_comment p pr ReviewPending).
  destruct (post_ok env _); reflexivity.
Qed.

(** X23. On a table that has the column of the insert, a claim in the body
    of a newly opened pull request that changes no file is recorded: the
    number of the command and the id of the sender are of the type INTEGER,
    the sender has an account and is not the creator, the bounty is open, no
    claim on an open bounty is on this pull request, the ids of the stored
    claims are below the next value of their sequence, which has not run
    out, and no other request commits while the INSERT runs.  Then one row
    is stored with the bounty, the sender and the number of the pull
    request, and the review-pending comment, which GitHub takes, is posted
    on the pull request. *)
Theorem claim_is_recorded env p w text pr bountyId bounty rest :
  pull_request_event p text pr ->
  command_argument claim_token text = Some (Finite bountyId) ->
  bountyId <> 0 ->
  is_int4 bountyId = true ->
  is_int4 (Payload.sender_id p) = true ->
  user_exists (Payload.sender_id p) (db w) = true ->
  filter (fun b => (Bounty.id b =? bountyId) && Bounty.is_open b)
         (bounties (db w)) = bounty :: rest ->
  Bounty.creator_id bounty <> Payload.sender_id p ->
  claims_pr_column (db w) = "pull_request_number"%string ->
  claim_ids_below_seq (db w) ->
  sequence_left (bounty_claims_id_seq (db w)) = true ->
  overlap env (nextval_bounty_claims (db w)) = nextval_bounty_claims (db w) ->
  pull_request_claims_open_bounty (PullRequest.number pr) (db w) = false ->
  PullRequest.changed_files pr = 0%N ->
  post_ok env (review_comment p pr ReviewPending) = true ->
  exists w',
    handleBountyClaim env p w = (Return tt, w')
    /\ bounty_claims (db w')
       = bounty_claims (db w)
         ++ [stored_claim p bounty pr (bounty_claims_id_seq (db w))]
    /\ bounties (db w') = bounties (db w)
    /\ outbox w' = outbox w ++ [review_comment p pr ReviewPending]
    /\ console w' = console w.
Proof.
  intros Hev Harg Hpos Hrange Hsender Huser Hopen Hcreator Hcolumn Hids Hleft Hmid
    Hfirst Hfiles Hpost.
  rewrite (@claim_runs env p w text pr bountyId bounty rest
             Hev Harg Hpos Hrange Hsender Huser Hopen Hcreator Hcolumn Hids Hleft
             (fun _ => Hmid)).
  rewrite Hfirst, Hfiles, Hpost. simpl.
  eexists. split; [reflexivity|]. simpl. auto.
Qed.

Lemma store_9_10_claim_ids claims :
  (forall c, In c claims -> Claim.id c < 3) ->
  claim_ids_below_seq (store_9_10 claims).
Proof. intros H c Hc. simpl in *. now apply H. Qed.

Lemma claim_is_recorded_witness :
  exists w',
    handleBountyClaim quiet (pull_request_opened 0)
      (request_world (store_9_10 []))
    = (Return tt, w')
    /\ bounty_claims (db w') = [claim_of 3 2 7]
    /\ outbox w'
       = [review_comment (pull_request_opened 0) (pull_request_7_opened 0)
            ReviewPending].
Proof.
  destruct (@claim_is_recorded quiet (pull_request_opened 0)
              (request_world (store_9_10 [])) (js "/claim-bounty 9")
              (pull_request_7_opened 0) 9 (bounty9 st_open None) [])
    as (w' & Hrun & Hrows & _ & Hout & _).
  - repeat split.
  - reflexivity.
  - discriminate.
  - reflexivity.
  - reflexivity.
  - reflexivity.
  - reflexivity.
  - simpl. lia.
  - reflexivity.
  - apply store_9_10_claim_ids. intros c [].
  - reflexivity.
  - reflexivity.
  - reflexivity.
  - reflexivity.
  - reflexivity.
  - exists w'. split; [exact Hrun|]. split; [exact Hrows|exact Hout].
Defined.

(** X24. The same claim from a pull request that changes at least one file
    (the number of the command and the id of the sender of the type INTEGER,
    the sender with an account and not the creator, the bounty open, no
    claim on an open bounty on this pull request, the ids of the stored
    claims below the next value of their sequence, which has not run out, no
    other request committing while the INSERT runs) is recorded and never
    answered: the row is stored, then building the comment throws, so
    nothing is posted and only the console tells. *)
Theorem claim_is_recorded_in_silence env p w text pr bountyId bounty rest :
  pull_request_event p text pr ->
  command_argument claim_token text = Some (Finite bountyId) ->
  bountyId <> 0 ->
  is_int4 bountyId = true ->
  is_int4 (Payload.sender_id p) = true ->
  user_exists (Payload.sender_id p) (db w) = true ->
  filter (fun b => (Bounty.id b =? bountyId) && Bounty.is_open b)
         (bounties (db w)) = bounty :: rest ->
  Bounty.creator_id bounty <> Payload.sender_id p ->
  claims_pr_column (db w) = "pull_request_number"%string ->
  claim_ids_below_seq (db w) ->
  sequence_left (bounty_claims_id_seq (db w)) = true ->
  overlap env (nextval_bounty_claims (db w)) = nextval_bounty_claims (db w) ->
  pull_request_claims_open_bounty (PullRequest.number pr) (db w) = false ->
  PullRequest.changed_files pr <> 0%N ->
  exists w',
    handleBountyClaim env p w = (Return tt, w')
    /\ bounty_claims (db w')
       = bounty_claims (db w)
         ++ [stored_claim p bounty pr (bounty_claims_id_seq (db w))]
    /\ outbox w' = outbox w
    /\ console w'
       = console w ++ [console_error "Error claiming bounty:" TypeError].
Proof.
  intros Hev Harg Hpos Hrange Hsender Huser Hopen Hcreator Hcolumn Hids Hleft Hmid
    Hfirst Hfiles.
  rewrite (@claim_runs env p w text pr bountyId bounty rest
             Hev Harg Hpos Hrange Hsender Huser Hopen Hcreator Hcolumn Hids Hleft
             (fun _ => Hmid)).
  rewrite Hfirst.
  assert (Hlt : (0 <? PullRequest.changed_files pr)%N = true)
    by (apply N.ltb_lt; lia).
  rewrite Hlt. eexists. split; [reflexivity|]. simpl. auto.
Qed.

Lemma claim_is_recorded_in_silence_witness :
  exists w',
    handleBountyClaim quiet (pull_request_opened 3)
      (request_world (store_9_10 []))
    = (Return tt, w')
    /\ bounty_claims (db w') = [claim_of 3 2 7]
    /\ outbox w' = [].
Proof.
  destruct (@claim_is_recorded_in_silence quiet (pull_request_opened 3)
              (request_world (store_9_10 [])) (js "/claim-bounty 9")
              (pull_request_7_opened 3) 9 (bounty9 st_open None) [])
    as (w' & Hrun & Hrows & Hout & _).
  - repeat split.
  - reflexivity.
  - discriminate.
  - reflexivity.
  - reflexivity.
  - reflexivity.
  - reflexivity.
  - simpl. lia.
  - reflexivity.
  - apply store_9_10_claim_ids. intros c [].
  - reflexivity.
  - reflexivity.
  - reflexivity.
  - discriminate.
  - exists w'. split; [exact Hrun|]. split; [exact Hrows|exact Hout].
Defined.

(** X25. On such a table the trigger allows a pull request one claim over
    all open bounties: when some claim on an open bounty, this one or
    another, is on the pull request, the claim (of a sender with an account
    who is not the creator, on an open bounty, the number of the command and
    the id of the sender of the type INTEGER, the ids of the stored claims
    below the next value of their sequence, which has not run out) stores no
    row and posts nothing; the error of the trigger goes to the console and
    the sequence has moved. *)
Theorem one_claim_per_pull_request env p w text pr bountyId bounty rest :
  pull_request_event p text pr ->
  command_argument claim_token text = Some (Finite bountyId) ->
  bountyId <> 0 ->
  is_int4 bountyId = true ->
  is_int4 (Payload.sender_id p) = true ->
  user_exists (Payload.sender_id p) (db w) = true ->
  filter (fun b => (Bounty.id b =? bountyId) && Bounty.is_open b)
         (bounties (db w)) = bounty :: rest ->
  Bounty.creator_id bounty <> Payload.sender_id p ->
  claims_pr_column (db w) = "pull_request_number"%string ->
  claim_ids_below_seq (db w) ->
  sequence_left (bounty_claims_id_seq (db w)) = true ->
  pull_request_claims_open_bounty (PullRequest.number pr) (db w) = true ->
  exists w',
    handleBountyClaim env p w = (Return tt, w')
    /\ bounty_claims (db w') = bounty_claims (db w)
    /\ bounty_claims_id_seq (db w') = bounty_claims_id_seq (db w) + 1
    /\ outbox w' = outbox w
    /\ console w'
       = console w
         ++ [console_error "Error claiming bounty:" (PgError raise_exception)].
Proof.
  intros Hev Harg Hpos Hrange Hsender Huser Hopen Hcreator Hcolumn Hids Hleft
    Hclaimed.
  rewrite (@claim_runs env p w text pr bountyId bounty rest
             Hev Harg Hpos Hrange Hsender Huser Hopen Hcreator Hcolumn Hids Hleft).
  - rewrite Hclaimed. eexists. split; [reflexivity|]. simpl. auto.
  - intros Hnot. rewrite Hclaimed in Hnot. discriminate.
Qed.

Lemma one_claim_per_pull_request_witness :
  exists w',
    handleBountyClaim quiet (pull_request_opened 0)
      (request_world
         (store_9_10 [{| Claim.id := 1; Claim.bounty_id := 10;
                         Claim.user_id := 2; Claim.pull_request := 7 |}]))
    = (Return tt, w')
    /\ bounty_claims (db w')
       = [{| Claim.id := 1; Claim.bounty_id := 10;
             Claim.user_id := 2; Claim.pull_request := 7 |}]
    /\ outbox w' = [].
Proof.
  destruct (@one_claim_per_pull_request quiet (pull_request_opened 0)
              (request_world
                 (store_9_10 [{| Claim.id := 1; Claim.bounty_id := 10;
                                 Claim.user_id := 2;
                                 Claim.pull_request := 7 |}]))
              (js "/claim-bounty 9")
              (pull_request_7_opened 0) 9 (bounty9 st_open None) [])
    as (w' & Hrun & Hrows & _ & Hout & _).
  - repeat split.
  - reflexivity.
  - discriminate.
  - reflexivity.
  - reflexivity.
  - reflexivity.
  - reflexivity.
  - simpl. lia.
  - reflexivity.
  - apply store_9_10_claim_ids. intros c [Hc|[]]. subst c. simpl. lia.
  - reflexivity.
  - reflexivity.
  - exists w'. split; [exact Hrun|]. split; [exact Hrows|exact Hout].
Defined.

(* ------------------------------------------------------------------ *)
(** ** The claims and their bounties *)

Lemma bounty_exists_kept (rows rows' : list Bounty.t) bid :
  (forall b, In b rows -> exists b', In b' rows' /\ Bounty.id b' = Bounty.id b) ->
  existsb (fun b => Bounty.id b =? bid) rows = true ->
  existsb (fun b => Bounty.id b =? bid) rows' = true.
Proof.
  intros H Hex. apply existsb_exists in Hex. destruct Hex as [b [Hin Hb]].
  destruct (H b Hin) as [b' [Hb' Hsame]].
  apply existsb_exists. exists b'. split; [exact Hb'|]. now rewrite Hsame.
Qed.

Lemma claims_in_order_update bid set d :
  (forall b, Bounty.id (set b) = Bounty.id b) ->
  claims_in_order d -> claims_in_order (snd (update_bounty bid set d)).
Proof.
  intros Hid (Hnd & Hcids & Hfk). unfold update_bounty, int4_param.
  destruct (is_int4 bid); [|now repeat split].
  destruct (existsb _ _); [now repeat split|].
  destruct (negb _); [now repeat split|]. simpl.
  split; [exact Hnd|]. split; [exact Hcids|].
  intros c Hc. simpl in *. specialize (Hfk c Hc).
  unfold bounty_exists in *. simpl.
  apply (bounty_exists_kept (bounties d)); [|exact Hfk].
  intros b Hb.
  exists (if Bounty.id b =? bid then set b else b).
  split; [apply in_map_iff; eauto|].
  destruct (Bounty.id b =? bid); [apply Hid|reflexivity].
Qed.

Lemma claims_in_order_insert_bounty mid i a s c r t u d :
  (forall x, claims_in_order x -> claims_in_order (mid x)) ->
  claims_in_order d ->
  claims_in_order (snd (insert_bounty mid i a s c r t u d)).
Proof.
  intros Hmid H. unfold insert_bounty, int4_param.
  destruct (is_int4 c); [|exact H].
  destruct (negb (sequence_left _)); [exact H|].
  assert (Hnext : claims_in_order (nextval_bounties d)) by exact H.
  destruct (check_unique_open_bounty _ _); [exact Hnext|].
  pose proof (Hmid _ Hnext) as (Hnd & Hcids & Hfk).
  destruct (bounty_exists _ _); [now repeat split|].
  destruct (negb _); [now repeat split|]. simpl.
  split; [exact Hnd|]. split; [exact Hcids|].
  intros c0 Hc0. simpl in *. specialize (Hfk c0 Hc0).
  unfold bounty_exists in *. simpl. rewrite existsb_app, Hfk. reflexivity.
Qed.

Lemma claims_in_order_delete_bounty bid d :
  claims_in_order d -> claims_in_order (snd (delete_bounty bid d)).
Proof.
  intros (Hnd & Hcids & Hfk). unfold delete_bounty, int4_param.
  destruct (is_int4 bid); [|now repeat split].
  destruct (bounty_exists bid d && _) eqn:Hguard; [now repeat split|]. simpl.
  split; [exact Hnd|]. split; [exact Hcids|].
  intros c Hc. simpl in *. specialize (Hfk c Hc).
  unfold bounty_exists in *. simpl.
  apply existsb_exists in Hfk. destruct Hfk as [b [Hb Heq]].
  apply existsb_exists. exists b. split; [|exact Heq].
  apply filter_In. split; [exact Hb|].
  apply negb_true_iff. apply Z.eqb_eq in Heq.
  destruct (Bounty.id b =? bid) eqn:E; [|reflexivity].
  apply Z.eqb_eq in E. exfalso.
  apply andb_false_iff in Hguard. destruct Hguard as [Hg|Hg].
  - assert (Hex : existsb (fun b => Bounty.id b =? bid) (bounties d) = true)
      by (apply existsb_exists; exists b; split;
          [exact Hb|now apply Z.eqb_eq]).
    congruence.
  - pose proof (existsb_false_In _ _ Hg c Hc) as Hn. simpl in Hn.
    apply Z.eqb_neq in Hn. congruence.
Qed.

Lemma claims_in_order_delete_claims bid d :
  claims_in_order d -> claims_in_order (snd (delete_claims bid d)).
Proof.
  intros (Hnd & Hcids & Hfk). unfold delete_claims, int4_param.
  destruct (is_int4 bid); [|now repeat split]. simpl.
  split; [|split].
  - now apply NoDup_map_filter.
  - intros c Hc. simpl in *. apply filter_In in Hc. now apply Hcids.
  - intros c Hc. simpl in *. apply filter_In in Hc. now apply Hfk.
Qed.

Lemma claims_in_order_nextval d :
  claims_in_order d -> claims_in_order (nextval_bounty_claims d).
Proof.
  intros (Hnd & Hcids & Hfk). repeat split; try assumption.
  intros c Hc. simpl. specialize (Hcids c Hc). lia.
Qed.

(** The INSERT of a claim keeps the key and the reference whatever is
    committed inside it: both are checked as the row is stored. *)
Lemma claims_in_order_insert_claim mid column bid uid pr d :
  (forall x, claims_in_order x -> claims_in_order (mid x)) ->
  (forall x, later x (mid x)) ->
  claims_in_order d ->
  claims_in_order (snd (insert_bounty_claim mid column bid uid pr d)).
Proof.
  intros Hmid Hlater H. pose proof (claims_in_order_nextval H) as Hnext.
  unfold insert_bounty_claim, int4_param.
  destruct (negb (String.eqb column (claims_pr_column d))); [exact H|].
  destruct (is_int4 bid); [|exact H].
  destruct (is_int4 uid); [|exact H].
  destruct (negb (sequence_left _)); [exact H|].
  destruct (check_unique_claim_on_open_bounty _ _); [|exact Hnext].
  pose proof (Hmid _ Hnext) as H2.
  destruct (Hlater (nextval_bounty_claims d)) as (_ & Hseq & _).
  simpl in Hseq. cbn [Claim.id].
  destruct (existsb _ _) eqn:Hfresh; [exact H2|].
  destruct (bounty_exists bid _ && _) eqn:Hfknew; [|exact H2].
  cbn [snd]. apply andb_true_iff in Hfknew. destruct Hfknew as [Hbexists _].
  destruct H2 as (Hnd & Hcids & Hfk).
  split; [|split].
  - simpl. rewrite map_app. simpl.
    apply NoDup_app; [exact Hnd|repeat constructor; intros []|].
    intros x Hx [Hx'|[]]. subst x. apply in_map_iff in Hx.
    destruct Hx as [c [Hid Hc]].
    pose proof (existsb_false_In _ _ Hfresh c Hc) as Hne. simpl in Hne.
    apply Z.eqb_neq in Hne. contradiction.
  - intros c Hc. simpl in *. apply in_app_or in Hc.
    destruct Hc as [Hc|[Hc|[]]].
    + exact (Hcids c Hc).
    + subst c. simpl. lia.
  - intros c Hc. simpl in *. apply in_app_or in Hc.
    destruct Hc as [Hc|[Hc|[]]].
    + now apply Hfk.
    + subst c. exact Hbexists.
Qed.

Lemma claims_in_order_stable : stable claims_in_order.
Proof.
  constructor.
  - intros d us H. exact H.
  - intros. now apply claims_in_order_insert_bounty.
  - intros c bid d H. unfold update_status_and_claimed_by, int4_param.
    destruct (is_int4 c); [|exact H]. now apply claims_in_order_update.
  - intros. now apply claims_in_order_update.
  - intros. now apply claims_in_order_update.
  - intros. now apply claims_in_order_delete_claims.
  - intros. now apply claims_in_order_delete_bounty.
  - intros. now apply claims_in_order_insert_claim.
Qed.

Lemma reachable_claims_in_order d : reachable d -> claims_in_order d.
Proof.
  apply (reachable_invariant claims_in_order_stable).
  intros column infinity. repeat split; try (intros x []). constructor.
Qed.

(** X26. In every state of the store, whatever the name of the column and
    however the requests run into one another, the ids of the claims are
    a key, they are below the next value of their sequence, and every
    claim refers to a bounty that is stored.  (What the trigger of the
    table is there for, one claim per pull request over the open
    bounties, is not among them: the trigger looks at the table before
    the row is stored and sees no row that is committed after.) *)
Theorem claims_are_in_order d :
  reachable d ->
  NoDup (map Claim.id (bounty_claims d))
  /\ (forall c, In c (bounty_claims d) -> Claim.id c < bounty_claims_id_seq d)
  /\ (forall c, In c (bounty_claims d) ->
        exists b, In b (bounties d) /\ Bounty.id b = Claim.bounty_id c).
Proof.
  intros H. destruct (reachable_claims_in_order H) as (Hnd & Hc & Hfk).
  split; [exact Hnd|]. split; [exact Hc|].
  intros c Hin. specialize (Hfk c Hin). apply existsb_exists in Hfk.
  destruct Hfk as [b [Hb Heq]]. exists b. split; [exact Hb|].
  now apply Z.eqb_eq.
Qed.

Lemma fair_claims_overlapping : fair claims_overlapping.
Proof.
  split; intros x.
  - apply evolves_refl.
  - apply evolves_served.
Qed.

Lemma claimable_store_reachable :
  reachable
    (run quiet (creation issue_opened)
       (set_users [alice; bob] (created "pull_request_number" true))).
Proof.
  apply reach_run; [|exact fair_quiet].
  apply reach_accounts, reach_created.
Qed.

Lemma twice_claimed_store_reachable : reachable twice_claimed_store.
Proof.
  apply reach_run;
    [exact claimable_store_reachable|exact fair_claims_overlapping].
Qed.

Lemma claims_are_in_order_witness :
  bounty_claims twice_claimed_store
  = [{| Claim.id := 2; Claim.bounty_id := 1; Claim.user_id := 2;
        Claim.pull_request := 8 |};
     {| Claim.id := 1; Claim.bounty_id := 1; Claim.user_id := 2;
        Claim.pull_request := 8 |}]
  /\ NoDup (map Claim.id (bounty_claims twice_claimed_store)).
Proof.
  split; [reflexivity|].
  exact (proj1 (@claims_are_in_order twice_claimed_store
                  twice_claimed_store_reachable)).
Defined.

(* ------------------------------------------------------------------ *)
(** ** The status of a claim, as its claimant sees it *)

(** X27. After an approval that went through, every user with a claim on
    the bounty, whose id is of the type INTEGER, finds it in the list of
    claimed bounties with status payment pending, as accepted if the user
    is the approved claimant and as rejected otherwise. *)
Theorem approval_shows_in_claimed_bounties req_user bountyId claimantId w
    bounty owner claimant u :
  bounty_row bountyId (db w) = Some bounty ->
  Bounty.creator_id bounty = User.github_id req_user ->
  has_claim bountyId claimantId (db w) ->
  user_row (Bounty.creator_id bounty) (db w) = Some owner ->
  truthy_string (User.solana_address owner) = true ->
  user_row claimantId (db w) = Some claimant ->
  truthy_string (User.solana_address claimant) = true ->
  has_claim bountyId (User.github_id u) (db w) ->
  is_int4 (User.github_id u) = true ->
  exists rows w' row,
    claimed_bounties u
      (snd (approve_bounty_verify req_user bountyId claimantId w))
    = (Return (listed rows), w')
    /\ In row rows
    /\ ClaimedBounty.id row = bountyId
    /\ ClaimedBounty.status row = st_payment_pending
    /\ ClaimedBounty.claim_status row
       = if User.github_id u =? claimantId then Accepted else Rejected.
Proof.
  intros Hrow Hcreator Hclaim Ho Hoa Hc Hca [c [Hin [Hb Hu]]] Hrange.
  rewrite (@approve_succeeds req_user bountyId claimantId w bounty owner
             claimant Hrow Hcreator Hclaim Ho Hoa Hc Hca).
  apply bounty_row_found in Hrow. destruct Hrow as [_ [rest Hrow]].
  unfold claimed_bounties, try_catch, bind, query, select_claimed_bounties,
    int4_param.
  rewrite Hrange.
  cbn [snd db set_db bounties bounty_claims set_bounties fst].
  assert (Hbin : In bounty (filter (fun b => Bounty.id b =? bountyId)
                                   (bounties (db w))))
    by (rewrite Hrow; now left).
  apply filter_In in Hbin. destruct Hbin as [Hbin Hid].
  eexists. eexists.
  exists (claimed_bounty_row (User.github_id u) (approved claimantId bounty)).
  split; [reflexivity|]. split.
  - apply in_flat_map. exists c. split.
    + apply -> in_rev. apply filter_In. split; [exact Hin|].
      now apply Z.eqb_eq.
    + apply in_map. apply filter_In. split.
      * apply in_map_iff. exists bounty. split; [|exact Hbin].
        now rewrite Hid.
      * simpl. rewrite Hb. exact Hid.
  - apply Z.eqb_eq in Hid.
    split; [exact Hid|]. split; [reflexivity|].
    simpl. rewrite (Z.eqb_sym claimantId). reflexivity.
Qed.

Lemma approval_shows_in_claimed_bounties_witness :
  exists rows w' row,
    claimed_bounties carol
      (snd (approve_bounty_verify alice 9 2
              (request_world
                 (store9 st_open None [claim_of 1 2 7; claim_of 2 3 8]
                    "pull_request"))))
    = (Return (listed rows), w')
    /\ In row rows
    /\ ClaimedBounty.id row = 9
    /\ ClaimedBounty.claim_status row = Rejected.
Proof.
  destruct (@approval_shows_in_claimed_bounties alice 9 2
              (request_world
                 (store9 st_open None [claim_of 1 2 7; claim_of 2 3 8]
                    "pull_request"))
              (bounty9 st_open None) alice bob carol)
    as (rows & w' & row & Hrun & Hin & Hid & _ & Hstatus).
  - reflexivity.
  - reflexivity.
  - exists (claim_of 1 2 7). simpl. auto.
  - reflexivity.
  - reflexivity.
  - reflexivity.
  - reflexivity.
  - exists (claim_of 2 3 8). simpl. auto.
  - reflexivity.
  - exists rows, w', row. auto.
Defined.

(* ------------------------------------------------------------------ *)
(** ** Payout addresses *)

Lemma set_solana_address_runs req_user address w :
  is_int4 (User.github_id req_user) = true ->
  set_solana_address req_user address w
  = (Return address_connected_answer,
     set_db (snd (update_solana_address address (User.github_id req_user)
                    (db w))) w).
Proof.
  intros H.
  unfold set_solana_address, try_catch, bind, query, update_solana_address,
    int4_param.
  now rewrite H.
Qed.

Lemma user_row_after_address address uid uid' d :
  is_int4 uid' = true ->
  user_row uid (snd (update_solana_address address uid' d))
  = if uid =? uid'
    then option_map (with_solana_address address) (user_row uid d)
    else user_row uid d.
Proof.
  intros H'.
  unfold user_row, first_row, select_user, update_solana_address, int4_param.
  rewrite H'. destruct (is_int4 uid); simpl;
    [|now destruct (uid =? uid')].
  induction (users d) as [|u l IH]; simpl.
  - now destruct (uid =? uid').
  - destruct (User.github_id u =? uid') eqn:E'; simpl.
    + apply Z.eqb_eq in E'. destruct (User.github_id u =? uid) eqn:E.
      * apply Z.eqb_eq in E. assert (Hsame : (uid =? uid') = true)
          by (apply Z.eqb_eq; congruence).
        rewrite Hsame. reflexivity.
      * exact IH.
    + destruct (User.github_id u =? uid) eqn:E; [|exact IH].
      apply Z.eqb_eq in E. apply Z.eqb_neq in E'.
      assert (Hdiff : (uid =? uid') = false)
        by (apply Z.eqb_neq; congruence).
      rewrite Hdiff. reflexivity.
Qed.

(** X28. Connecting a payout address, by a user whose id is of the type
    INTEGER, answers 200 and leaves the bounties and the claims alone;
    once the creator and the claimant of a bounty, two users with
    accounts, have each connected an address that is not empty, the
    approval of the claimant goes through and answers with these two
    addresses and the amount of the bounty. *)
Theorem addresses_then_approval owner_user claimant_user a b bountyId w
    bounty :
  a <> [] -> b <> [] ->
  User.github_id owner_user <> User.github_id claimant_user ->
  is_int4 (User.github_id owner_user) = true ->
  is_int4 (User.github_id claimant_user) = true ->
  user_exists (User.github_id owner_user) (db w) = true ->
  user_exists (User.github_id claimant_user) (db w) = true ->
  bounty_row bountyId (db w) = Some bounty ->
  Bounty.creator_id bounty = User.github_id owner_user ->
  has_claim bountyId (User.github_id claimant_user) (db w) ->
  exists w1 w2 w3,
    set_solana_address owner_user (Some a) w
    = (Return address_connected_answer, w1)
    /\ set_solana_address claimant_user (Some b) w1
       = (Return address_connected_answer, w2)
    /\ bounties (db w2) = bounties (db w)
    /\ bounty_claims (db w2) = bounty_claims (db w)
    /\ approve_bounty_verify owner_user bountyId
         (User.github_id claimant_user) w2
       = (Return {| status_code := 200;
                    body := payout_body (Some a) (Some b)
                              (Bounty.amount bounty) bountyId |}, w3).
Proof.
  intros Ha Hb Hne Horange Hcrange Hoexists Hcexists Hrow Hcreator Hclaim.
  rewrite (@set_solana_address_runs owner_user (Some a) w Horange).
  eexists. eexists. eexists.
  split; [reflexivity|].
  rewrite (@set_solana_address_runs claimant_user (Some b) _ Hcrange).
  split; [reflexivity|].
  cbn [db set_db].
  assert (Hsame : forall address uid d,
            is_int4 uid = true ->
            bounties (snd (update_solana_address address uid d)) = bounties d
            /\ bounty_claims (snd (update_solana_address address uid d))
               = bounty_claims d).
  { intros address uid d H. unfold update_solana_address, int4_param.
    rewrite H. now split. }
  destruct (Hsame (Some a) _ (db w) Horange) as [Hb1 Hc1].
  destruct (Hsame (Some b) _
              (snd (update_solana_address (Some a)
                      (User.github_id owner_user) (db w))) Hcrange)
    as [Hb2 Hc2].
  split; [now rewrite Hb2, Hb1|]. split; [now rewrite Hc2, Hc1|].
  destruct (some_user_rows _ _ Hoexists) as (o & orest & Hofilter).
  destruct (some_user_rows _ _ Hcexists) as (c & crest & Hcfilter).
  assert (Ho : user_row (User.github_id owner_user) (db w) = Some o).
  { unfold user_row.
    rewrite (@select_user_runs _ (db w) Horange). unfold first_row. simpl.
    now rewrite Hofilter. }
  assert (Hc : user_row (User.github_id claimant_user) (db w) = Some c).
  { unfold user_row.
    rewrite (@select_user_runs _ (db w) Hcrange). unfold first_row. simpl.
    now rewrite Hcfilter. }
  match goal with |- approve_bounty_verify _ _ _ ?w2 = _ =>
    pose proof (@approve_succeeds owner_user bountyId
                  (User.github_id claimant_user) w2 bounty
                  (with_solana_address (Some a) o)
                  (with_solana_address (Some b) c)) as Happrove
  end.
  cbn [db set_db] in Happrove.
  rewrite Happrove; [reflexivity| | | | | | |].
  - unfold bounty_row in *.
    apply bounty_row_found in Hrow. destruct Hrow as [Hrange [rest Hrow]].
    rewrite (@select_bounty_runs bountyId _ Hrange). unfold first_row. simpl.
    now rewrite Hb2, Hb1, Hrow.
  - exact Hcreator.
  - destruct Hclaim as (cl & Hin & Hcl). exists cl.
    split; [now rewrite Hc2, Hc1|exact Hcl].
  - rewrite Hcreator.
    rewrite (@user_row_after_address _ _ _ _ Hcrange).
    rewrite (@user_row_after_address _ _ _ _ Horange).
    apply Z.eqb_neq in Hne. rewrite Hne, Z.eqb_refl, Ho. reflexivity.
  - destruct a; [congruence|reflexivity].
  - rewrite (@user_row_after_address _ _ _ _ Hcrange).
    rewrite (@user_row_after_address _ _ _ _ Horange).
    rewrite Z.eqb_refl.
    assert (Hne' : (User.github_id claimant_user =? User.github_id owner_user)
                   = false) by (apply Z.eqb_neq; congruence).
    rewrite Hne', Hc. reflexivity.
  - destruct b; [congruence|reflexivity].
Qed.

Lemma addresses_then_approval_witness :
  exists w1 w2 w3,
    set_solana_address alice (Some (js "AliceNewWallet"))
      (request_world
         (set_users [alice; bob; carol]
            (store9 st_open None [claim_of 1 3 7] "pull_request")))
    = (Return address_connected_answer, w1)
    /\ set_solana_address carol (Some (js "CarolWallet")) w1
       = (Return address_connected_answer, w2)
    /\ approve_bounty_verify alice 9 3 w2
       = (Return {| status_code := 200;
                    body := payout_body (Some (js "AliceNewWallet"))
                              (Some (js "CarolWallet")) 500 9 |}, w3).
Proof.
  destruct (@addresses_then_approval alice carol (js "AliceNewWallet")
              (js "CarolWallet") 9
              (request_world
                 (set_users [alice; bob; carol]
                    (store9 st_open None [claim_of 1 3 7] "pull_request")))
              (bounty9 st_open None))
    as (w1 & w2 & w3 & H1 & H2 & _ & _ & H3).
  - discriminate.
  - discriminate.
  - discriminate.
  - reflexivity.
  - reflexivity.
  - reflexivity.
  - reflexivity.
  - reflexivity.
  - reflexivity.
  - exists (claim_of 1 3 7). simpl. auto.
  - exists w1, w2, w3. auto.
Defined.

(* ------------------------------------------------------------------ *)
(** ** Where the notices go *)

Lemma split_on_no_separator (s : jsstring) :
  forallb (fun c => negb (N.eqb c slash)) s = true ->
  split_on slash s = [s].
Proof.
  induction s as [|c s IH]; simpl; intros H; [reflexivity|].
  apply andb_true_iff in H. destruct H as [Hc Hs].
  apply negb_true_iff in Hc. rewrite Hc, (IH Hs). reflexivity.
Qed.

Lemma split_on_owner_name (owner name : jsstring) :
  forallb (fun c => negb (N.eqb c slash)) owner = true ->
  forallb (fun c => negb (N.eqb c slash)) name = true ->
  split_on slash (owner ++ slash :: name) = [owner; name].
Proof.
  intros Ho Hn. induction owner as [|c owner IH]; simpl.
  - now rewrite (split_on_no_separator name Hn).
  - simpl in Ho. apply andb_true_iff in Ho. destruct Ho as [Hc Ho].
    apply negb_true_iff in Hc. rewrite Hc, (IH Ho). reflexivity.
Qed.

(** X29. The notices of an amount update and of a deletion go to the
    repository in which the bounty was created, its full name split at
    the slash into the owner and the name that the creation addressed,
    and they go under the id of the issue, where the comments of the
    creation went under its number. *)
Theorem notices_go_to_the_issue_id p i stored amount id oldAmount newAmount
    claimant :
  Repository.full_name (Payload.repository p)
  = Repository.owner_login (Payload.repository p)
    ++ slash :: Repository.name (Payload.repository p) ->
  forallb (fun c => negb (N.eqb c slash))
          (Repository.owner_login (Payload.repository p)) = true ->
  forallb (fun c => negb (N.eqb c slash))
          (Repository.name (Payload.repository p)) = true ->
  amendment_on_issue (created_bounty p i stored id) oldAmount newAmount
  = issues_createComment
      (Some (Repository.owner_login (Payload.repository p)))
      (Some (Repository.name (Payload.repository p)))
      (Issue.id i) (AmountUpdated oldAmount newAmount)
  /\ deletion_notice (created_bounty p i stored id) claimant id
     = issues_createComment
         (Some (Repository.owner_login (Payload.repository p)))
         (Some (Repository.name (Payload.repository p)))
         (Issue.id i) (BountyDeleted claimant id)
  /\ congratulation p i amount id
     = issues_createComment
         (Some (Repository.owner_login (Payload.repository p)))
         (Some (Repository.name (Payload.repository p)))
         (Issue.number i)
         (BountyCreated amount id (Repository.full_name (Payload.repository p))).
Proof.
  intros Hfull Ho Hn.
  unfold amendment_on_issue, deletion_notice, congratulation,
    issue_comment_on, split_nth.
  cbn [created_bounty Bounty.repository Bounty.issue_id].
  rewrite Hfull at 1 2 3 4.
  rewrite (split_on_owner_name _ _ Ho Hn). repeat split.
Qed.

Lemma notices_go_to_the_issue_id_witness :
  amendment_on_issue
    (created_bounty issue_opened
       (issue42 (Some (js "please fix /create-bounty 500"))) 500 1)
    500 (Finite 800)
  = issues_createComment (Some (js "org")) (Some (js "repo")) 4200
      (AmountUpdated 500 (Finite 800))
  /\ congratulation issue_opened
       (issue42 (Some (js "please fix /create-bounty 500"))) (Finite 500) 1
     = issues_createComment (Some (js "org")) (Some (js "repo")) 42
         (BountyCreated (Finite 500) 1 (js "org/repo")).
Proof.
  destruct (@notices_go_to_the_issue_id issue_opened
              (issue42 (Some (js "please fix /create-bounty 500")))
              500 (Finite 500) 1 500 (Finite 800) 2)
    as (Hamend & _ & Hcongrats).
  - reflexivity.
  - reflexivity.
  - reflexivity.
  - split; [exact Hamend|exact Hcongrats].
Defined.

(* ------------------------------------------------------------------ *)
(** ** A creation overtaken by another *)

Lemma open_bounty_fires_trigger NEW d :
  Bounty.is_open NEW = true ->
  (forall b, In b (bounties d) -> Bounty.id b < Bounty.id NEW) ->
  open_bounties_of_issue (Bounty.issue_id NEW) d <> [] ->
  check_unique_open_bounty NEW d = true.
Proof.
  intros Hopen Hids Hsome. unfold check_unique_open_bounty.
  rewrite Hopen. simpl.
  destruct (open_bounties_of_issue (Bounty.issue_id NEW) d) as [|b rest] eqn:E;
    [congruence|].
  assert (Hb : In b (open_bounties_of_issue (Bounty.issue_id NEW) d))
    by (rewrite E; now left).
  apply filter_In in Hb. destruct Hb as [Hin Hb].
  apply andb_true_iff in Hb. destruct Hb as [Hissue Hbopen].
  apply existsb_exists. exists b. split; [exact Hin|].
  rewrite Hissue, Hbopen.
  assert (Hne : (Bounty.id b =? Bounty.id NEW) = false)
    by (apply Z.eqb_neq; specialize (Hids b Hin); lia).
  now rewrite Hne.
Qed.

(** X30. A creation that finds no open bounty for its issue and is
    overtaken, another request committing an open bounty for the issue
    after the look-up and before the INSERT starts, is stopped by the
    trigger: with a number other than zero that the server can store, a
    sender whose id is of the type INTEGER and the ids of the stored
    bounties below the next value of the sequence, which has not run out,
    it stores no row and posts nothing, the error P0001 is logged and
    thrown on, and the table is as the other request left it. *)
Theorem overtaken_creation_stores_nothing env p w text amount i :
  creation_reads p text ->
  command_argument create_token text = Some amount ->
  falsy (Some amount) = false ->
  Payload.issue p = Some i ->
  storable (between env (db w)) amount = true ->
  is_int4 (Payload.sender_id p) = true ->
  open_bounties_of_issue (Issue.id i) (db w) = [] ->
  open_bounties_of_issue (Issue.id i) (between env (db w)) <> [] ->
  ids_below_seq (between env (db w)) ->
  sequence_left (bounties_id_seq (between env (db w))) = true ->
  exists w',
    handleBountyCreation env p w = (Throw (PgError raise_exception), w')
    /\ bounties (db w') = bounties (between env (db w))
    /\ outbox w' = outbox w
    /\ console w'
       = console w
         ++ [console_error "Error creating bounty:" (PgError raise_exception)].
Proof.
  intros Hreads Harg Hfalsy Hissue Hstorable Hsender Hnone Hsome Hids Hleft.
  unfold handleBountyCreation. unfold bind at 1.
  rewrite (@creation_amount_reads p text w Hreads), Harg.
  rewrite Hfalsy, Hissue.
  unfold try_catch, bind at 1. unfold query at 1, select_open_bounty_of_issue.
  simpl. rewrite Hnone.
  unfold bind at 1. unfold interleave. simpl.
  unfold bind at 1. unfold query, numeric_param, insert_bounty, int4_param.
  cbn [db set_db]. rewrite Hstorable, Hsender, Hleft. cbn [negb].
  match goal with |- context [check_unique_open_bounty ?NEW ?d1] =>
    assert (Htrig : check_unique_open_bounty NEW d1 = true)
  end.
  { apply open_bounty_fires_trigger.
    - reflexivity.
    - intros b Hb. simpl in *. exact (Hids b Hb).
    - exact Hsome. }
  rewrite Htrig. simpl. eexists. split; [reflexivity|]. simpl. auto.
Qed.

Lemma overtaken_creation_stores_nothing_witness :
  exists w',
    handleBountyCreation racing (issue_commented "/create-bounty 500")
      (request_world signed_in)
    = (Throw (PgError raise_exception), w')
    /\ bounties (db w') = bounties one_bounty_by_comment
    /\ outbox w' = [].
Proof.
  destruct (@overtaken_creation_stores_nothing racing
              (issue_commented "/create-bounty 500")
              (request_world signed_in) (js "/create-bounty 500") (Finite 500)
              (issue42 (Some (js "please fix"))))
    as (w' & Hrun & Hrows & Hout & _).
  - left. reflexivity.
  - reflexivity.
  - reflexivity.
  - reflexivity.
  - reflexivity.
  - reflexivity.
  - reflexivity.
  - vm_compute. discriminate.
  - intros b Hb. vm_compute in Hb. destruct Hb as [Hb|[]]. subst b.
    vm_compute. reflexivity.
  - reflexivity.
  - exists w'. split; [exact Hrun|]. split; [exact Hrows|exact Hout].
Defined.
